(** * LearnTrack: course-deadline status engine and daily reminder job

    A shallow embedding of the Python sources

      - [models/course_models.py]      (enums and dataclasses)
      - [services/status_service.py]   (ScheduleStatusService)
      - [services/email_templates.py]  (templates and EmailTemplateFactory)
      - [services/email_service.py]    (EmailService)
      - [jobs/daily_reminder_job.py]   (DailyReminderJob)

      - [api/app.py]                   (the paging of get_email_logs)

    Python exceptions are values of [exn]; a function that may raise returns
    a [result].  Methods that mutate objects, read the clock or touch
    files run in the state-and-exception monad [M] over the environment
    [Env] paired with the object.  [calculate_status] is embedded twice:
    as a function of the values of its arguments, and, in [Objects], as a
    method call on references into a store of objects; the two are shown
    to agree.  Output written with [print] is not modelled. *)

From Stdlib Require Import ZArith String Ascii List Lia DecimalString.
From stdpp Require Import base option list gmap strings.

Open Scope string_scope.
Open Scope Z_scope.

(** ** Python text helpers *)

Module PyStr.

(** [str(n)] for an [int]. *)
Definition of_int (n : Z) : string := NilZero.string_of_int (Z.to_int n).

Fixpoint zeros (k : nat) : string :=
  match k with
  | O => ""
  | S k' => String "0" (zeros k')
  end.

(** ["%0<w>d" % n] for a non-negative [n]. *)
Definition zfill (w : nat) (n : Z) : string :=
  let s := of_int n in
  zeros (w - String.length s) +:+ s.

Definition newline : string := String (ascii_of_nat 10) "".

(** [sep.join(parts)] *)
Definition join (sep : string) (parts : list string) : string :=
  String.concat sep parts.

(** The bullet U+2022 as its three UTF-8 bytes. *)
Definition bullet : string :=
  String (ascii_of_nat 226) (String (ascii_of_nat 128) (String (ascii_of_nat 162) "")).

End PyStr.

(** ** [datetime]

    A naive [datetime] is a point on the proleptic Gregorian time line,
    kept as the number of microseconds since 0001-01-01T00:00:00.
    The difference of two datetimes is a [timedelta]; its [days] attribute
    is the floor of the difference in whole days (CPython normalises a
    timedelta so that seconds and microseconds are non-negative). *)

Module Datetime.

Record datetime := from_ticks { ticks : Z }.

Definition us_per_day : Z := 86400000000.

Record timedelta := from_micros { total_us : Z }.

(** [a - b] *)
Definition sub (a b : datetime) : timedelta :=
  from_micros (ticks a - ticks b).

(** [td.days] *)
Definition days (td : timedelta) : Z := total_us td / us_per_day.

(** [dt + timedelta(days=n)] *)
Definition add_days (dt : datetime) (n : Z) : datetime :=
  from_ticks (ticks dt + n * us_per_day).

(** Calendar arithmetic of CPython's [datetime] module. *)
Definition is_leap (y : Z) : bool :=
  (y mod 4 =? 0) && (negb (y mod 100 =? 0) || (y mod 400 =? 0)).

Definition days_before_year (y : Z) : Z :=
  let p := y - 1 in p * 365 + p / 4 - p / 100 + p / 400.

Definition days_in_month_tbl : list Z :=
  [31; 28; 31; 30; 31; 30; 31; 31; 30; 31; 30; 31].

Definition days_in_month (leap : bool) (m : Z) : Z :=
  if (m =? 2) && leap then 29
  else nth (Z.to_nat (m - 1)) days_in_month_tbl 0.

Definition days_before_month_tbl (m : Z) : Z :=
  fold_right Z.add 0 (firstn (Z.to_nat (m - 1)) days_in_month_tbl).

Definition days_before_month (leap : bool) (m : Z) : Z :=
  days_before_month_tbl m + (if (2 <? m) && leap then 1 else 0).

Definition ymd2ord (y m d : Z) : Z :=
  days_before_year y + days_before_month (is_leap y) m + d.

(** [datetime(y, m, d, hh, mm, ss)] *)
Definition make (y m d hh mm ss : Z) : datetime :=
  from_ticks (((ymd2ord y m d - 1) * 86400 + hh * 3600 + mm * 60 + ss) * 1000000).

Definition toordinal (dt : datetime) : Z := ticks dt / us_per_day + 1.

(** [_ord2ymd] *)
Definition ord2ymd (ordinal : Z) : Z * Z * Z :=
  let n := ordinal - 1 in
  let n400 := n / 146097 in
  let n := n mod 146097 in
  let year := n400 * 400 + 1 in
  let n100 := n / 36524 in
  let n := n mod 36524 in
  let n4 := n / 1461 in
  let n := n mod 1461 in
  let n1 := n / 365 in
  let n := n mod 365 in
  let year := year + n100 * 100 + n4 * 4 + n1 in
  if (n1 =? 4) || (n100 =? 4) then (year - 1, 12, 31)
  else
    let leapyear := (n1 =? 3) && (negb (n4 =? 24) || (n100 =? 3)) in
    let month := Z.shiftr (n + 50) 5 in
    let preceding := days_before_month leapyear month in
    if n <? preceding then
      let month := month - 1 in
      let preceding := preceding - days_in_month leapyear month in
      (year, month, n - preceding + 1)
    else (year, month, n - preceding + 1).

(** [dt.strftime('%Y-%m-%d')], for the years 1000 to 9999 where every
    platform prints four digits. *)
Definition strftime_ymd (dt : datetime) : string :=
  let '(y, m, d) := ord2ymd (toordinal dt) in
  PyStr.zfill 4 y +:+ "-" +:+ PyStr.zfill 2 m +:+ "-" +:+ PyStr.zfill 2 d.

(** [dt.isoformat()] *)
Definition isoformat (dt : datetime) : string :=
  let r := ticks dt mod us_per_day in
  let secs := r / 1000000 in
  let us := r mod 1000000 in
  strftime_ymd dt +:+ "T" +:+ PyStr.zfill 2 (secs / 3600) +:+ ":"
    +:+ PyStr.zfill 2 (secs mod 3600 / 60) +:+ ":" +:+ PyStr.zfill 2 (secs mod 60)
    +:+ (if us =? 0 then "" else "." +:+ PyStr.zfill 6 us).

End Datetime.
Export Datetime.

(** ** Exceptions *)

Inductive exn :=
| AttributeError (msg : string)
| FileNotFoundError (path : string)
| JSONDecodeError
| PermissionError (path : string)
| TypeError (msg : string).

Inductive result (A : Type) :=
| Ok (a : A)
| Raise (e : exn).
Arguments Ok {A} a.
Arguments Raise {A} e.

Definition rbind {A B} (r : result A) (k : A -> result B) : result B :=
  match r with
  | Ok a => k a
  | Raise e => Raise e
  end.

(** ** models/course_models.py *)

Module EnrollmentStatus.

Inductive t := ENROLLED | IN_PROGRESS | COMPLETED.

#[global] Instance eq_dec : EqDecision t.
Proof. solve_decision. Defined.

Definition value (s : t) : string :=
  match s with
  | ENROLLED => "Enrolled"
  | IN_PROGRESS => "In Progress"
  | COMPLETED => "Completed"
  end.

End EnrollmentStatus.

Module ScheduleStatus.

Inductive t := STARTED | NEEDS_REMINDER | PROGRESSED | COMPLETED.

#[global] Instance eq_dec : EqDecision t.
Proof. solve_decision. Defined.

Definition value (s : t) : string :=
  match s with
  | STARTED => "started"
  | NEEDS_REMINDER => "needs reminder"
  | PROGRESSED => "progressed"
  | COMPLETED => "completed"
  end.

End ScheduleStatus.

Module CourseEnrollment.

Record t := make {
  course_id : string;
  status : EnrollmentStatus.t;
  enrollment_date : datetime;
  start_date : option datetime;
  completion_date : option datetime
}.

Definition is_completed (self : t) : bool :=
  bool_decide (status self = EnrollmentStatus.COMPLETED).

Definition is_started (self : t) : bool :=
  match start_date self with Some _ => true | None => false end.

Definition days_since_enrollment (self : t) (current_date : datetime) : Z :=
  days (sub current_date (enrollment_date self)).

(** A [datetime] is always truthy, so [not self.start_date] holds exactly
    when the start date is [None]. *)
Definition days_since_start (self : t) (current_date : datetime) : Z :=
  match start_date self with
  | None => 0
  | Some start => days (sub current_date start)
  end.

End CourseEnrollment.

Module CourseSchedule.

Record t := make {
  course_id : string;
  days_to_complete : Z;
  batch : Z
}.

End CourseSchedule.

Module CourseScheduleStatus.

Record t := make {
  course_id : string;
  status : ScheduleStatus.t;
  enrollment : option CourseEnrollment.t;
  schedule : CourseSchedule.t;
  days_overdue : Z;
  message : string
}.

Definition needs_reminder (self : t) : bool :=
  bool_decide (status self = ScheduleStatus.NEEDS_REMINDER).

End CourseScheduleStatus.

Module User.

Record t := make {
  user_id : string;
  name : string;
  email : string;
  manager_email : string;
  hire_date : datetime
}.

End User.

(** ** services/status_service.py *)

Module ScheduleStatusService.

Import CourseEnrollment.

Record t := make {
  schedules_map : gmap string CourseSchedule.t
}.

(** [__init__]: a dict comprehension, so a later schedule with the same
    course id replaces an earlier one. *)
Definition init (schedules : list CourseSchedule.t) : t :=
  make (foldl (fun m s => <[CourseSchedule.course_id s := s]> m) ∅ schedules).

(** [enrollment.completion_date.strftime('%Y-%m-%d')]: attribute access
    on [None] raises. *)
Definition completion_date_strftime (enrollment : CourseEnrollment.t) : result string :=
  match completion_date enrollment with
  | Some c => Ok (strftime_ymd c)
  | None => Raise (AttributeError "'NoneType' object has no attribute 'strftime'")
  end.

Definition calculate_status (self : t) (enrollment : CourseEnrollment.t)
    (schedule : CourseSchedule.t) (current_date : datetime)
    : result CourseScheduleStatus.t :=
  let days_since_enrollment := days_since_enrollment enrollment current_date in
  let days_overdue :=
    Z.max 0 (days_since_enrollment - CourseSchedule.days_to_complete schedule) in
  if is_completed enrollment then
    rbind (completion_date_strftime enrollment) (fun date =>
      Ok (CourseScheduleStatus.make (course_id enrollment) ScheduleStatus.COMPLETED
            (Some enrollment) schedule 0 ("Completed on " +:+ date)))
  else if CourseSchedule.days_to_complete schedule <? days_since_enrollment then
    let status_detail :=
      if negb (is_started enrollment) then "Not started"
      else "In progress but overdue" in
    Ok (CourseScheduleStatus.make (course_id enrollment) ScheduleStatus.NEEDS_REMINDER
          (Some enrollment) schedule days_overdue
          (status_detail +:+ " - " +:+ PyStr.of_int days_overdue +:+ " days overdue"))
  else if bool_decide (status enrollment = EnrollmentStatus.IN_PROGRESS) then
    let days_remaining :=
      CourseSchedule.days_to_complete schedule - days_since_enrollment in
    Ok (CourseScheduleStatus.make (course_id enrollment) ScheduleStatus.PROGRESSED
          (Some enrollment) schedule 0
          ("In progress - " +:+ PyStr.of_int days_remaining +:+ " days remaining"))
  else if is_started enrollment then
    let days_remaining :=
      CourseSchedule.days_to_complete schedule - days_since_enrollment in
    Ok (CourseScheduleStatus.make (course_id enrollment) ScheduleStatus.STARTED
          (Some enrollment) schedule 0
          ("Started - " +:+ PyStr.of_int days_remaining +:+ " days remaining"))
  else
    let days_remaining :=
      CourseSchedule.days_to_complete schedule - days_since_enrollment in
    Ok (CourseScheduleStatus.make (course_id enrollment) ScheduleStatus.STARTED
          (Some enrollment) schedule 0
          ("Enrolled - " +:+ PyStr.of_int days_remaining +:+ " days to start and complete")).


(** The loop of [calculate_user_status]; [statuses] is the list built so
    far.  [dict.get] gives [None] for a course without a schedule, and
    a schedule object is always truthy, so [not schedule] holds exactly
    then. *)
Fixpoint calculate_user_status_loop (self : t)
    (enrollments : list CourseEnrollment.t) (current_date : datetime)
    (statuses : list CourseScheduleStatus.t)
    : result (list CourseScheduleStatus.t) :=
  match enrollments with
  | [] => Ok statuses
  | enrollment :: rest =>
      match schedules_map self !! course_id enrollment with
      | None => calculate_user_status_loop self rest current_date statuses
      | Some schedule =>
          rbind (calculate_status self enrollment schedule current_date)
            (fun status =>
               calculate_user_status_loop self rest current_date
                 (statuses ++ [status])%list)
      end
  end.

Definition calculate_user_status (self : t)
    (enrollments : list CourseEnrollment.t) (current_date : datetime)
    : result (list CourseScheduleStatus.t) :=
  calculate_user_status_loop self enrollments current_date [].

Definition get_courses_needing_reminder (self : t)
    (enrollments : list CourseEnrollment.t) (current_date : datetime)
    : result (list CourseScheduleStatus.t) :=
  rbind (calculate_user_status self enrollments current_date)
    (fun all_statuses =>
       Ok (List.filter CourseScheduleStatus.needs_reminder all_statuses)).

(** The summary dict of [get_user_summary]; its five keys are fixed. *)
Record summary := make_summary {
  total_courses : Z;
  completed : Z;
  in_progress : Z;
  needs_reminder : Z;
  on_track : Z
}.

(** One pass of the summary loop. *)
Definition summary_step (summary : summary) (status : CourseScheduleStatus.t)
    : ScheduleStatusService.summary :=
  if bool_decide (CourseScheduleStatus.status status = ScheduleStatus.COMPLETED) then
    make_summary (total_courses summary) (completed summary + 1)
      (in_progress summary) (needs_reminder summary) (on_track summary)
  else if bool_decide (CourseScheduleStatus.status status = ScheduleStatus.NEEDS_REMINDER) then
    make_summary (total_courses summary) (completed summary)
      (in_progress summary) (needs_reminder summary + 1) (on_track summary)
  else if bool_decide (CourseScheduleStatus.status status
                         ∈ [ScheduleStatus.PROGRESSED; ScheduleStatus.STARTED]) then
    let summary :=
      make_summary (total_courses summary) (completed summary)
        (in_progress summary + 1) (needs_reminder summary) (on_track summary) in
    if CourseScheduleStatus.days_overdue status =? 0 then
      make_summary (total_courses summary) (completed summary)
        (in_progress summary) (needs_reminder summary) (on_track summary + 1)
    else summary
  else summary.

Definition get_user_summary (self : t)
    (enrollments : list CourseEnrollment.t) (current_date : datetime)
    : result summary :=
  rbind (calculate_user_status self enrollments current_date)
    (fun all_statuses =>
       let summary := make_summary (Z.of_nat (length all_statuses)) 0 0 0 0 in
       Ok (foldl summary_step summary all_statuses)).

End ScheduleStatusService.

(** ** services/email_templates.py *)

Module EmailTemplates.

(** The four subclasses of [EmailTemplate]. *)
Inductive template_class :=
| NeedsReminderTemplate
| ProgressedTemplate
| StartedTemplate
| CompletedTemplate.

(** An instance: its class and the [user] stored by [__init__]. *)
Record EmailTemplate := template {
  cls : template_class;
  user : User.t
}.

Definition generate_subject (self : EmailTemplate) : string :=
  match cls self with
  | NeedsReminderTemplate =>
      "[Action Required] Course Completion Reminder for " +:+ User.name (user self)
  | ProgressedTemplate =>
      "Great Progress on Your Learning Journey, " +:+ User.name (user self) +:+ "!"
  | StartedTemplate =>
      "Welcome to Your Learning Journey, " +:+ User.name (user self) +:+ "!"
  | CompletedTemplate =>
      "Congratulations on Completing Your Courses, " +:+ User.name (user self) +:+ "!"
  end.

Definition course_details (courses : list CourseScheduleStatus.t) : string :=
  PyStr.join PyStr.newline
    (map (fun course =>
            "  " +:+ PyStr.bullet +:+ " " +:+ CourseScheduleStatus.course_id course
              +:+ ": " +:+ CourseScheduleStatus.message course)
         courses).

Definition generate_body (self : EmailTemplate)
    (courses : list CourseScheduleStatus.t) : string :=
  let name := User.name (user self) in
  match cls self with
  | NeedsReminderTemplate => "
Hi " +:+ name +:+ ",

This is a friendly reminder that you have courses that require your attention. 
The following courses are overdue and need to be completed:

" +:+ course_details courses +:+ "

Please prioritize completing these courses to stay on track with your learning goals.

If you're experiencing any difficulties, please reach out to your manager or the L&D team.

Best regards,
Learning & Development Team
"
  | ProgressedTemplate => "
Hi " +:+ name +:+ ",

We wanted to acknowledge your excellent progress on your assigned courses!

Current Progress:
" +:+ course_details courses +:+ "

Keep up the great work! You're on track to complete your learning goals.

Best regards,
Learning & Development Team
"
  | StartedTemplate => "
Hi " +:+ name +:+ ",

Welcome! We're excited to see you've started your learning journey.

Your Active Courses:
" +:+ course_details courses +:+ "

Remember to complete these courses within the allocated timeframe. If you need any support, 
don't hesitate to reach out.

Best regards,
Learning & Development Team
"
  | CompletedTemplate => "
Hi " +:+ name +:+ ",

Congratulations! You've successfully completed the following courses:

" +:+ course_details courses +:+ "

Your dedication to continuous learning is commendable. These accomplishments have been 
recorded and your manager has been notified.

Best regards,
Learning & Development Team
"
  end.

(** One row of a manager's report, the dict built by the job for each
    team member. *)
Record user_summary := make_user_summary {
  user_name : string;
  user_email : string;
  completed_count : Z;
  in_progress_count : Z;
  needs_reminder_count : Z;
  total_courses : Z
}.

Record ManagerSummaryTemplate := manager_template {
  manager_email : string
}.

Definition manager_generate_subject (self : ManagerSummaryTemplate)
    (user_count : Z) : string :=
  "Daily Learning Progress Report - " +:+ PyStr.of_int user_count +:+ " Team Members".

Definition summary_line (summary : user_summary) : string :=
  let needs_attention := needs_reminder_count summary in
  let status_emoji :=
    if 0 <? needs_attention then "[NEEDS ATTENTION]" else "[COMPLETED]" in
  status_emoji +:+ " " +:+ user_name summary +:+ ": "
    +:+ PyStr.of_int (completed_count summary) +:+ " completed, "
    +:+ PyStr.of_int (in_progress_count summary) +:+ " in progress, "
    +:+ PyStr.of_int needs_attention +:+ " needs attention".

Definition manager_generate_body (self : ManagerSummaryTemplate)
    (user_summaries : list user_summary) : string :=
  let summary_text := PyStr.join PyStr.newline (map summary_line user_summaries) in
  "
Hello,

Here's your daily learning progress report for your team:

" +:+ summary_text +:+ "

Team members with courses needing attention have been sent reminder emails.

For detailed progress information, please check the learning management dashboard.

Best regards,
Learning & Development Team
".

(** What a caller may pass as [status]: Python does not check the
    annotation, so besides the members of [ScheduleStatus] the argument
    can be any other hashable value.  Members of different enums, and
    an enum member and its string value, are never equal. *)
Inductive tag :=
| ScheduleTag (s : ScheduleStatus.t)
| EnrollmentTag (s : EnrollmentStatus.t)
| StrTag (s : string)
| IntTag (n : Z)
| NoneTag.

#[global] Instance tag_eq_dec : EqDecision tag.
Proof. solve_decision. Defined.

(** [d.get(key, default)] on a dict written as its item list. *)
Fixpoint dict_get {V} (d : list (tag * V)) (key : tag) (default : V) : V :=
  match d with
  | [] => default
  | (k, v) :: rest => if decide (k = key) then v else dict_get rest key default
  end.

Module EmailTemplateFactory.

Definition template_map : list (tag * template_class) :=
  [ (ScheduleTag ScheduleStatus.NEEDS_REMINDER, NeedsReminderTemplate);
    (ScheduleTag ScheduleStatus.PROGRESSED, ProgressedTemplate);
    (ScheduleTag ScheduleStatus.STARTED, StartedTemplate);
    (ScheduleTag ScheduleStatus.COMPLETED, CompletedTemplate) ].

Definition get_template (status : tag) (user : User.t) : EmailTemplate :=
  let template_class := dict_get template_map status NeedsReminderTemplate in
  template template_class user.

Definition get_manager_template (manager_email : string)
    : ManagerSummaryTemplate :=
  manager_template manager_email.

End EmailTemplateFactory.

End EmailTemplates.

(** ** Files, the clock, and the monad of effects *)

(** JSON values, as [json.load] returns them and [json.dump] takes them. *)
#[local] Unset Elimination Schemes.
Inductive json :=
| JNull
| JNum (n : Z)
| JStr (s : string)
| JList (items : list json)
| JDict (items : list (string * json)).
#[local] Set Elimination Schemes.

(** The three data files, held as the records [from_dict] builds from
    their entries. *)
Inductive data_file :=
| UsersJson (users : list User.t)
| SchedulesJson (schedules : list CourseSchedule.t)
| EnrollmentsJson (by_user : list (string * list CourseEnrollment.t)).

(** Any other file: a JSON document, or text that [json.load] rejects. *)
Inductive file :=
| Json (j : json)
| NotJson.

(** The environment of a run: the data files and the other files by path
    (the email log is not one of the data files), which paths can be
    opened for writing, and the clock read by [datetime.now()], whose
    [n]-th reading is [clock n].  A file that exists can be read, and a
    write to a writable path replaces the file in one step. *)
Record Env := make_env {
  data_files : gmap string data_file;
  files : gmap string file;
  writable : string -> bool;
  clock : nat -> datetime;
  clock_reads : nat
}.

Definition M (W A : Type) : Type := W -> result A * W.

Definition ret {W A} (a : A) : M W A := fun s => (Ok a, s).

Definition raise {W A} (e : exn) : M W A := fun s => (Raise e, s).

Definition bind {W A B} (m : M W A) (k : A -> M W B) : M W B :=
  fun s =>
    match m s with
    | (Ok a, s') => k a s'
    | (Raise e, s') => (Raise e, s')
    end.

(** [try: m  except ...: handler]; state changes made before the raise stay. *)
Definition try_except {W A} (m : M W A) (handler : exn -> M W A) : M W A :=
  fun s =>
    match m s with
    | (Ok a, s') => (Ok a, s')
    | (Raise e, s') => handler e s'
    end.

Definition lift_result {W A} (r : result A) : M W A := fun s => (r, s).

Notation "'let!' x ':=' m 'in' k" := (bind m (fun x => k))
  (at level 10, x name, m at level 100, k at level 200).
Notation "'do!' m 'in' k" := (bind m (fun _ => k))
  (at level 10, m at level 100, k at level 200).

Definition now {W} : M (Env * W) datetime :=
  fun '(env, s) =>
    (Ok (clock env (clock_reads env)),
     (make_env (data_files env) (files env) (writable env) (clock env)
        (S (clock_reads env)), s)).

(** [with open(path, 'r') as f: json.load(f)] *)
Definition json_load {W} (path : string) : M (Env * W) json :=
  fun '(env, s) =>
    match files env !! path with
    | None => (Raise (FileNotFoundError path), (env, s))
    | Some NotJson => (Raise JSONDecodeError, (env, s))
    | Some (Json j) => (Ok j, (env, s))
    end.

(** [with open(path, 'w') as f: json.dump(doc, f, indent=2)] *)
Definition json_dump {W} (path : string) (doc : json) : M (Env * W) unit :=
  fun '(env, s) =>
    if writable env path then
      (Ok tt,
       (make_env (data_files env) (<[path := Json doc]> (files env))
          (writable env) (clock env) (clock_reads env), s))
    else (Raise (PermissionError path), (env, s)).

(** [with open(path, 'r') as f: json.load(f)] on a data file. *)
Definition data_load {W} (path : string) : M (Env * W) data_file :=
  fun '(env, s) =>
    match data_files env !! path with
    | None => (Raise (FileNotFoundError path), (env, s))
    | Some d => (Ok d, (env, s))
    end.

(** ** services/email_service.py *)

Module EmailService.

Import EmailTemplates.

Record t := make {
  log_file : string;
  sent_emails : list json
}.

Definition init (log_file : string) : t := make log_file [].

Definition default_log_file : string := "data/email_log.json".

Definition St : Type := Env * t.

Definition self_ : M St t := fun '(env, self) => (Ok self, (env, self)).

Definition _log_email (email_record : json) : M St unit :=
  fun '(env, self) =>
    (Ok tt, (env, make (log_file self) (sent_emails self ++ [email_record])%list)).

Definition send_user_reminder (user : User.t)
    (courses : list CourseScheduleStatus.t) (status_type : ScheduleStatus.t)
    : M St bool :=
  match courses with
  | [] => ret false
  | _ =>
      let template := EmailTemplateFactory.get_template (ScheduleTag status_type) user in
      let subject := generate_subject template in
      let body := generate_body template courses in
      let! timestamp := now in
      let email_record :=
        JDict [ ("timestamp", JStr (isoformat timestamp));
                ("to", JStr (User.email user));
                ("from", JStr "noreply@learningplatform.com");
                ("subject", JStr subject);
                ("body", JStr body);
                ("type", JStr "user_reminder");
                ("status_type", JStr (ScheduleStatus.value status_type));
                ("course_ids",
                 JList (map (fun course => JStr (CourseScheduleStatus.course_id course))
                          courses)) ] in
      do! _log_email email_record in
      ret true
  end.

Definition send_manager_summary (manager_email : string)
    (user_summaries : list user_summary) : M St bool :=
  match user_summaries with
  | [] => ret false
  | _ =>
      let template := EmailTemplateFactory.get_manager_template manager_email in
      let subject :=
        manager_generate_subject template (Z.of_nat (length user_summaries)) in
      let body := manager_generate_body template user_summaries in
      let! timestamp := now in
      let email_record :=
        JDict [ ("timestamp", JStr (isoformat timestamp));
                ("to", JStr manager_email);
                ("from", JStr "noreply@learningplatform.com");
                ("subject", JStr subject);
                ("body", JStr body);
                ("type", JStr "manager_summary");
                ("user_count", JNum (Z.of_nat (length user_summaries))) ] in
      do! _log_email email_record in
      ret true
  end.

(** [existing_logs.extend(new)]: only a list has the method. *)
Definition extend (existing_logs : json) (new : list json) : result json :=
  match existing_logs with
  | JList items => Ok (JList (items ++ new)%list)
  | _ => Raise (AttributeError "object has no attribute 'extend'")
  end.

Definition save_email_log : M St unit :=
  try_except
    (let! self := self_ in
     let! existing_logs :=
       try_except (json_load (log_file self))
         (fun e =>
            match e with
            | FileNotFoundError _ | JSONDecodeError => ret (JList [])
            | _ => raise e
            end) in
     let! existing_logs := lift_result (extend existing_logs (sent_emails self)) in
     json_dump (log_file self) existing_logs)
    (fun e => ret tt).

(** What [email[key]] can raise for a string key. *)
Inductive subscript_error :=
| KeyError (key : string)
| NotSubscriptable.

Fixpoint items_get (items : list (string * json)) (key : string) : option json :=
  match items with
  | [] => None
  | (k, v) :: rest => if decide (k = key) then Some v else items_get rest key
  end.

(** [email[key]]: a dict is looked up; any other JSON value takes no
    string subscript. *)
Definition getitem (email : json) (key : string) : subscript_error + json :=
  match email with
  | JDict items =>
      match items_get items key with
      | Some v => inr v
      | None => inl (KeyError key)
      end
  | _ => inl NotSubscriptable
  end.

(** The dict of [get_email_statistics]; its three keys are fixed. *)
Record statistics := make_statistics {
  total_sent : Z;
  user_reminders : Z;
  manager_summaries : Z
}.

(** One pass of the loop of [get_email_statistics]. *)
Definition statistics_step (stats : statistics) (email : json)
    : subscript_error + statistics :=
  match getitem email "type" with
  | inl err => inl err
  | inr (JStr "user_reminder") =>
      inr (make_statistics (total_sent stats) (user_reminders stats + 1)
             (manager_summaries stats))
  | inr (JStr "manager_summary") =>
      inr (make_statistics (total_sent stats) (user_reminders stats)
             (manager_summaries stats + 1))
  | inr _ => inr stats
  end.

Fixpoint statistics_loop (stats : statistics) (emails : list json)
    : subscript_error + statistics :=
  match emails with
  | [] => inr stats
  | email :: rest =>
      match statistics_step stats email with
      | inl err => inl err
      | inr stats' => statistics_loop stats' rest
      end
  end.

Definition get_email_statistics (self : t) : subscript_error + statistics :=
  statistics_loop (make_statistics (Z.of_nat (length (sent_emails self))) 0 0)
    (sent_emails self).

End EmailService.

(** ** jobs/daily_reminder_job.py *)

Module DailyReminderJob.

Import EmailTemplates.

Record t := make {
  users_file : string;
  enrollments_file : string;
  schedules_file : string;
  users : list User.t;
  enrollments_by_user : gmap string (list CourseEnrollment.t);
  schedules : list CourseSchedule.t;
  status_service : option ScheduleStatusService.t;
  email_service : EmailService.t
}.

Definition init (users_file enrollments_file schedules_file : string) : t :=
  make users_file enrollments_file schedules_file [] ∅ [] None
    (EmailService.init EmailService.default_log_file).

Definition new : t :=
  init "data/users.json" "data/course_enrollments.json" "data/course_schedules.json".

Definition St : Type := Env * t.

Definition self_ : M St t := fun '(env, self) => (Ok self, (env, self)).

Definition set_self (self : t) : M St unit := fun '(env, _) => (Ok tt, (env, self)).

(** Run a method of [self.email_service]. *)
Definition on_email_service {A} (m : M EmailService.St A) : M St A :=
  fun '(env, self) =>
    let '(r, (env', es)) := m (env, email_service self) in
    (r, (env',
         make (users_file self) (enrollments_file self) (schedules_file self)
           (users self) (enrollments_by_user self) (schedules self)
           (status_service self) es)).

Definition load_data : M St unit :=
  let! self := self_ in
  let! users_data := data_load (users_file self) in
  let! users :=
    match users_data with
    | UsersJson us => ret us
    | _ => raise (TypeError "not a list of users")
    end in
  do! set_self (make (users_file self) (enrollments_file self) (schedules_file self)
                  users (enrollments_by_user self) (schedules self)
                  (status_service self) (email_service self)) in
  let! schedules_data := data_load (schedules_file self) in
  let! schedules :=
    match schedules_data with
    | SchedulesJson ss => ret ss
    | _ => raise (TypeError "not a list of schedules")
    end in
  do! set_self (make (users_file self) (enrollments_file self) (schedules_file self)
                  users (enrollments_by_user self) schedules
                  (status_service self) (email_service self)) in
  let! enrollments_data := data_load (enrollments_file self) in
  let! by_user :=
    match enrollments_data with
    | EnrollmentsJson l => ret l
    | _ => raise (TypeError "not a list of user enrollments")
    end in
  let enrollments_by_user :=
    foldl (fun m '(user_id, enrollments) => <[user_id := enrollments]> m)
      (enrollments_by_user self) by_user in
  set_self (make (users_file self) (enrollments_file self) (schedules_file self)
              users enrollments_by_user schedules
              (Some (ScheduleStatusService.init schedules)) (email_service self)).

(** [manager_summaries[key].append(row)] on a [defaultdict(list)], kept
    as its items in insertion order. *)
Fixpoint defaultdict_append {V} (d : list (string * list V)) (key : string) (row : V)
    : list (string * list V) :=
  match d with
  | [] => [(key, [row])]
  | (k, rows) :: rest =>
      if decide (k = key) then (k, (rows ++ [row])%list) :: rest
      else (k, rows) :: defaultdict_append rest key row
  end.

(** The two lists the first loop of [process_reminders] builds. *)
Record collected := make_collected {
  users_needing_reminders : list (User.t * list CourseScheduleStatus.t);
  manager_summaries : list (string * list user_summary)
}.

(** The body of [for user in self.users], for one user. *)
Definition process_user (self : t) (current_date : datetime) (acc : collected)
    (user : User.t) : result collected :=
  let enrollments := stdpp.option.default [] (enrollments_by_user self !! User.user_id user) in
  match enrollments with
  | [] => Ok acc
  | _ =>
      rbind (match status_service self with
             | Some service => Ok service
             | None => Raise (AttributeError
                 "'NoneType' object has no attribute 'calculate_user_status'")
             end) (fun service =>
      rbind (ScheduleStatusService.calculate_user_status service enrollments current_date)
        (fun statuses =>
      let needs_reminder :=
        List.filter (fun s => bool_decide (CourseScheduleStatus.status s
                                         = ScheduleStatus.NEEDS_REMINDER)) statuses in
      let users_needing_reminders :=
        match needs_reminder with
        | [] => users_needing_reminders acc
        | _ => (users_needing_reminders acc ++ [(user, needs_reminder)])%list
        end in
      rbind (ScheduleStatusService.get_user_summary service enrollments current_date)
        (fun summary =>
      Ok (make_collected users_needing_reminders
            (defaultdict_append (manager_summaries acc) (User.manager_email user)
               (make_user_summary (User.name user) (User.email user)
                  (ScheduleStatusService.completed summary)
                  (ScheduleStatusService.in_progress summary)
                  (ScheduleStatusService.needs_reminder summary)
                  (ScheduleStatusService.total_courses summary)))))))
  end.

Fixpoint process_users (self : t) (current_date : datetime) (acc : collected)
    (users : list User.t) : result collected :=
  match users with
  | [] => Ok acc
  | user :: rest =>
      rbind (process_user self current_date acc user)
        (fun acc' => process_users self current_date acc' rest)
  end.

Record job_stats := make_job_stats {
  execution_date : string;
  users_processed : Z;
  stats_users_needing_reminders : Z;
  reminder_emails_sent : Z;
  manager_summaries_sent : Z;
  total_emails_sent : Z
}.

(** A loop that counts the sends that returned [True]. *)
Fixpoint count_sent {A} (send : A -> M St bool) (xs : list A) (sent : Z) : M St Z :=
  match xs with
  | [] => ret sent
  | x :: rest =>
      let! ok := send x in
      count_sent send rest (if ok : bool then sent + 1 else sent)
  end.

Definition process_reminders (current_date : option datetime) : M St job_stats :=
  let! current_date :=
    match current_date with
    | None => now
    | Some d => ret d
    end in
  let! self := self_ in
  let! acc := lift_result
    (process_users self current_date (make_collected [] []) (users self)) in
  let! users_emailed :=
    count_sent (fun '(user, courses) =>
                  on_email_service
                    (EmailService.send_user_reminder user courses
                       ScheduleStatus.NEEDS_REMINDER))
      (users_needing_reminders acc) 0 in
  let! managers_emailed :=
    count_sent (fun '(manager_email, summaries) =>
                  on_email_service
                    (EmailService.send_manager_summary manager_email summaries))
      (manager_summaries acc) 0 in
  do! on_email_service EmailService.save_email_log in
  ret (make_job_stats (isoformat current_date)
         (Z.of_nat (length (users self)))
         (Z.of_nat (length (users_needing_reminders acc)))
         users_emailed managers_emailed (users_emailed + managers_emailed)).

(** [run]: the handler only prints and raises the exception again. *)
Definition run (current_date : option datetime) : M St job_stats :=
  try_except
    (do! load_data in
     let! stats := process_reminders current_date in
     ret stats)
    (fun e => raise e).

End DailyReminderJob.

(** ** [calculate_status] as a method call on objects

    Python passes the service, the enrollment and the schedule by
    reference, and the instances of these classes can be assigned to.
    Here every reference denotes an object of its class in a store, next
    to the environment of files and clock.  The methods read attributes
    from the store one by one, as the source does, and the status that
    [calculate_status] builds holds the enrollment and the schedule by
    reference, as the Python object does. *)

Module Objects.

Definition ref := positive.

Record world := make_world {
  services : ref -> ScheduleStatusService.t;
  enrollments : ref -> CourseEnrollment.t;
  schedules : ref -> CourseSchedule.t;
  env : Env
}.

(** [obj.attr] for an enrollment and for a schedule. *)
Definition enrollment_attr {A} (attr : CourseEnrollment.t -> A) (obj : ref)
    : M world A :=
  fun w => (Ok (attr (enrollments w obj)), w).

Definition schedule_attr {A} (attr : CourseSchedule.t -> A) (obj : ref)
    : M world A :=
  fun w => (Ok (attr (schedules w obj)), w).

(** [obj.status = value] *)
Definition set_enrollment_status (obj : ref) (value : EnrollmentStatus.t)
    : M world unit :=
  fun w =>
    (Ok tt,
     make_world (services w)
       (fun r =>
          if decide (r = obj) then
            CourseEnrollment.make (CourseEnrollment.course_id (enrollments w r)) value
              (CourseEnrollment.enrollment_date (enrollments w r))
              (CourseEnrollment.start_date (enrollments w r))
              (CourseEnrollment.completion_date (enrollments w r))
          else enrollments w r)
       (schedules w) (env w)).

(** A [CourseScheduleStatus] instance. *)
Record CourseScheduleStatus := make_status {
  course_id : string;
  status : ScheduleStatus.t;
  enrollment : ref;
  schedule : ref;
  days_overdue : Z;
  message : string
}.

(** The methods of [CourseEnrollment] that [calculate_status] calls. *)
Definition is_completed (self : ref) : M world bool :=
  let! status := enrollment_attr CourseEnrollment.status self in
  ret (bool_decide (status = EnrollmentStatus.COMPLETED)).

Definition is_started (self : ref) : M world bool :=
  let! start_date := enrollment_attr CourseEnrollment.start_date self in
  ret (match start_date with Some _ => true | None => false end).

Definition days_since_enrollment (self : ref) (current_date : datetime) : M world Z :=
  let! enrollment_date := enrollment_attr CourseEnrollment.enrollment_date self in
  ret (days (sub current_date enrollment_date)).

(** [ScheduleStatusService.calculate_status], statement by statement. *)
Definition calculate_status (self enrollment schedule : ref) (current_date : datetime)
    : M world CourseScheduleStatus :=
  let! days_since_enrollment := days_since_enrollment enrollment current_date in
  let! days_to_complete := schedule_attr CourseSchedule.days_to_complete schedule in
  let days_overdue := Z.max 0 (days_since_enrollment - days_to_complete) in
  let! completed := is_completed enrollment in
  if completed : bool then
    let! course_id := enrollment_attr CourseEnrollment.course_id enrollment in
    let! completion_date := enrollment_attr CourseEnrollment.completion_date enrollment in
    let! date :=
      match completion_date with
      | Some c => ret (strftime_ymd c)
      | None => raise (AttributeError "'NoneType' object has no attribute 'strftime'")
      end in
    ret (make_status course_id ScheduleStatus.COMPLETED enrollment schedule 0
           ("Completed on " +:+ date))
  else
    let! days_to_complete := schedule_attr CourseSchedule.days_to_complete schedule in
    if days_to_complete <? days_since_enrollment then
      let! started := is_started enrollment in
      let status_detail :=
        if negb started then "Not started" else "In progress but overdue" in
      let! course_id := enrollment_attr CourseEnrollment.course_id enrollment in
      ret (make_status course_id ScheduleStatus.NEEDS_REMINDER enrollment schedule
             days_overdue
             (status_detail +:+ " - " +:+ PyStr.of_int days_overdue +:+ " days overdue"))
    else
      let! status := enrollment_attr CourseEnrollment.status enrollment in
      if bool_decide (status = EnrollmentStatus.IN_PROGRESS) then
        let! days_to_complete := schedule_attr CourseSchedule.days_to_complete schedule in
        let days_remaining := days_to_complete - days_since_enrollment in
        let! course_id := enrollment_attr CourseEnrollment.course_id enrollment in
        ret (make_status course_id ScheduleStatus.PROGRESSED enrollment schedule 0
               ("In progress - " +:+ PyStr.of_int days_remaining +:+ " days remaining"))
      else
        let! started := is_started enrollment in
        if started : bool then
          let! days_to_complete :=
            schedule_attr CourseSchedule.days_to_complete schedule in
          let days_remaining := days_to_complete - days_since_enrollment in
          let! course_id := enrollment_attr CourseEnrollment.course_id enrollment in
          ret (make_status course_id ScheduleStatus.STARTED enrollment schedule 0
                 ("Started - " +:+ PyStr.of_int days_remaining +:+ " days remaining"))
        else
          let! days_to_complete :=
            schedule_attr CourseSchedule.days_to_complete schedule in
          let days_remaining := days_to_complete - days_since_enrollment in
          let! course_id := enrollment_attr CourseEnrollment.course_id enrollment in
          ret (make_status course_id ScheduleStatus.STARTED enrollment schedule 0
                 ("Enrolled - " +:+ PyStr.of_int days_remaining
                    +:+ " days to start and complete")).

(** The instance that holds the fields of a status computed from the
    values of the two objects. *)
Definition of_values (enrollment schedule : ref) (st : CourseScheduleStatus.t)
    : CourseScheduleStatus :=
  make_status (CourseScheduleStatus.course_id st) (CourseScheduleStatus.status st)
    enrollment schedule (CourseScheduleStatus.days_overdue st)
    (CourseScheduleStatus.message st).

End Objects.

(** ** api/app.py: the paging of [get_email_logs] *)

Module App.

(** [PySlice_AdjustIndices] for one bound of a slice with step 1. *)
Definition adjust_index (n i : Z) : Z :=
  if i <? 0 then Z.max 0 (i + n) else Z.min i n.

(** [l[start:stop]] *)
Definition py_slice {A} (l : list A) (start stop : Z) : list A :=
  let n := Z.of_nat (length l) in
  let a := adjust_index n start in
  let b := adjust_index n stop in
  firstn (Z.to_nat (b - a)) (skipn (Z.to_nat a) l).

Record page_response := make_page_response {
  logs : list json;
  total : Z;
  page : Z;
  per_page : Z;
  total_pages : Z
}.

Inductive page_outcome :=
| Response (r : page_response)
| ZeroDivisionError.

(** [get_email_logs] from the loaded list on: [page] and [per_page] are
    the integers read from the query string.  [//] is floor division and
    raises for a zero divisor. *)
Definition paginate (all_logs : list json) (page per_page : Z) : page_outcome :=
  let start := (page - 1) * per_page in
  let end_ := start + per_page in
  let shown := py_slice all_logs start end_ in
  let total := Z.of_nat (length all_logs) in
  if per_page =? 0 then ZeroDivisionError
  else Response (make_page_response shown total page per_page
                   ((total + per_page - 1) / per_page)).

(** The response of the [except FileNotFoundError] branch. *)
Definition no_log_response : page_response :=
  make_page_response [] 0 1 10 0.

End App.

(** * Fixtures and vocabulary *)

(** ** Fixtures shared by the examples below *)

Module Fixtures.

Definition jan (d hh mm : Z) : datetime := Datetime.make 2025 1 d hh mm 0.

Definition schedule_2_days : CourseSchedule.t :=
  CourseSchedule.make "COURSE_001" 2 0.

Definition service : ScheduleStatusService.t :=
  ScheduleStatusService.init [schedule_2_days].

Definition in_progress_enrollment : CourseEnrollment.t :=
  CourseEnrollment.make "COURSE_001" EnrollmentStatus.IN_PROGRESS
    (jan 1 0 0) (Some (jan 1 0 0)) None.

Definition completed_enrollment : CourseEnrollment.t :=
  CourseEnrollment.make "COURSE_001" EnrollmentStatus.COMPLETED
    (jan 1 0 0) (Some (jan 1 0 0)) (Some (jan 1 10 54)).

Definition unscheduled_enrollment : CourseEnrollment.t :=
  CourseEnrollment.make "COURSE_999" EnrollmentStatus.ENROLLED
    (jan 1 0 0) None None.

(** Completion date recorded, lifecycle tag never moved to Completed. *)
Definition dated_but_in_progress : CourseEnrollment.t :=
  CourseEnrollment.make "COURSE_001" EnrollmentStatus.IN_PROGRESS
    (jan 1 0 0) (Some (jan 1 0 0)) (Some (jan 2 10 54)).

(** Lifecycle tag Completed, completion date never recorded. *)
Definition completed_without_date : CourseEnrollment.t :=
  CourseEnrollment.make "COURSE_001" EnrollmentStatus.COMPLETED
    (jan 1 0 0) (Some (jan 1 0 0)) None.

(** What the evaluator answers for [in_progress_enrollment] one day in. *)
Definition progressed_status : CourseScheduleStatus.t :=
  CourseScheduleStatus.make "COURSE_001" ScheduleStatus.PROGRESSED
    (Some in_progress_enrollment) schedule_2_days 0 "In progress - 1 days remaining".

Definition ann : User.t :=
  User.make "user_001" "Ann" "ann@example.com" "manager@example.com" (jan 1 0 0).

Definition bob : User.t :=
  User.make "user_002" "Bob" "bob@example.com" "manager@example.com" (jan 1 0 0).

(** The data files of a batch of two users: Ann with the given
    enrollments, Bob with one enrollment in progress; no email log yet. *)
Definition batch_env (ann_enrollments : list CourseEnrollment.t) : Env :=
  make_env
    (<["data/users.json" := UsersJson [ann; bob]]>
       (<["data/course_schedules.json" := SchedulesJson [schedule_2_days]]>
          (<["data/course_enrollments.json" :=
               EnrollmentsJson [("user_001", ann_enrollments);
                                ("user_002", [in_progress_enrollment])]]> ∅)))
    ∅ (fun _ => true) (fun _ => jan 15 9 0) 0.

(** The job after loading the batch in which Ann has completed her
    course. *)
Definition loaded_job : DailyReminderJob.t :=
  snd (snd (DailyReminderJob.load_data
              (batch_env [completed_enrollment], DailyReminderJob.new))).

(** The job after loading the batch in which Ann's record is tagged
    Completed and carries no completion date. *)
Definition undated_job : DailyReminderJob.t :=
  snd (snd (DailyReminderJob.load_data
              (batch_env [completed_without_date], DailyReminderJob.new))).

Definition old_record : json := JDict [("to", JStr "ann@example.com")].

Definition new_record : json := JDict [("to", JStr "manager@example.com")].

(** An environment whose email log holds one record. *)
Definition log_env : Env :=
  make_env ∅ {["data/email_log.json" := Json (JList [old_record])]}
    (fun _ => true) (fun _ => jan 15 9 0) 0.

(** The same log, on a path that cannot be opened for writing. *)
Definition readonly_log_env : Env :=
  make_env ∅ {["data/email_log.json" := Json (JList [old_record])]}
    (fun _ => false) (fun _ => jan 15 9 0) 0.

(** A log file that holds a JSON object instead of an array. *)
Definition object_log_env : Env :=
  make_env ∅ {["data/email_log.json" := Json (JDict [("records", JList [old_record])])]}
    (fun _ => true) (fun _ => jan 15 9 0) 0.

(** Two stores that agree on the enrollment at reference 2 and on the
    schedule at reference 3, and on nothing else. *)
Definition world_a : Objects.world :=
  Objects.make_world (fun _ => service) (fun _ => in_progress_enrollment)
    (fun _ => schedule_2_days) log_env.

Definition world_b : Objects.world :=
  Objects.make_world (fun _ => ScheduleStatusService.init [])
    (fun r => if decide (r = 2%positive) then in_progress_enrollment
              else completed_without_date)
    (fun r => if decide (r = 3%positive) then schedule_2_days
              else CourseSchedule.make "COURSE_002" 30 1)
    (batch_env []).

End Fixtures.

(** ** Vocabulary of the statements *)

(** Whether the course of an enrollment is in the schedule set. *)
Definition has_schedule (self : ScheduleStatusService.t) (e : CourseEnrollment.t) : bool :=
  match ScheduleStatusService.schedules_map self !! CourseEnrollment.course_id e with
  | Some _ => true
  | None => false
  end.

(** [st] is the classification of [e] against the schedule of its course. *)
Definition classified_as (self : ScheduleStatusService.t) (as_of : datetime)
    (e : CourseEnrollment.t) (st : CourseScheduleStatus.t) : Prop :=
  exists sch,
    ScheduleStatusService.schedules_map self !! CourseEnrollment.course_id e = Some sch
    /\ ScheduleStatusService.calculate_status self e sch as_of = Ok st.

(** The Completed branch can format the completion date. *)
Definition completion_recorded (e : CourseEnrollment.t) : Prop :=
  CourseEnrollment.status e = EnrollmentStatus.COMPLETED ->
  CourseEnrollment.completion_date e <> None.

(** The records held by the log at [path]: the items of the JSON array
    stored there, none when there is no such file or no array in it. *)
Definition log_records (env : Env) (path : string) : list json :=
  match files env !! path with
  | Some (Json (JList items)) => items
  | _ => []
  end.

(** From [before] to [after] the files and the log path are the same and
    the service has only composed further records. *)
Definition only_composes (before after : Env * DailyReminderJob.t) : Prop :=
  files (fst after) = files (fst before)
  /\ writable (fst after) = writable (fst before)
  /\ EmailService.log_file (DailyReminderJob.email_service (snd after))
     = EmailService.log_file (DailyReminderJob.email_service (snd before))
  /\ exists composed,
      EmailService.sent_emails (DailyReminderJob.email_service (snd after))
      = (EmailService.sent_emails (DailyReminderJob.email_service (snd before))
         ++ composed)%list.

(** The record is a dict whose "type" entry is the string [ty]. *)
Definition has_type (ty : string) (email : json) : bool :=
  match EmailService.getitem email "type" with
  | inr (JStr s) => bool_decide (s = ty)
  | _ => false
  end.

(** The record is a dict with a "type" entry. *)
Definition typed_record (email : json) : Prop :=
  exists v, EmailService.getitem email "type" = inr v.

(** The job holds a non-empty list of enrollments for the user. *)
Definition has_enrollments (self : DailyReminderJob.t) (user : User.t) : bool :=
  match DailyReminderJob.enrollments_by_user self !! User.user_id user with
  | Some (_ :: _) => true
  | _ => false
  end.

(** The enrollments the job holds for the user, [[]] if none. *)
Definition enrollments_of (self : DailyReminderJob.t) (user : User.t)
    : list CourseEnrollment.t :=
  stdpp.option.default [] (DailyReminderJob.enrollments_by_user self !! User.user_id user).

(** The two job objects differ at most in the emails sent so far. *)
Definition same_job_data (before after : DailyReminderJob.t) : Prop :=
  DailyReminderJob.users_file after = DailyReminderJob.users_file before
  /\ DailyReminderJob.enrollments_file after = DailyReminderJob.enrollments_file before
  /\ DailyReminderJob.schedules_file after = DailyReminderJob.schedules_file before
  /\ DailyReminderJob.users after = DailyReminderJob.users before
  /\ DailyReminderJob.enrollments_by_user after
     = DailyReminderJob.enrollments_by_user before
  /\ DailyReminderJob.schedules after = DailyReminderJob.schedules before
  /\ DailyReminderJob.status_service after = DailyReminderJob.status_service before
  /\ EmailService.log_file (DailyReminderJob.email_service after)
     = EmailService.log_file (DailyReminderJob.email_service before).

(** From [before] to [after] exactly [k] records were composed and
    nothing else changed but the clock. *)
Definition sent_more (k : nat) (before after : Env * DailyReminderJob.t) : Prop :=
  data_files (fst after) = data_files (fst before)
  /\ files (fst after) = files (fst before)
  /\ writable (fst after) = writable (fst before)
  /\ same_job_data (snd before) (snd after)
  /\ exists composed,
      length composed = k
      /\ EmailService.sent_emails (DailyReminderJob.email_service (snd after))
         = (EmailService.sent_emails (DailyReminderJob.email_service (snd before))
            ++ composed)%list.

(** From [before] to [after] the records [composed] were added after the
    ones the service held, and nothing else changed but the clock. *)
Definition sent_exactly (composed : list json) (before after : Env * DailyReminderJob.t)
    : Prop :=
  data_files (fst after) = data_files (fst before)
  /\ files (fst after) = files (fst before)
  /\ writable (fst after) = writable (fst before)
  /\ same_job_data (snd before) (snd after)
  /\ EmailService.sent_emails (DailyReminderJob.email_service (snd after))
     = (EmailService.sent_emails (DailyReminderJob.email_service (snd before))
        ++ composed)%list.

(** The record is the reminder of the run for an entry of the reminder
    list: to that user, about those courses. *)
Definition reminder_record (entry : User.t * list CourseScheduleStatus.t) (email : json)
    : Prop :=
  EmailService.getitem email "type" = inr (JStr "user_reminder")
  /\ EmailService.getitem email "to" = inr (JStr (User.email (fst entry)))
  /\ EmailService.getitem email "status_type" = inr (JStr "needs reminder")
  /\ EmailService.getitem email "course_ids"
     = inr (JList (map (fun c => JStr (CourseScheduleStatus.course_id c)) (snd entry))).

(** The record is the summary of the run for an entry of the manager
    grouping: to that manager, about that many team members. *)
Definition summary_record (entry : string * list EmailTemplates.user_summary)
    (email : json) : Prop :=
  EmailService.getitem email "type" = inr (JStr "manager_summary")
  /\ EmailService.getitem email "to" = inr (JStr (fst entry))
  /\ EmailService.getitem email "user_count"
     = inr (JNum (Z.of_nat (length (snd entry)))).

(** The date a run works with: the one passed in, and the clock when
    none is. *)
Definition run_date (env : Env) (current_date : option datetime) : datetime :=
  match current_date with
  | Some d => d
  | None => clock env (clock_reads env)
  end.

(** The row of the manager report built for a user from a summary. *)
Definition summary_row (user : User.t) (sm : ScheduleStatusService.summary)
    : EmailTemplates.user_summary :=
  EmailTemplates.make_user_summary (User.name user) (User.email user)
    (ScheduleStatusService.completed sm) (ScheduleStatusService.in_progress sm)
    (ScheduleStatusService.needs_reminder sm) (ScheduleStatusService.total_courses sm).

(** The records shown on a page, none if the request fails. *)
Definition page_logs (all_logs : list json) (per_page page : Z) : list json :=
  match App.paginate all_logs page per_page with
  | App.Response r => App.logs r
  | App.ZeroDivisionError => []
  end.

(** * Properties *)

(** ** The Evaluator: [calculate_status] *)

Section Evaluator.

Import ScheduleStatusService CourseEnrollment.

Variable self : ScheduleStatusService.t.

Lemma days_add_days (d : datetime) (n : Z) :
  days (sub (add_days d n) d) = n.
Proof.
  unfold days, sub, add_days; simpl.
  replace (ticks d + n * us_per_day - ticks d) with (n * us_per_day) by lia.
  apply Z.div_mul. unfold us_per_day. lia.
Qed.

Lemma days_since_enrollment_add_days (e : CourseEnrollment.t) (n : Z) :
  days_since_enrollment e (add_days (enrollment_date e) n) = n.
Proof. apply days_add_days. Qed.

(** Outside the Completed branch the evaluator always returns. *)
Lemma calculate_status_not_completed_returns e s d :
  is_completed e = false ->
  exists st, calculate_status self e s d = Ok st.
Proof.
  intros Hc. unfold calculate_status. rewrite Hc.
  destruct (_ <? _); [eauto|].
  case_bool_decide; [eauto|].
  destruct (is_started e); eauto.
Qed.

(** In the Completed branch the evaluator returns if the completion date
    is there. *)
Lemma calculate_status_completed_dated e s d c :
  is_completed e = true ->
  completion_date e = Some c ->
  calculate_status self e s d =
    Ok (CourseScheduleStatus.make (course_id e) ScheduleStatus.COMPLETED (Some e) s 0
          ("Completed on " +:+ strftime_ymd c)).
Proof.
  intros Hc Hd. unfold calculate_status, completion_date_strftime.
  rewrite Hc, Hd. reflexivity.
Qed.

Lemma calculate_status_completed_undated e s d :
  is_completed e = true ->
  completion_date e = None ->
  calculate_status self e s d =
    Raise (AttributeError "'NoneType' object has no attribute 'strftime'").
Proof.
  intros Hc Hd. unfold calculate_status, completion_date_strftime.
  rewrite Hc, Hd. reflexivity.
Qed.

(** The tag of a returned status, branch by branch. *)
Lemma calculate_status_tag e s d st :
  calculate_status self e s d = Ok st ->
  (is_completed e = true /\
     CourseScheduleStatus.status st = ScheduleStatus.COMPLETED /\
     CourseScheduleStatus.days_overdue st = 0)
  \/ (is_completed e = false /\
      CourseSchedule.days_to_complete s < days_since_enrollment e d /\
      CourseScheduleStatus.status st = ScheduleStatus.NEEDS_REMINDER /\
      CourseScheduleStatus.days_overdue st =
        days_since_enrollment e d - CourseSchedule.days_to_complete s)
  \/ (is_completed e = false /\
      days_since_enrollment e d <= CourseSchedule.days_to_complete s /\
      (CourseScheduleStatus.status st = ScheduleStatus.PROGRESSED \/
       CourseScheduleStatus.status st = ScheduleStatus.STARTED) /\
      CourseScheduleStatus.days_overdue st = 0).
Proof.
  unfold calculate_status, completion_date_strftime.
  destruct (is_completed e) eqn:Hc.
  - destruct (completion_date e); simpl; [|discriminate].
    intros [= <-]. left. auto.
  - destruct (_ <? _) eqn:Hlt.
    + apply Z.ltb_lt in Hlt. intros [= <-]. right; left. simpl.
      repeat split; auto; lia.
    + apply Z.ltb_ge in Hlt. right; right.
      case_bool_decide; [|destruct (is_started e)];
        match goal with H : Ok _ = Ok _ |- _ => injection H as <- end;
        simpl; auto.
Qed.

Lemma calculate_status_days_overdue_inv e s d st :
  calculate_status self e s d = Ok st ->
  0 <= CourseScheduleStatus.days_overdue st
  /\ (CourseScheduleStatus.status st <> ScheduleStatus.NEEDS_REMINDER ->
      CourseScheduleStatus.days_overdue st = 0).
Proof.
  intros H. apply calculate_status_tag in H.
  destruct H as [(_ & Ht & Ho) | [(_ & Hlt & Ht & Ho) | (_ & _ & Ht & Ho)]].
  - rewrite Ho. split; [lia|auto].
  - rewrite Ho, Ht. split; [lia|congruence].
  - rewrite Ho. split; [lia|auto].
Qed.

End Evaluator.

(** ** The Aggregator: [calculate_user_status] and [get_user_summary] *)

Section Aggregator.

Import ScheduleStatusService.

Variable self : ScheduleStatusService.t.
Variable as_of : datetime.

Lemma calculate_user_status_loop_acc es acc :
  calculate_user_status_loop self es as_of acc =
  rbind (calculate_user_status_loop self es as_of [])
    (fun out => Ok (acc ++ out)%list).
Proof.
  revert acc. induction es as [|e es IH]; intros acc; simpl.
  - now rewrite app_nil_r.
  - destruct (schedules_map self !! CourseEnrollment.course_id e) as [sch|]; [|apply IH].
    destruct (calculate_status self e sch as_of) as [st|err]; simpl; [|reflexivity].
    rewrite (IH (acc ++ [st])%list), (IH [st]).
    destruct (calculate_user_status_loop self es as_of []); simpl; [|reflexivity].
    now rewrite <- app_assoc.
Qed.

Lemma calculate_user_status_nil : calculate_user_status self [] as_of = Ok [].
Proof. reflexivity. Qed.

Lemma calculate_user_status_skip e es :
  has_schedule self e = false ->
  calculate_user_status self (e :: es) as_of = calculate_user_status self es as_of.
Proof.
  unfold has_schedule, calculate_user_status; simpl.
  destruct (schedules_map self !! CourseEnrollment.course_id e); [discriminate|reflexivity].
Qed.

Lemma calculate_user_status_keep e es sch :
  schedules_map self !! CourseEnrollment.course_id e = Some sch ->
  calculate_user_status self (e :: es) as_of =
  rbind (calculate_status self e sch as_of) (fun st =>
    rbind (calculate_user_status self es as_of) (fun out => Ok (st :: out))).
Proof.
  intros Hs. unfold calculate_user_status; simpl. rewrite Hs.
  destruct (calculate_status self e sch as_of) as [st|err]; simpl; [|reflexivity].
  apply calculate_user_status_loop_acc.
Qed.

(** Enrollments without a schedule leave no trace in the outcome. *)
Lemma calculate_user_status_filter es :
  calculate_user_status self es as_of =
  calculate_user_status self (List.filter (has_schedule self) es) as_of.
Proof.
  induction es as [|e es IH]; [reflexivity|]. simpl.
  destruct (has_schedule self e) eqn:Hm.
  - unfold has_schedule in Hm.
    destruct (schedules_map self !! CourseEnrollment.course_id e) as [sch|] eqn:Hs;
      [|discriminate].
    rewrite !(calculate_user_status_keep _ _ sch Hs), IH. reflexivity.
  - now rewrite calculate_user_status_skip.
Qed.

(** What is returned: the classifications of the scheduled enrollments,
    in their order. *)
Lemma calculate_user_status_returned es out :
  calculate_user_status self es as_of = Ok out ->
  Forall2 (classified_as self as_of) (List.filter (has_schedule self) es) out.
Proof.
  revert out. induction es as [|e es IH]; intros out.
  - intros [= <-]. constructor.
  - simpl. destruct (has_schedule self e) eqn:Hm.
    + unfold has_schedule in Hm.
      destruct (schedules_map self !! CourseEnrollment.course_id e) as [sch|] eqn:Hs;
        [|discriminate].
      rewrite (calculate_user_status_keep _ _ sch Hs).
      destruct (calculate_status self e sch as_of) as [st|err] eqn:Hst; simpl;
        [|discriminate].
      destruct (calculate_user_status self es as_of) as [out'|err]; simpl;
        [|discriminate].
      intros [= <-]. constructor; [|now apply IH].
      exists sch. auto.
    + rewrite calculate_user_status_skip by assumption. apply IH.
Qed.

(** When it returns: every scheduled enrollment can be classified. *)
Lemma calculate_user_status_returns es :
  Forall (fun e => has_schedule self e = true -> completion_recorded e) es ->
  exists out, calculate_user_status self es as_of = Ok out.
Proof.
  induction 1 as [|e es He _ IH]; [now exists []|].
  destruct IH as [out' Hout'].
  destruct (has_schedule self e) eqn:Hm.
  - specialize (He eq_refl). unfold has_schedule in Hm.
    destruct (schedules_map self !! CourseEnrollment.course_id e) as [sch|] eqn:Hs;
      [|discriminate].
    rewrite (calculate_user_status_keep _ _ sch Hs), Hout'.
    destruct (CourseEnrollment.is_completed e) eqn:Hc.
    + unfold completion_recorded in He.
      destruct (CourseEnrollment.completion_date e) as [c|] eqn:Hd.
      * rewrite (calculate_status_completed_dated self e sch as_of c Hc Hd).
        simpl. eauto.
      * exfalso. apply He; [|reflexivity].
        unfold CourseEnrollment.is_completed in Hc. now apply bool_decide_eq_true in Hc.
    + destruct (calculate_status_not_completed_returns self e sch as_of Hc) as [st ->].
      simpl. eauto.
  - rewrite calculate_user_status_skip by assumption. eauto.
Qed.

Lemma filter_partition_length {A} (f : A -> bool) (l : list A) :
  (length (List.filter f l) + length (List.filter (fun x => negb (f x)) l)
   = length l)%nat.
Proof.
  induction l as [|x l IH]; [reflexivity|]. simpl.
  destruct (f x); simpl; lia.
Qed.

(** Every returned status obeys the days-overdue rule of the evaluator. *)
Lemma calculate_user_status_days_overdue es out :
  calculate_user_status self es as_of = Ok out ->
  Forall (fun st =>
            CourseScheduleStatus.status st <> ScheduleStatus.NEEDS_REMINDER ->
            CourseScheduleStatus.days_overdue st = 0) out.
Proof.
  intros H. apply calculate_user_status_returned in H.
  induction H as [|e st es' out' (sch & _ & Hst) _ IH]; constructor; [|exact IH].
  now apply (calculate_status_days_overdue_inv self e sch as_of st).
Qed.

(** The summary loop moves [in_progress] and [on_track] together. *)
Lemma summary_step_on_track sm st :
  (CourseScheduleStatus.status st <> ScheduleStatus.NEEDS_REMINDER ->
   CourseScheduleStatus.days_overdue st = 0) ->
  on_track sm = in_progress sm ->
  on_track (summary_step sm st) = in_progress (summary_step sm st).
Proof.
  intros Hst Hsm. unfold summary_step.
  repeat case_bool_decide; simpl; try assumption.
  rewrite Hst by assumption. simpl. lia.
Qed.

Lemma foldl_summary_step_on_track sts sm :
  Forall (fun st =>
            CourseScheduleStatus.status st <> ScheduleStatus.NEEDS_REMINDER ->
            CourseScheduleStatus.days_overdue st = 0) sts ->
  on_track sm = in_progress sm ->
  on_track (foldl summary_step sm sts) = in_progress (foldl summary_step sm sts).
Proof.
  intros H. revert sm. induction H as [|st sts Hst _ IH]; intros sm Hsm; simpl.
  - exact Hsm.
  - apply IH. now apply summary_step_on_track.
Qed.

End Aggregator.

Import ScheduleStatusService.

(** C1 (the code departs from the claim).  An enrollment with a completion
    timestamp set is classified from its lifecycle tag, not from the
    timestamp: [is_completed] compares the tag, so with the tag still
    In Progress and the deadline passed the evaluator answers
    NeedsReminder with a positive days_overdue, although the completion
    date is recorded. *)
Theorem calculate_status_dated_but_in_progress :
  CourseEnrollment.completion_date Fixtures.dated_but_in_progress
    = Some (Fixtures.jan 2 10 54)
  /\ calculate_status Fixtures.service Fixtures.dated_but_in_progress
       Fixtures.schedule_2_days (Fixtures.jan 15 0 0)
     = Ok (CourseScheduleStatus.make "COURSE_001" ScheduleStatus.NEEDS_REMINDER
             (Some Fixtures.dated_but_in_progress) Fixtures.schedule_2_days 12
             "In progress but overdue - 12 days overdue").
Proof. split; reflexivity. Qed.

(** C3.  For an enrollment that is not completed and a schedule allowing
    [D] days: evaluated exactly [D] days after the enrollment date the
    status is Progressed or Started with days_overdue 0; evaluated
    [D + 1] days after it the status is NeedsReminder with days_overdue 1;
    and at any date the status is NeedsReminder exactly when the whole
    days elapsed are strictly more than [D]. *)
Theorem calculate_status_deadline_boundary
    (self : ScheduleStatusService.t) (e : CourseEnrollment.t) (s : CourseSchedule.t) :
  CourseEnrollment.is_completed e = false ->
  let D := CourseSchedule.days_to_complete s in
  let enrolled := CourseEnrollment.enrollment_date e in
  (exists st,
      calculate_status self e s (add_days enrolled D) = Ok st
      /\ (CourseScheduleStatus.status st = ScheduleStatus.PROGRESSED
          \/ CourseScheduleStatus.status st = ScheduleStatus.STARTED)
      /\ CourseScheduleStatus.days_overdue st = 0)
  /\ (exists st,
      calculate_status self e s (add_days enrolled (D + 1)) = Ok st
      /\ CourseScheduleStatus.status st = ScheduleStatus.NEEDS_REMINDER
      /\ CourseScheduleStatus.days_overdue st = 1)
  /\ (forall as_of, exists st,
      calculate_status self e s as_of = Ok st
      /\ (CourseScheduleStatus.status st = ScheduleStatus.NEEDS_REMINDER
          <-> D < CourseEnrollment.days_since_enrollment e as_of)).
Proof.
  intros Hc D enrolled. repeat split.
  - destruct (calculate_status_not_completed_returns self e s (add_days enrolled D) Hc)
      as [st Hst].
    exists st. split; [exact Hst|].
    apply calculate_status_tag in Hst.
    rewrite days_since_enrollment_add_days in Hst. fold D in Hst.
    destruct Hst as [(? & _) | [(_ & ? & _) | (_ & _ & ? & ?)]];
      [congruence | lia | auto].
  - destruct (calculate_status_not_completed_returns self e s (add_days enrolled (D + 1)) Hc)
      as [st Hst].
    exists st. split; [exact Hst|].
    apply calculate_status_tag in Hst.
    rewrite days_since_enrollment_add_days in Hst. fold D in Hst.
    destruct Hst as [(? & _) | [(_ & _ & ? & ?) | (_ & ? & _)]];
      [congruence | split; [auto|lia] | lia].
  - intros as_of.
    destruct (calculate_status_not_completed_returns self e s as_of Hc) as [st Hst].
    exists st. split; [exact Hst|].
    apply calculate_status_tag in Hst. fold D in Hst.
    destruct Hst as [(? & _) | [(_ & ? & ? & _) | (_ & ? & [Ht|Ht] & _)]];
      [congruence | tauto | rewrite Ht; split; [discriminate|lia] ..].
Qed.

Lemma calculate_status_deadline_boundary_witness :
  (exists st,
      calculate_status Fixtures.service Fixtures.in_progress_enrollment
        Fixtures.schedule_2_days (add_days (Fixtures.jan 1 0 0) 2) = Ok st
      /\ (CourseScheduleStatus.status st = ScheduleStatus.PROGRESSED
          \/ CourseScheduleStatus.status st = ScheduleStatus.STARTED)
      /\ CourseScheduleStatus.days_overdue st = 0)
  /\ (exists st,
      calculate_status Fixtures.service Fixtures.in_progress_enrollment
        Fixtures.schedule_2_days (add_days (Fixtures.jan 1 0 0) (2 + 1)) = Ok st
      /\ CourseScheduleStatus.status st = ScheduleStatus.NEEDS_REMINDER
      /\ CourseScheduleStatus.days_overdue st = 1).
Proof.
  pose proof (calculate_status_deadline_boundary Fixtures.service
                Fixtures.in_progress_enrollment Fixtures.schedule_2_days eq_refl)
    as (H1 & H2 & _).
  split; [exact H1 | exact H2].
Defined.

(** C5.  A status returned by [calculate_status] has days_overdue >= 0,
    and days_overdue = 0 unless its tag is NeedsReminder. *)
Theorem calculate_status_days_overdue
    (self : ScheduleStatusService.t) (e : CourseEnrollment.t) (s : CourseSchedule.t)
    (as_of : datetime) (st : CourseScheduleStatus.t) :
  calculate_status self e s as_of = Ok st ->
  0 <= CourseScheduleStatus.days_overdue st
  /\ (CourseScheduleStatus.status st <> ScheduleStatus.NEEDS_REMINDER ->
      CourseScheduleStatus.days_overdue st = 0).
Proof. apply calculate_status_days_overdue_inv. Qed.

Lemma calculate_status_days_overdue_witness :
  exists st,
    calculate_status Fixtures.service Fixtures.in_progress_enrollment
      Fixtures.schedule_2_days (Fixtures.jan 9 0 0) = Ok st
    /\ CourseScheduleStatus.days_overdue st = 6
    /\ 0 <= CourseScheduleStatus.days_overdue st
    /\ (CourseScheduleStatus.status st <> ScheduleStatus.NEEDS_REMINDER ->
        CourseScheduleStatus.days_overdue st = 0).
Proof.
  eexists. split; [reflexivity|]. split; [reflexivity|].
  apply (calculate_status_days_overdue Fixtures.service Fixtures.in_progress_enrollment
           Fixtures.schedule_2_days (Fixtures.jan 9 0 0)).
  reflexivity.
Defined.

(** C7.  For an enrollment whose lifecycle tag is Completed,
    [calculate_status] raises in its Completed branch when the completion
    timestamp is absent, and returns a Completed status when it is
    present: the branch is safe exactly under the precondition that the
    timestamp is there. *)
Theorem calculate_status_completed_needs_date
    (self : ScheduleStatusService.t) (e : CourseEnrollment.t) (s : CourseSchedule.t)
    (as_of : datetime) :
  CourseEnrollment.status e = EnrollmentStatus.COMPLETED ->
  (CourseEnrollment.completion_date e = None ->
     calculate_status self e s as_of =
       Raise (AttributeError "'NoneType' object has no attribute 'strftime'"))
  /\ (forall c, CourseEnrollment.completion_date e = Some c ->
       exists st, calculate_status self e s as_of = Ok st
         /\ CourseScheduleStatus.status st = ScheduleStatus.COMPLETED).
Proof.
  intros Htag.
  assert (Hc : CourseEnrollment.is_completed e = true)
    by (unfold CourseEnrollment.is_completed; rewrite Htag; reflexivity).
  split.
  - intros Hd. now apply calculate_status_completed_undated.
  - intros c Hd. eexists. split.
    + exact (calculate_status_completed_dated self e s as_of c Hc Hd).
    + reflexivity.
Qed.

Lemma calculate_status_completed_needs_date_witness :
  calculate_status Fixtures.service Fixtures.completed_without_date
    Fixtures.schedule_2_days (Fixtures.jan 2 0 0)
  = Raise (AttributeError "'NoneType' object has no attribute 'strftime'")
  /\ exists st,
      calculate_status Fixtures.service Fixtures.completed_enrollment
        Fixtures.schedule_2_days (Fixtures.jan 2 0 0) = Ok st
      /\ CourseScheduleStatus.status st = ScheduleStatus.COMPLETED.
Proof.
  split.
  - apply (proj1 (calculate_status_completed_needs_date Fixtures.service
                    Fixtures.completed_without_date Fixtures.schedule_2_days
                    (Fixtures.jan 2 0 0) eq_refl)).
    reflexivity.
  - apply (proj2 (calculate_status_completed_needs_date Fixtures.service
                    Fixtures.completed_enrollment Fixtures.schedule_2_days
                    (Fixtures.jan 2 0 0) eq_refl) (Fixtures.jan 1 10 54)).
    reflexivity.
Defined.

(** ** The Evaluator as a method call on objects *)

Section EvaluatorObjects.

(** A call of the method comes back with the store and the environment
    as they were, and with the status that the function of the values
    computes from the attributes of the two objects at the time of the
    call. *)
Lemma calculate_status_on_objects
    (self enrollment schedule : Objects.ref) (current_date : datetime)
    (w : Objects.world) :
  Objects.calculate_status self enrollment schedule current_date w
  = (rbind (calculate_status (Objects.services w self)
              (Objects.enrollments w enrollment) (Objects.schedules w schedule)
              current_date)
       (fun st => Ok (Objects.of_values enrollment schedule st)),
     w).
Proof.
  unfold Objects.calculate_status, Objects.days_since_enrollment, Objects.is_completed,
    Objects.is_started, Objects.enrollment_attr, Objects.schedule_attr, bind, ret, raise.
  unfold calculate_status, completion_date_strftime, CourseEnrollment.is_completed,
    CourseEnrollment.is_started, CourseEnrollment.days_since_enrollment.
  destruct (bool_decide (CourseEnrollment.status (Objects.enrollments w enrollment)
                         = EnrollmentStatus.COMPLETED)).
  - destruct (CourseEnrollment.completion_date (Objects.enrollments w enrollment));
      reflexivity.
  - destruct (_ <? _); [reflexivity|].
    destruct (bool_decide (CourseEnrollment.status (Objects.enrollments w enrollment)
                           = EnrollmentStatus.IN_PROGRESS)); [reflexivity|].
    destruct (CourseEnrollment.start_date (Objects.enrollments w enrollment));
      reflexivity.
Qed.

(** An assignment to the enrollment between two calls is seen by the
    second: the method reads the object, not a copy taken earlier. *)
Lemma calculate_status_sees_assignment :
  let call := Objects.calculate_status 1%positive 2%positive 3%positive (Fixtures.jan 2 0 0) in
  fst (call Fixtures.world_a)
    = Ok (Objects.make_status "COURSE_001" ScheduleStatus.PROGRESSED 2%positive 3%positive 0
            "In progress - 1 days remaining")
  /\ fst ((do! Objects.set_enrollment_status 2%positive EnrollmentStatus.ENROLLED in call)
            Fixtures.world_a)
    = Ok (Objects.make_status "COURSE_001" ScheduleStatus.STARTED 2%positive 3%positive 0
            "Started - 1 days remaining").
Proof. split; vm_compute; reflexivity. Qed.

End EvaluatorObjects.

(** C10.  The Evaluator is deterministic and free of side effects.  Two
    calls of [calculate_status] on an enrollment and a schedule whose
    attributes are the same at both calls, with the same date, give the
    same outcome: the same status, field for field, or the same
    exception.  That holds whatever else differs between the two calls:
    the service object the method is called on, every other enrollment
    and schedule, the files and the clock, so none of these is read.  A
    call leaves the store, the files and the clock exactly as they were,
    so nothing is written and a second call right after the first
    returns the same again.  The outcome is the one that the function
    [ScheduleStatusService.calculate_status] of the values gives on the
    attributes of the two objects. *)
Theorem calculate_status_no_hidden_state
    (self1 self2 enrollment schedule : Objects.ref) (as_of : datetime)
    (w1 w2 : Objects.world) :
  Objects.enrollments w1 enrollment = Objects.enrollments w2 enrollment ->
  Objects.schedules w1 schedule = Objects.schedules w2 schedule ->
  let call1 := Objects.calculate_status self1 enrollment schedule as_of in
  let call2 := Objects.calculate_status self2 enrollment schedule as_of in
  fst (call1 w1) = fst (call2 w2)
  /\ snd (call1 w1) = w1
  /\ snd (call2 w2) = w2
  /\ call1 (snd (call1 w1)) = call1 w1
  /\ fst (call1 w1)
     = rbind (calculate_status (Objects.services w1 self1)
                (Objects.enrollments w1 enrollment) (Objects.schedules w1 schedule)
                as_of)
         (fun st => Ok (Objects.of_values enrollment schedule st)).
Proof.
  intros He Hs call1 call2. unfold call1, call2.
  rewrite !calculate_status_on_objects. cbn [fst snd].
  rewrite He, Hs. repeat split.
Qed.

Lemma calculate_status_no_hidden_state_witness :
  fst (Objects.calculate_status 1%positive 2%positive 3%positive (Fixtures.jan 2 0 0) Fixtures.world_a)
  = fst (Objects.calculate_status 7%positive 2%positive 3%positive (Fixtures.jan 2 0 0) Fixtures.world_b).
Proof.
  apply (calculate_status_no_hidden_state 1%positive 7%positive 2%positive 3%positive
           (Fixtures.jan 2 0 0)
           Fixtures.world_a Fixtures.world_b); reflexivity.
Defined.

(** C4 (as amended).  When every enrollment whose course is scheduled can
    be classified, that is, none has the tag Completed without a
    completion timestamp, [calculate_user_status] returns exactly the
    classifications of the enrollments whose course id is in the schedule
    set, one each and in input order; enrollments without a schedule are
    left out, so the output is shorter than the input by their number
    (by one when one enrollment is unmatched); and, whatever the list,
    dropping the unmatched enrollments beforehand changes nothing, so
    they raise no error of their own. *)
Theorem calculate_user_status_scheduled_in_order
    (self : ScheduleStatusService.t) (es : list CourseEnrollment.t) (as_of : datetime) :
  Forall (fun e => has_schedule self e = true -> completion_recorded e) es ->
  exists out,
    calculate_user_status self es as_of = Ok out
    /\ Forall2 (classified_as self as_of) (List.filter (has_schedule self) es) out
    /\ (length out + length (List.filter (fun e => negb (has_schedule self e)) es)
        = length es)%nat
    /\ calculate_user_status self (List.filter (has_schedule self) es) as_of = Ok out.
Proof.
  intros Hes.
  destruct (calculate_user_status_returns self as_of es Hes) as [out Hout].
  exists out. split; [exact Hout|].
  pose proof (calculate_user_status_returned self as_of es out Hout) as Hall.
  split; [exact Hall|]. split.
  - rewrite <- (Forall2_length _ _ _ Hall). apply filter_partition_length.
  - now rewrite <- calculate_user_status_filter.
Qed.

Lemma calculate_user_status_scheduled_in_order_witness :
  exists out,
    calculate_user_status Fixtures.service
      [Fixtures.in_progress_enrollment; Fixtures.unscheduled_enrollment;
       Fixtures.completed_enrollment] (Fixtures.jan 9 0 0) = Ok out
    /\ length out = 2%nat.
Proof.
  destruct (calculate_user_status_scheduled_in_order Fixtures.service
              [Fixtures.in_progress_enrollment; Fixtures.unscheduled_enrollment;
               Fixtures.completed_enrollment] (Fixtures.jan 9 0 0))
    as (out & Hout & _ & Hlen & _).
  - repeat first [apply List.Forall_cons | apply List.Forall_nil];
      intros Hm Ht; vm_compute in Hm, Ht |- *; congruence.
  - exists out. split; [exact Hout|].
    match type of Hlen with
    | (_ + ?n = _)%nat =>
        assert (Hn : n = 1%nat) by (vm_compute; reflexivity); rewrite Hn in Hlen
    end.
    simpl in Hlen. lia.
Defined.

(** C4, the claim as written fails: a scheduled enrollment tagged
    Completed without a completion timestamp makes the whole call raise,
    so for this two-element input with one unmatched enrollment no list,
    of any length, is returned. *)
Lemma calculate_user_status_raises_on_undated :
  has_schedule Fixtures.service Fixtures.completed_without_date = true
  /\ has_schedule Fixtures.service Fixtures.unscheduled_enrollment = false
  /\ calculate_user_status Fixtures.service
       [Fixtures.completed_without_date; Fixtures.unscheduled_enrollment]
       (Fixtures.jan 2 0 0)
     = Raise (AttributeError "'NoneType' object has no attribute 'strftime'").
Proof. repeat split; vm_compute; reflexivity. Qed.

(** C6.  A summary returned by [get_user_summary] has on_track equal to
    in_progress: it is the fold of the counting step over the statuses
    [calculate_user_status] returns, each of which has days_overdue = 0
    when its tag is Progressed or Started, so the two counters are
    always incremented together. *)
Theorem get_user_summary_on_track
    (self : ScheduleStatusService.t) (es : list CourseEnrollment.t) (as_of : datetime)
    (sm : summary) :
  get_user_summary self es as_of = Ok sm ->
  on_track sm = in_progress sm
  /\ exists out,
      calculate_user_status self es as_of = Ok out
      /\ sm = foldl summary_step (make_summary (Z.of_nat (length out)) 0 0 0 0) out
      /\ Forall (fun st =>
                   CourseScheduleStatus.status st = ScheduleStatus.PROGRESSED
                   \/ CourseScheduleStatus.status st = ScheduleStatus.STARTED ->
                   CourseScheduleStatus.days_overdue st = 0) out.
Proof.
  unfold get_user_summary.
  destruct (calculate_user_status self es as_of) as [out|err] eqn:Hout; simpl;
    [|discriminate].
  intros [= <-].
  pose proof (calculate_user_status_days_overdue self as_of es out Hout) as Hall.
  split.
  - now apply foldl_summary_step_on_track.
  - exists out. repeat split.
    eapply Forall_impl; [exact Hall|].
    intros st Hst [Ht|Ht]; apply Hst; rewrite Ht; discriminate.
Qed.

Lemma get_user_summary_on_track_witness :
  get_user_summary Fixtures.service
    [Fixtures.in_progress_enrollment; Fixtures.unscheduled_enrollment;
     Fixtures.completed_enrollment] (Fixtures.jan 2 0 0)
  = Ok (make_summary 2 1 1 0 1)
  /\ on_track (make_summary 2 1 1 0 1) = in_progress (make_summary 2 1 1 0 1).
Proof.
  split; [vm_compute; reflexivity|].
  apply (get_user_summary_on_track Fixtures.service
           [Fixtures.in_progress_enrollment; Fixtures.unscheduled_enrollment;
            Fixtures.completed_enrollment] (Fixtures.jan 2 0 0)).
  vm_compute; reflexivity.
Defined.

(** ** The Composer: [EmailTemplateFactory.get_template] *)

Section Composer.

Import EmailTemplates EmailTemplates.EmailTemplateFactory.

Lemma dict_get_template_map_other (status : tag) :
  (forall s, status <> ScheduleTag s) ->
  dict_get template_map status NeedsReminderTemplate = NeedsReminderTemplate.
Proof.
  intros Hother. unfold template_map; simpl.
  repeat case_decide; try reflexivity; subst; exfalso; eapply Hother; reflexivity.
Qed.

End Composer.

(** C8.  [get_template] returns, for every user, the NeedsReminder,
    Progressed, Started and Completed template for the tag of the same
    name, four different variants, and the NeedsReminder template for any
    tag that is not a member of ScheduleStatus; it is total, so no tag
    makes it raise. *)
Theorem get_template_selection (user : User.t) :
  let get := fun status => EmailTemplates.EmailTemplateFactory.get_template status user in
  get (EmailTemplates.ScheduleTag ScheduleStatus.NEEDS_REMINDER)
    = EmailTemplates.template EmailTemplates.NeedsReminderTemplate user
  /\ get (EmailTemplates.ScheduleTag ScheduleStatus.PROGRESSED)
    = EmailTemplates.template EmailTemplates.ProgressedTemplate user
  /\ get (EmailTemplates.ScheduleTag ScheduleStatus.STARTED)
    = EmailTemplates.template EmailTemplates.StartedTemplate user
  /\ get (EmailTemplates.ScheduleTag ScheduleStatus.COMPLETED)
    = EmailTemplates.template EmailTemplates.CompletedTemplate user
  /\ (forall s1 s2,
        get (EmailTemplates.ScheduleTag s1) = get (EmailTemplates.ScheduleTag s2) ->
        s1 = s2)
  /\ (forall status,
        (forall s, status <> EmailTemplates.ScheduleTag s) ->
        get status = EmailTemplates.template EmailTemplates.NeedsReminderTemplate user).
Proof.
  intros get. repeat split.
  - intros s1 s2. destruct s1, s2; vm_compute; congruence.
  - intros status Hother. unfold get, EmailTemplates.EmailTemplateFactory.get_template.
    now rewrite dict_get_template_map_other.
Qed.

Lemma get_template_selection_witness :
  EmailTemplates.EmailTemplateFactory.get_template
    (EmailTemplates.StrTag "completed") Fixtures.ann
  = EmailTemplates.template EmailTemplates.NeedsReminderTemplate Fixtures.ann.
Proof.
  apply (get_template_selection Fixtures.ann).
  intros s; discriminate.
Defined.

(** ** The notification log: [EmailService.save_email_log] *)

Section EmailLog.

Import EmailService.

(** The file left behind, case by case. *)
Lemma save_email_log_files (env : Env) (self : EmailService.t) :
  files (fst (snd (save_email_log (env, self)))) =
    if writable env (log_file self) then
      match files env !! log_file self with
      | None | Some NotJson =>
          <[log_file self := Json (JList (sent_emails self))]> (files env)
      | Some (Json (JList items)) =>
          <[log_file self := Json (JList (items ++ sent_emails self))]> (files env)
      | Some (Json _) => files env
      end
    else files env.
Proof.
  unfold save_email_log, try_except, bind, self_, json_load, lift_result,
    json_dump, ret, raise, extend.
  destruct (files env !! log_file self) as [[[]|]|]; simpl;
    destruct (writable env (log_file self)); reflexivity.
Qed.

Lemma save_email_log_outcome (env : Env) (self : EmailService.t) :
  fst (save_email_log (env, self)) = Ok tt
  /\ snd (snd (save_email_log (env, self))) = self.
Proof.
  unfold save_email_log, try_except, bind, self_, json_load, lift_result,
    json_dump, ret, raise, extend.
  destruct (files env !! log_file self) as [[[]|]|]; simpl;
    destruct (writable env (log_file self)); auto.
Qed.

(** The effect of [save_email_log] on the files and on the log. *)
Lemma save_email_log_effect (env : Env) (self : EmailService.t) :
  let path := log_file self in
  let after := save_email_log (env, self) in
  fst after = Ok tt
  /\ snd (snd after) = self
  /\ (forall other, other <> path ->
        files (fst (snd after)) !! other = files env !! other)
  /\ (exists appended,
        log_records (fst (snd after)) path = (log_records env path ++ appended)%list)
  /\ (writable env path = true ->
      (forall j, files env !! path = Some (Json j) -> exists items, j = JList items) ->
      files (fst (snd after)) !! path =
        Some (Json (JList (log_records env path ++ sent_emails self)%list))
      /\ log_records (fst (snd after)) path =
        (log_records env path ++ sent_emails self)%list).
Proof.
  intros path after.
  destruct (save_email_log_outcome env self) as [Hr Hs].
  pose proof (save_email_log_files env self) as Hf. fold path after in Hr, Hs, Hf.
  split; [exact Hr|]. split; [exact Hs|].
  unfold log_records. rewrite Hf. clear Hr Hs Hf after.
  assert (Hwritten : forall old,
             (forall other, other <> path ->
                <[path := Json (JList (old ++ sent_emails self)%list)]>
                  (files env) !! other = files env !! other)
             /\ <[path := Json (JList (old ++ sent_emails self)%list)]>
                  (files env) !! path
                = Some (Json (JList (old ++ sent_emails self)%list))).
  { intros old. split; [|apply lookup_insert_eq].
    intros other Hne. apply lookup_insert_ne. congruence. }
  destruct (writable env path) eqn:Hw.
  - destruct (files env !! path) as [[j|]|] eqn:Hlog.
    + destruct j as [| | |items|].
      4: { destruct (Hwritten items) as [Hother Hpath].
           split; [exact Hother|]. rewrite Hpath. split; [eauto|]. auto. }
      all: split; [reflexivity|]; rewrite Hlog; split;
        [exists []; reflexivity
        |intros _ Harr; destruct (Harr _ eq_refl) as [l Hl]; discriminate].
    + destruct (Hwritten []) as [Hother Hpath].
      split; [exact Hother|]. simpl in Hpath. rewrite Hpath. split; [eauto|]. auto.
    + destruct (Hwritten []) as [Hother Hpath].
      split; [exact Hother|]. simpl in Hpath. rewrite Hpath. split; [eauto|]. auto.
  - split; [reflexivity|]. split; [|discriminate].
    exists []. now rewrite app_nil_r.
Qed.

End EmailLog.

(** ** The Orchestrator: [DailyReminderJob.process_reminders] and [run] *)

Section Orchestrator.

Import DailyReminderJob.

(** The user loop has no handler: the first user whose classification
    raises ends it with that exception. *)
Lemma process_users_raises self as_of acc user rest err :
  process_user self as_of acc user = Raise err ->
  process_users self as_of acc (user :: rest) = Raise err.
Proof. intros H. simpl. now rewrite H. Qed.

Lemma process_users_app self as_of acc before rest :
  process_users self as_of acc (before ++ rest) =
  rbind (process_users self as_of acc before)
    (fun acc' => process_users self as_of acc' rest).
Proof.
  revert acc. induction before as [|u before IH]; intros acc; simpl; [reflexivity|].
  destruct (process_user self as_of acc u); simpl; [apply IH|reflexivity].
Qed.

(** An exception in the user loop leaves [process_reminders]: no
    statistics are returned, nothing is sent and the log is not saved. *)
Lemma process_reminders_raises env self as_of err :
  process_users self as_of (make_collected [] []) (users self) = Raise err ->
  process_reminders (Some as_of) (env, self) = (Raise err, (env, self)).
Proof.
  intros H. unfold process_reminders, bind, ret, self_, lift_result; simpl.
  now rewrite H.
Qed.

Lemma only_composes_refl w : only_composes w w.
Proof. repeat split. exists []. now rewrite app_nil_r. Qed.

Lemma only_composes_trans w1 w2 w3 :
  only_composes w1 w2 -> only_composes w2 w3 -> only_composes w1 w3.
Proof.
  intros (Hf1 & Hw1 & Hp1 & c1 & Hs1) (Hf2 & Hw2 & Hp2 & c2 & Hs2).
  repeat split; try congruence.
  exists (c1 ++ c2)%list. now rewrite Hs2, Hs1, <- app_assoc.
Qed.

(** Sending composes one record or none, and cannot raise. *)
Lemma send_user_reminder_composes user courses status_type w :
  exists sent,
    fst (on_email_service (EmailService.send_user_reminder user courses status_type) w)
      = Ok sent
    /\ only_composes w
         (snd (on_email_service
                 (EmailService.send_user_reminder user courses status_type) w)).
Proof.
  destruct w as [env []]. destruct courses as [|course courses].
  - exists false. split; [reflexivity|apply only_composes_refl].
  - exists true. split; [reflexivity|]. repeat split. simpl. eauto.
Qed.

Lemma send_manager_summary_composes manager_email summaries w :
  exists sent,
    fst (on_email_service (EmailService.send_manager_summary manager_email summaries) w)
      = Ok sent
    /\ only_composes w
         (snd (on_email_service
                 (EmailService.send_manager_summary manager_email summaries) w)).
Proof.
  destruct w as [env []]. destruct summaries as [|row summaries].
  - exists false. split; [reflexivity|apply only_composes_refl].
  - exists true. split; [reflexivity|]. repeat split. simpl. eauto.
Qed.

Lemma count_sent_composes {A} (send : A -> M St bool) :
  (forall x w, exists sent, fst (send x w) = Ok sent /\ only_composes w (snd (send x w))) ->
  forall xs n w,
    exists total,
      fst (count_sent send xs n w) = Ok total
      /\ only_composes w (snd (count_sent send xs n w)).
Proof.
  intros Hsend. induction xs as [|x xs IH]; intros n w; simpl.
  - exists n. split; [reflexivity|apply only_composes_refl].
  - unfold bind. destruct (Hsend x w) as (sent & Hok & Hframe).
    destruct (send x w) as [r w']. simpl in Hok, Hframe. subst r.
    destruct (IH (if sent then n + 1 else n) w') as (total & Hok' & Hframe').
    exists total. split; [exact Hok'|].
    eapply only_composes_trans; eassumption.
Qed.

(** A run whose user loop completes returns statistics, composes
    records, and hands the log to [save_email_log] with the files as
    they were at the start. *)
Lemma process_reminders_composes env self as_of acc :
  process_users self as_of (make_collected [] []) (users self) = Ok acc ->
  exists stats w,
    process_reminders (Some as_of) (env, self)
      = (Ok stats, snd (on_email_service EmailService.save_email_log w))
    /\ only_composes (env, self) w.
Proof.
  intros Hacc. unfold process_reminders, bind, ret, self_, lift_result; simpl.
  rewrite Hacc.
  destruct (count_sent_composes
              (fun '(user, courses) =>
                 on_email_service
                   (EmailService.send_user_reminder user courses
                      ScheduleStatus.NEEDS_REMINDER))
              ltac:(intros [user courses] w; apply send_user_reminder_composes)
              (users_needing_reminders acc) 0 (env, self))
    as (n1 & Hok1 & Hframe1).
  destruct (count_sent _ (users_needing_reminders acc) 0 (env, self)) as [r1 w1].
  simpl in Hok1, Hframe1. subst r1.
  destruct (count_sent_composes
              (fun '(manager_email, summaries) =>
                 on_email_service
                   (EmailService.send_manager_summary manager_email summaries))
              ltac:(intros [manager summaries] w; apply send_manager_summary_composes)
              (manager_summaries acc) 0 w1)
    as (n2 & Hok2 & Hframe2).
  destruct (count_sent _ (manager_summaries acc) 0 w1) as [r2 w2].
  simpl in Hok2, Hframe2. subst r2.
  pose proof (save_email_log_outcome (fst w2) (email_service (snd w2))) as [Hsave _].
  destruct w2 as [env2 self2]. simpl in Hsave.
  unfold on_email_service at 1.
  destruct (EmailService.save_email_log (env2, email_service self2))
    as [r3 [env3 es3]] eqn:Hrun.
  simpl in Hsave. subst r3.
  eexists _, (env2, self2). split.
  - unfold on_email_service. rewrite Hrun. reflexivity.
  - eapply only_composes_trans; eassumption.
Qed.

(** So the log after such a run is the log before it, then what the
    service had already sent, then the records composed in the run. *)
Lemma process_reminders_appends env self as_of acc :
  process_users self as_of (make_collected [] []) (users self) = Ok acc ->
  writable env (EmailService.log_file (email_service self)) = true ->
  (forall j, files env !! EmailService.log_file (email_service self) = Some (Json j) ->
             exists items, j = JList items) ->
  exists composed,
    log_records (fst (snd (process_reminders (Some as_of) (env, self))))
      (EmailService.log_file (email_service self))
    = (log_records env (EmailService.log_file (email_service self))
       ++ EmailService.sent_emails (email_service self) ++ composed)%list.
Proof.
  intros Hacc Hw Harr.
  destruct (process_reminders_composes env self as_of acc Hacc)
    as (stats & [env2 self2] & -> & Hf & Hw2 & Hp & composed & Hs).
  simpl in Hf, Hw2, Hp, Hs. exists composed.
  destruct (save_email_log_effect env2 (email_service self2))
    as (_ & _ & _ & _ & Happ).
  rewrite Hp, Hw2, Hf in Happ. destruct (Happ Hw Harr) as [_ Hlog].
  unfold on_email_service; simpl.
  destruct (EmailService.save_email_log (env2, email_service self2)) as [r [env3 es3]].
  simpl in *. rewrite Hlog, Hs.
  unfold log_records. now rewrite Hf.
Qed.

End Orchestrator.

(** C2 (the code departs from the claim).  In a batch of two users, Ann's
    only enrollment is tagged Completed without a completion date and
    Bob's is overdue.  Classifying Ann's enrollments raises, and the run
    ends there with that exception: it returns no statistics, Bob is not
    processed, no email is composed and no log is written.  With Ann's
    record dated the same batch completes and Bob is reminded. *)
Theorem run_aborts_on_classification_error :
  fst (DailyReminderJob.run (Some (Fixtures.jan 15 0 0))
         (Fixtures.batch_env [Fixtures.completed_without_date], DailyReminderJob.new))
    = Raise (AttributeError "'NoneType' object has no attribute 'strftime'")
  /\ files (fst (snd (DailyReminderJob.run (Some (Fixtures.jan 15 0 0))
         (Fixtures.batch_env [Fixtures.completed_without_date], DailyReminderJob.new))))
       !! "data/email_log.json" = None
  /\ EmailService.sent_emails (DailyReminderJob.email_service
        (snd (snd (DailyReminderJob.run (Some (Fixtures.jan 15 0 0))
           (Fixtures.batch_env [Fixtures.completed_without_date], DailyReminderJob.new)))))
      = []
  /\ fst (DailyReminderJob.run (Some (Fixtures.jan 15 0 0))
         (Fixtures.batch_env [Fixtures.completed_enrollment], DailyReminderJob.new))
    = Ok (DailyReminderJob.make_job_stats "2025-01-15T00:00:00" 2 1 1 1 2).
Proof. repeat split; vm_compute; reflexivity. Qed.

(** * Further properties of the code *)

(** ** The Evaluator and the enrollment model *)

Section EvaluatorMore.

Import ScheduleStatusService CourseEnrollment.

Variable self : ScheduleStatusService.t.

Lemma us_per_day_pos : 0 < us_per_day.
Proof. unfold us_per_day. lia. Qed.

(** More than [D] whole days have passed exactly from the instant
    [D + 1] days after the start. *)
Lemma days_gt_iff (a b : datetime) (D : Z) :
  D < days (sub a b) <-> ticks b + (D + 1) * us_per_day <= ticks a.
Proof.
  unfold days, sub; simpl. pose proof us_per_day_pos as HU.
  split; intros H.
  - pose proof (Z.mul_div_le (ticks a - ticks b) us_per_day HU). nia.
  - assert (D + 1 <= (ticks a - ticks b) / us_per_day); [|lia].
    apply Z.div_le_lower_bound; [exact HU|lia].
Qed.

Lemma days_mono (a a' b : datetime) :
  ticks a <= ticks a' -> days (sub a b) <= days (sub a' b).
Proof.
  intros H. unfold days, sub; simpl.
  apply Z.div_le_mono; [apply us_per_day_pos|lia].
Qed.

Lemma days_anti (a b b' : datetime) :
  ticks b <= ticks b' -> days (sub a b') <= days (sub a b).
Proof.
  intros H. unfold days, sub; simpl.
  apply Z.div_le_mono; [apply us_per_day_pos|lia].
Qed.

(** A returned status names the enrollment and schedule it was computed
    from. *)
Lemma calculate_status_fields e s d st :
  calculate_status self e s d = Ok st ->
  CourseScheduleStatus.course_id st = course_id e
  /\ CourseScheduleStatus.enrollment st = Some e
  /\ CourseScheduleStatus.schedule st = s.
Proof.
  unfold calculate_status, completion_date_strftime.
  destruct (is_completed e).
  - destruct (completion_date e); simpl; [|discriminate]. intros [= <-]. auto.
  - destruct (_ <? _); [intros [= <-]; auto|].
    case_bool_decide; [intros [= <-]; auto|].
    destruct (is_started e); intros [= <-]; auto.
Qed.

End EvaluatorMore.

(** X1.  For an enrollment that is not completed, the status is
    NeedsReminder exactly from the instant [days_to_complete + 1] days
    after the enrollment timestamp: the time of day of the enrollment
    counts, the calendar date alone does not. *)
Theorem calculate_status_overdue_from_instant
    (self : ScheduleStatusService.t) (e : CourseEnrollment.t) (s : CourseSchedule.t)
    (as_of : datetime) :
  CourseEnrollment.is_completed e = false ->
  exists st,
    calculate_status self e s as_of = Ok st
    /\ (CourseScheduleStatus.status st = ScheduleStatus.NEEDS_REMINDER
        <-> ticks (CourseEnrollment.enrollment_date e)
            + (CourseSchedule.days_to_complete s + 1) * us_per_day <= ticks as_of).
Proof.
  intros Hc.
  destruct (calculate_status_not_completed_returns self e s as_of Hc) as [st Hst].
  exists st. split; [exact Hst|].
  rewrite <- days_gt_iff. fold (CourseEnrollment.days_since_enrollment e as_of).
  apply calculate_status_tag in Hst.
  destruct Hst as [(? & _) | [(_ & ? & ? & _) | (_ & ? & [Ht|Ht] & _)]];
    [congruence | tauto | rewrite Ht; split; [discriminate|lia] ..].
Qed.

Lemma calculate_status_overdue_from_instant_witness :
  exists st,
    calculate_status Fixtures.service Fixtures.in_progress_enrollment
      Fixtures.schedule_2_days (Fixtures.jan 3 23 59) = Ok st
    /\ CourseScheduleStatus.status st <> ScheduleStatus.NEEDS_REMINDER.
Proof.
  destruct (calculate_status_overdue_from_instant Fixtures.service
              Fixtures.in_progress_enrollment Fixtures.schedule_2_days
              (Fixtures.jan 3 23 59) eq_refl) as (st & Hst & Hiff).
  exists st. split; [exact Hst|].
  intros Ht. apply Hiff in Ht. vm_compute in Ht. apply Ht. reflexivity.
Defined.

(** X2.  Overdue is permanent while the enrollment is not completed: if
    the status is NeedsReminder at one date, then at any later date it is
    NeedsReminder again and days_overdue has not decreased. *)
Theorem calculate_status_overdue_persists
    (self : ScheduleStatusService.t) (e : CourseEnrollment.t) (s : CourseSchedule.t)
    (d1 d2 : datetime) (st1 : CourseScheduleStatus.t) :
  ticks d1 <= ticks d2 ->
  calculate_status self e s d1 = Ok st1 ->
  CourseScheduleStatus.status st1 = ScheduleStatus.NEEDS_REMINDER ->
  exists st2,
    calculate_status self e s d2 = Ok st2
    /\ CourseScheduleStatus.status st2 = ScheduleStatus.NEEDS_REMINDER
    /\ CourseScheduleStatus.days_overdue st1 <= CourseScheduleStatus.days_overdue st2.
Proof.
  intros Hle H1 Ht1.
  apply calculate_status_tag in H1.
  destruct H1 as [(_ & Ht & _) | [(Hc & Hlt & _ & Ho) | (_ & _ & [Ht|Ht] & _)]];
    try congruence.
  destruct (calculate_status_not_completed_returns self e s d2 Hc) as [st2 H2].
  exists st2. split; [exact H2|].
  pose proof (days_mono d1 d2 (CourseEnrollment.enrollment_date e) Hle) as Hmono.
  fold (CourseEnrollment.days_since_enrollment e d1) in Hmono.
  fold (CourseEnrollment.days_since_enrollment e d2) in Hmono.
  apply calculate_status_tag in H2.
  destruct H2 as [(? & _) | [(_ & _ & Ht & Ho2) | (_ & ? & _)]];
    [congruence | split; [exact Ht|lia] | lia].
Qed.

Lemma calculate_status_overdue_persists_witness :
  exists st2,
    calculate_status Fixtures.service Fixtures.in_progress_enrollment
      Fixtures.schedule_2_days (Fixtures.jan 9 0 0) = Ok st2
    /\ CourseScheduleStatus.status st2 = ScheduleStatus.NEEDS_REMINDER
    /\ 1 <= CourseScheduleStatus.days_overdue st2.
Proof.
  apply (calculate_status_overdue_persists Fixtures.service
           Fixtures.in_progress_enrollment Fixtures.schedule_2_days
           (Fixtures.jan 4 0 0) (Fixtures.jan 9 0 0)
           (CourseScheduleStatus.make "COURSE_001" ScheduleStatus.NEEDS_REMINDER
              (Some Fixtures.in_progress_enrollment) Fixtures.schedule_2_days 1
              "In progress but overdue - 1 days overdue"));
    [vm_compute; discriminate | reflexivity | reflexivity].
Defined.

(** X3.  [days_since_start] is 0 for a course that was never started,
    and for a course started at or after its enrollment it is at most
    [days_since_enrollment] at every date. *)
Theorem days_since_start_bounds (e : CourseEnrollment.t) (as_of : datetime) :
  (CourseEnrollment.start_date e = None ->
     CourseEnrollment.days_since_start e as_of = 0)
  /\ (forall start,
        CourseEnrollment.start_date e = Some start ->
        ticks (CourseEnrollment.enrollment_date e) <= ticks start ->
        CourseEnrollment.days_since_start e as_of
          <= CourseEnrollment.days_since_enrollment e as_of).
Proof.
  unfold CourseEnrollment.days_since_start, CourseEnrollment.days_since_enrollment.
  split.
  - intros ->. reflexivity.
  - intros start -> Hle. now apply days_anti.
Qed.

Lemma days_since_start_bounds_witness :
  CourseEnrollment.days_since_start Fixtures.unscheduled_enrollment (Fixtures.jan 9 0 0) = 0
  /\ CourseEnrollment.days_since_start Fixtures.dated_but_in_progress (Fixtures.jan 9 0 0)
     <= CourseEnrollment.days_since_enrollment Fixtures.dated_but_in_progress
          (Fixtures.jan 9 0 0).
Proof.
  split.
  - apply (proj1 (days_since_start_bounds Fixtures.unscheduled_enrollment
                    (Fixtures.jan 9 0 0))).
    reflexivity.
  - apply (proj2 (days_since_start_bounds Fixtures.dated_but_in_progress
                    (Fixtures.jan 9 0 0)) (Fixtures.jan 1 0 0)).
    + reflexivity.
    + vm_compute. discriminate.
Defined.

(** ** The Aggregator *)

Section AggregatorMore.

Import ScheduleStatusService.

Variable self : ScheduleStatusService.t.
Variable as_of : datetime.

Lemma calculate_user_status_app_eq es1 es2 :
  calculate_user_status self (es1 ++ es2) as_of =
  rbind (calculate_user_status self es1 as_of) (fun out1 =>
    rbind (calculate_user_status self es2 as_of) (fun out2 =>
      Ok (out1 ++ out2)%list)).
Proof.
  induction es1 as [|e es1 IH].
  - rewrite app_nil_l, calculate_user_status_nil. cbn [rbind].
    now destruct (calculate_user_status self es2 as_of).
  - rewrite <- app_comm_cons. destruct (has_schedule self e) eqn:Hm.
    + unfold has_schedule in Hm.
      destruct (schedules_map self !! CourseEnrollment.course_id e) as [sch|] eqn:Hs;
        [|discriminate].
      rewrite !(calculate_user_status_keep self as_of _ _ sch Hs), IH.
      destruct (calculate_status self e sch as_of); simpl; [|reflexivity].
      destruct (calculate_user_status self es1 as_of); simpl; [|reflexivity].
      now destruct (calculate_user_status self es2 as_of).
    + now rewrite !(calculate_user_status_skip self as_of) by assumption.
Qed.

(** Every returned status is the classification of an enrollment of the
    input. *)
Lemma calculate_user_status_origin es out :
  calculate_user_status self es as_of = Ok out ->
  Forall (fun st => exists e, In e es /\ classified_as self as_of e st) out.
Proof.
  intros H. apply calculate_user_status_returned in H.
  assert (Hin : forall e, In e (List.filter (has_schedule self) es) -> In e es)
    by (intros e He; now apply filter_In in He).
  remember (List.filter (has_schedule self) es) as l eqn:Hl. clear Hl.
  induction H as [|e st l' out' Hst _ IH]; constructor.
  - exists e. split; [apply Hin; now left|exact Hst].
  - apply IH. intros e' He'. apply Hin. now right.
Qed.

(** The three status counters of the summary move one at a time. *)
Lemma summary_step_counts sm st :
  total_courses (summary_step sm st) = total_courses sm
  /\ completed (summary_step sm st) + in_progress (summary_step sm st)
       + needs_reminder (summary_step sm st)
     = completed sm + in_progress sm + needs_reminder sm + 1
  /\ needs_reminder (summary_step sm st)
     = needs_reminder sm
       + (if CourseScheduleStatus.needs_reminder st then 1 else 0)
  /\ completed sm <= completed (summary_step sm st)
  /\ in_progress sm <= in_progress (summary_step sm st).
Proof.
  unfold summary_step, CourseScheduleStatus.needs_reminder.
  destruct (CourseScheduleStatus.status st) eqn:Ht;
    repeat case_bool_decide; try congruence;
    try (destruct (_ =? _)); simpl; try (repeat split; lia);
    exfalso; match goal with H : ~ (_ ∈ _) |- _ => apply H end;
    rewrite !elem_of_cons; auto.
Qed.

Lemma foldl_summary_step_counts sts sm :
  total_courses (foldl summary_step sm sts) = total_courses sm
  /\ completed (foldl summary_step sm sts) + in_progress (foldl summary_step sm sts)
       + needs_reminder (foldl summary_step sm sts)
     = completed sm + in_progress sm + needs_reminder sm + Z.of_nat (length sts)
  /\ needs_reminder (foldl summary_step sm sts)
     = needs_reminder sm
       + Z.of_nat (length (List.filter CourseScheduleStatus.needs_reminder sts))
  /\ completed sm <= completed (foldl summary_step sm sts)
  /\ in_progress sm <= in_progress (foldl summary_step sm sts).
Proof.
  revert sm. induction sts as [|st sts IH]; intros sm.
  - simpl. repeat split; lia.
  - cbn [foldl]. destruct (IH (summary_step sm st)) as (H1 & H2 & H3 & H4 & H5).
    destruct (summary_step_counts sm st) as (G1 & G2 & G3 & G4 & G5).
    rewrite H1, H2, H3, G1, G2, G3. cbn [List.filter length].
    destruct (CourseScheduleStatus.needs_reminder st); cbn [length];
      repeat split; lia.
Qed.

End AggregatorMore.

(** Looking up a map built by inserting a list in order finds the last
    element of the list with that key, or what the map held before. *)
Lemma foldl_insert_lookup {A} (key : A -> string) (l : list A)
    (m : gmap string A) (k : string) :
  foldl (fun m x => <[key x := x]> m) m l !! k =
  match List.find (fun x => bool_decide (key x = k)) (rev l) with
  | Some x => Some x
  | None => m !! k
  end.
Proof.
  induction l as [|x l IH] using rev_ind; [reflexivity|].
  rewrite foldl_app, rev_app_distr. cbn [foldl rev app List.find].
  case_bool_decide as Hk.
  - rewrite <- Hk. apply lookup_insert_eq.
  - rewrite lookup_insert_ne by exact Hk. apply IH.
Qed.

(** X4.  [calculate_user_status] of two lists put end to end is the
    statuses of the first followed by the statuses of the second; the
    call raises exactly when one of the two parts does, with the error of
    the first part that fails. *)
Theorem calculate_user_status_app
    (self : ScheduleStatusService.t) (es1 es2 : list CourseEnrollment.t)
    (as_of : datetime) :
  calculate_user_status self (es1 ++ es2) as_of =
  match calculate_user_status self es1 as_of with
  | Raise err => Raise err
  | Ok out1 =>
      match calculate_user_status self es2 as_of with
      | Raise err => Raise err
      | Ok out2 => Ok (out1 ++ out2)%list
      end
  end.
Proof. exact (calculate_user_status_app_eq self as_of es1 es2). Qed.

(** X5.  Every status [get_courses_needing_reminder] returns has the tag
    NeedsReminder and days_overdue of at least 1, and belongs to an
    enrollment of the input that is not completed, whose course is
    scheduled, and whose deadline has passed; the list is the
    NeedsReminder part of what [calculate_user_status] returns, in the
    same order. *)
Theorem get_courses_needing_reminder_overdue
    (self : ScheduleStatusService.t) (es : list CourseEnrollment.t) (as_of : datetime)
    (reminders : list CourseScheduleStatus.t) :
  get_courses_needing_reminder self es as_of = Ok reminders ->
  (exists out,
      calculate_user_status self es as_of = Ok out
      /\ reminders = List.filter CourseScheduleStatus.needs_reminder out)
  /\ Forall (fun st =>
               CourseScheduleStatus.status st = ScheduleStatus.NEEDS_REMINDER
               /\ 1 <= CourseScheduleStatus.days_overdue st
               /\ exists e,
                   In e es
                   /\ CourseScheduleStatus.enrollment st = Some e
                   /\ CourseEnrollment.is_completed e = false
                   /\ has_schedule self e = true
                   /\ CourseScheduleStatus.days_overdue st
                      = CourseEnrollment.days_since_enrollment e as_of
                        - CourseSchedule.days_to_complete
                            (CourseScheduleStatus.schedule st))
       reminders.
Proof.
  unfold get_courses_needing_reminder.
  destruct (calculate_user_status self es as_of) as [out|err] eqn:Hout; simpl;
    [|discriminate].
  intros [= <-]. split; [eauto|].
  apply calculate_user_status_origin in Hout.
  apply List.Forall_forall. intros st Hst. apply filter_In in Hst as [Hin Hnr].
  rewrite List.Forall_forall in Hout.
  destruct (Hout st Hin) as (e & He & sch & Hs & Hcalc).
  unfold CourseScheduleStatus.needs_reminder in Hnr.
  apply bool_decide_eq_true in Hnr.
  destruct (calculate_status_fields self e sch as_of st Hcalc) as (_ & Henr & Hsch).
  apply calculate_status_tag in Hcalc.
  destruct Hcalc as [(_ & Ht & _) | [(Hc & Hlt & _ & Ho) | (_ & _ & [Ht|Ht] & _)]];
    try congruence.
  split; [exact Hnr|]. split; [lia|].
  exists e. repeat split; auto.
  - unfold has_schedule. now rewrite Hs.
  - now rewrite Hsch.
Qed.

Lemma get_courses_needing_reminder_overdue_witness :
  exists reminders,
    get_courses_needing_reminder Fixtures.service
      [Fixtures.completed_enrollment; Fixtures.in_progress_enrollment;
       Fixtures.unscheduled_enrollment] (Fixtures.jan 9 0 0) = Ok reminders
    /\ length reminders = 1%nat
    /\ Forall (fun st => 1 <= CourseScheduleStatus.days_overdue st) reminders.
Proof.
  eexists. split; [vm_compute; reflexivity|]. split; [reflexivity|].
  eapply Forall_impl.
  - apply (get_courses_needing_reminder_overdue Fixtures.service
             [Fixtures.completed_enrollment; Fixtures.in_progress_enrollment;
              Fixtures.unscheduled_enrollment] (Fixtures.jan 9 0 0)).
    vm_compute; reflexivity.
  - intros st (_ & H & _). exact H.
Defined.

(** X6.  In a summary returned by [get_user_summary], total_courses is
    the number of enrollments whose course is scheduled, the counters
    completed, in_progress and needs_reminder are non-negative and add up
    to total_courses, and needs_reminder is the number of statuses
    [get_courses_needing_reminder] returns for the same input. *)
Theorem get_user_summary_counts
    (self : ScheduleStatusService.t) (es : list CourseEnrollment.t) (as_of : datetime)
    (sm : summary) :
  get_user_summary self es as_of = Ok sm ->
  total_courses sm = Z.of_nat (length (List.filter (has_schedule self) es))
  /\ completed sm + in_progress sm + needs_reminder sm = total_courses sm
  /\ 0 <= completed sm /\ 0 <= in_progress sm /\ 0 <= needs_reminder sm
  /\ exists reminders,
      get_courses_needing_reminder self es as_of = Ok reminders
      /\ needs_reminder sm = Z.of_nat (length reminders).
Proof.
  unfold get_user_summary, get_courses_needing_reminder.
  destruct (calculate_user_status self es as_of) as [out|err] eqn:Hout; simpl;
    [|discriminate].
  intros [= <-].
  destruct (foldl_summary_step_counts out
              (make_summary (Z.of_nat (length out)) 0 0 0 0))
    as (H1 & H2 & H3 & H4 & H5).
  cbn [total_courses completed in_progress needs_reminder] in H1, H2, H3, H4, H5.
  apply calculate_user_status_returned in Hout.
  rewrite (Forall2_length _ _ _ Hout).
  rewrite H1, H2, H3. repeat split; try lia.
  eexists. split; [reflexivity|]. lia.
Qed.

Lemma get_user_summary_counts_witness :
  exists sm,
    get_user_summary Fixtures.service
      [Fixtures.completed_enrollment; Fixtures.in_progress_enrollment;
       Fixtures.unscheduled_enrollment] (Fixtures.jan 9 0 0) = Ok sm
    /\ total_courses sm = 2
    /\ completed sm + in_progress sm + needs_reminder sm = total_courses sm.
Proof.
  eexists. split; [vm_compute; reflexivity|]. split; [reflexivity|].
  apply (get_user_summary_counts Fixtures.service
           [Fixtures.completed_enrollment; Fixtures.in_progress_enrollment;
            Fixtures.unscheduled_enrollment] (Fixtures.jan 9 0 0)).
  vm_compute; reflexivity.
Defined.

(** X7.  The service built from a list of schedules finds, for a course
    id, the last schedule of the list with that id (a later duplicate
    replaces an earlier one) and nothing when the list has none; what it
    finds is always a schedule of the list filed under its own id. *)
Theorem init_schedules_map_lookup (schedules : list CourseSchedule.t) (k : string) :
  schedules_map (ScheduleStatusService.init schedules) !! k
    = List.find (fun s => bool_decide (CourseSchedule.course_id s = k)) (rev schedules)
  /\ (forall s,
        schedules_map (ScheduleStatusService.init schedules) !! k = Some s ->
        In s schedules /\ CourseSchedule.course_id s = k)
  /\ (schedules_map (ScheduleStatusService.init schedules) !! k = None <->
      forall s, In s schedules -> CourseSchedule.course_id s <> k).
Proof.
  assert (Hfind : schedules_map (ScheduleStatusService.init schedules) !! k
                  = List.find (fun s => bool_decide (CourseSchedule.course_id s = k))
                      (rev schedules)).
  { unfold ScheduleStatusService.init; simpl.
    rewrite (foldl_insert_lookup CourseSchedule.course_id).
    rewrite lookup_empty. now destruct (List.find _ _). }
  split; [exact Hfind|]. rewrite Hfind. split.
  - intros s Hs. apply find_some in Hs as [Hin Hk].
    split; [now apply in_rev|now apply bool_decide_eq_true in Hk].
  - split.
    + intros Hnone s Hin Hk.
      apply in_rev in Hin.
      pose proof (find_none _ _ Hnone s Hin) as Hf.
      apply bool_decide_eq_false in Hf. contradiction.
    + intros Hnot.
      destruct (List.find _ (rev schedules)) as [s|] eqn:Hf; [|reflexivity].
      apply find_some in Hf as [Hin Hk]. apply bool_decide_eq_true in Hk.
      exfalso. apply (Hnot s); [now apply in_rev|exact Hk].
Qed.

Lemma init_schedules_map_lookup_witness :
  schedules_map
    (ScheduleStatusService.init
       [CourseSchedule.make "COURSE_001" 2 0; CourseSchedule.make "COURSE_002" 5 1;
        CourseSchedule.make "COURSE_001" 9 3]) !! "COURSE_001"
  = Some (CourseSchedule.make "COURSE_001" 9 3)
  /\ CourseSchedule.course_id (CourseSchedule.make "COURSE_001" 9 3) = "COURSE_001".
Proof.
  split; [vm_compute; reflexivity|].
  apply (proj1 (proj2 (init_schedules_map_lookup
                         [CourseSchedule.make "COURSE_001" 2 0;
                          CourseSchedule.make "COURSE_002" 5 1;
                          CourseSchedule.make "COURSE_001" 9 3] "COURSE_001"))
           (CourseSchedule.make "COURSE_001" 9 3)).
  vm_compute; reflexivity.
Defined.

(** X8.  With a service built from a list of schedules, every status
    [calculate_user_status] returns carries an enrollment of the input
    and a schedule of that list, and the three course ids, of the
    status, of its enrollment and of its schedule, are the same. *)
Theorem calculate_user_status_consistent
    (schedules : list CourseSchedule.t) (es : list CourseEnrollment.t)
    (as_of : datetime) (out : list CourseScheduleStatus.t) :
  calculate_user_status (ScheduleStatusService.init schedules) es as_of = Ok out ->
  Forall (fun st =>
            In (CourseScheduleStatus.schedule st) schedules
            /\ CourseSchedule.course_id (CourseScheduleStatus.schedule st)
               = CourseScheduleStatus.course_id st
            /\ exists e,
                In e es
                /\ CourseScheduleStatus.enrollment st = Some e
                /\ CourseEnrollment.course_id e = CourseScheduleStatus.course_id st)
         out.
Proof.
  intros Hout. apply calculate_user_status_origin in Hout.
  eapply Forall_impl; [exact Hout|].
  intros st (e & He & sch & Hs & Hcalc). simpl.
  destruct (calculate_status_fields _ e sch as_of st Hcalc) as (Hid & Henr & Hsch).
  unfold ScheduleStatusService.init in Hs; simpl in Hs.
  rewrite (foldl_insert_lookup CourseSchedule.course_id) in Hs.
  destruct (List.find _ (rev schedules)) as [s|] eqn:Hf;
    [|rewrite lookup_empty in Hs; discriminate].
  injection Hs as ->. apply find_some in Hf as [Hin Hk].
  apply bool_decide_eq_true in Hk. apply in_rev in Hin.
  rewrite Hsch, Hid. split; [exact Hin|]. split; [exact Hk|].
  exists e. auto.
Qed.

Lemma calculate_user_status_consistent_witness :
  exists out,
    calculate_user_status (ScheduleStatusService.init [Fixtures.schedule_2_days])
      [Fixtures.in_progress_enrollment; Fixtures.unscheduled_enrollment]
      (Fixtures.jan 2 0 0) = Ok out
    /\ Forall (fun st => In (CourseScheduleStatus.schedule st) [Fixtures.schedule_2_days])
         out.
Proof.
  eexists. split; [vm_compute; reflexivity|].
  eapply Forall_impl.
  - apply (calculate_user_status_consistent [Fixtures.schedule_2_days]
             [Fixtures.in_progress_enrollment; Fixtures.unscheduled_enrollment]
             (Fixtures.jan 2 0 0)).
    vm_compute; reflexivity.
  - intros st (H & _). exact H.
Defined.

(** ** The Composer: subjects *)

Section ComposerMore.

Import EmailTemplates.

Lemma append_bang_inj (s1 s2 : string) :
  s1 +:+ "!" = s2 +:+ "!" -> s1 = s2.
Proof.
  revert s2. induction s1 as [|a s1 IH]; intros [|b s2]; simpl; intros H.
  - reflexivity.
  - injection H as _ H. destruct s2; discriminate.
  - injection H as _ H. destruct s1; discriminate.
  - injection H as -> H. f_equal. now apply IH.
Qed.

Lemma append_inj_r (p s1 s2 : string) : p +:+ s1 = p +:+ s2 -> s1 = s2.
Proof. induction p as [|a p IH]; simpl; [auto|]. intros [= H]. auto. Qed.

End ComposerMore.

(** X9.  The subject line of a status email tells the template and the
    addressee apart: two templates with the same subject are of the same
    class and are for users of the same name. *)
Theorem generate_subject_injective (t1 t2 : EmailTemplates.EmailTemplate) :
  EmailTemplates.generate_subject t1 = EmailTemplates.generate_subject t2 ->
  EmailTemplates.cls t1 = EmailTemplates.cls t2
  /\ User.name (EmailTemplates.user t1) = User.name (EmailTemplates.user t2).
Proof.
  unfold EmailTemplates.generate_subject.
  destruct (EmailTemplates.cls t1), (EmailTemplates.cls t2);
    intros H; try (simpl in H; discriminate H);
    (split; [reflexivity|]).
  - now apply append_inj_r in H.
  - apply append_inj_r in H. now apply append_bang_inj.
  - apply append_inj_r in H. now apply append_bang_inj.
  - apply append_inj_r in H. now apply append_bang_inj.
Qed.

Lemma generate_subject_injective_witness :
  EmailTemplates.cls
    (EmailTemplates.EmailTemplateFactory.get_template
       (EmailTemplates.ScheduleTag ScheduleStatus.STARTED) Fixtures.ann)
  = EmailTemplates.cls (EmailTemplates.template EmailTemplates.StartedTemplate Fixtures.ann)
  /\ User.name Fixtures.ann = User.name Fixtures.ann.
Proof.
  apply (generate_subject_injective
           (EmailTemplates.EmailTemplateFactory.get_template
              (EmailTemplates.ScheduleTag ScheduleStatus.STARTED) Fixtures.ann)
           (EmailTemplates.template EmailTemplates.StartedTemplate Fixtures.ann)).
  reflexivity.
Defined.

(** ** The email service: sending and statistics *)

Section EmailServiceMore.

Import EmailService.

(** A "type" that is neither of the two kinds moves no counter. *)
Lemma other_type_no_counter (s : string) {A} (a b c : A) :
  s <> "user_reminder" -> s <> "manager_summary" ->
  match s with
  | "user_reminder" => a
  | "manager_summary" => b
  | _ => c
  end = c.
Proof.
  intros Hu Hm.
  repeat (destruct s as [|[[] [] [] [] [] [] [] []] s]; try reflexivity);
    congruence.
Qed.

(** One pass: it raises what the subscript raises, and otherwise moves
    the counter of the record's kind. *)
Lemma statistics_step_spec stats email :
  match getitem email "type" with
  | inl err => statistics_step stats email = inl err
  | inr _ =>
      exists mid,
        statistics_step stats email = inr mid
        /\ total_sent mid = total_sent stats
        /\ user_reminders mid
           = user_reminders stats + (if has_type "user_reminder" email then 1 else 0)
        /\ manager_summaries mid
           = manager_summaries stats
             + (if has_type "manager_summary" email then 1 else 0)
  end.
Proof.
  unfold statistics_step, has_type.
  destruct (getitem email "type") as [err|v]; [reflexivity|].
  destruct v as [| |s| |]; try (eexists; repeat split; simpl; lia).
  destruct (decide (s = "user_reminder")) as [->|Hu].
  { eexists. split; [reflexivity|].
    rewrite (bool_decide_eq_true_2 ("user_reminder" = "user_reminder")) by reflexivity.
    rewrite (bool_decide_eq_false_2 ("user_reminder" = "manager_summary"))
      by discriminate.
    simpl. lia. }
  destruct (decide (s = "manager_summary")) as [->|Hm].
  { eexists. split; [reflexivity|].
    rewrite (bool_decide_eq_true_2 ("manager_summary" = "manager_summary"))
      by reflexivity.
    rewrite (bool_decide_eq_false_2 ("manager_summary" = "user_reminder"))
      by discriminate.
    simpl. lia. }
  rewrite (other_type_no_counter s _ _ _ Hu Hm).
  rewrite !bool_decide_eq_false_2 by assumption.
  eexists. split; [reflexivity|]. lia.
Qed.

(** The counters after the loop, when it does not raise. *)
Lemma statistics_loop_counts emails stats stats' :
  statistics_loop stats emails = inr stats' ->
  total_sent stats' = total_sent stats
  /\ user_reminders stats'
     = user_reminders stats
       + Z.of_nat (length (List.filter (has_type "user_reminder") emails))
  /\ manager_summaries stats'
     = manager_summaries stats
       + Z.of_nat (length (List.filter (has_type "manager_summary") emails))
  /\ Forall typed_record emails.
Proof.
  revert stats. induction emails as [|email emails IH]; intros stats.
  - intros [= <-]. simpl. repeat split; try lia. constructor.
  - cbn [statistics_loop List.filter].
    pose proof (statistics_step_spec stats email) as Hstep.
    destruct (getitem email "type") as [err|v] eqn:Hget.
    + rewrite Hstep. discriminate.
    + destruct Hstep as (mid & -> & G1 & G2 & G3).
      intros Hloop. destruct (IH mid Hloop) as (H1 & H2 & H3 & H4).
      rewrite H1, H2, H3, G1, G2, G3.
      split; [reflexivity|].
      split; [destruct (has_type "user_reminder" email); cbn [length]; lia|].
      split; [destruct (has_type "manager_summary" email); cbn [length]; lia|].
      constructor; [exists v; exact Hget|exact H4].
Qed.

(** The loop raises only on a record without a readable "type". *)
Lemma statistics_loop_typed emails stats :
  Forall typed_record emails -> exists stats', statistics_loop stats emails = inr stats'.
Proof.
  intros H. revert stats. induction H as [|email emails [v Hv] _ IH]; intros stats.
  - now exists stats.
  - cbn [statistics_loop].
    pose proof (statistics_step_spec stats email) as Hstep. rewrite Hv in Hstep.
    destruct Hstep as (mid & -> & _). apply IH.
Qed.

Lemma has_type_disjoint emails :
  (length (List.filter (has_type "user_reminder") emails)
   + length (List.filter (has_type "manager_summary") emails)
   <= length emails)%nat.
Proof.
  induction emails as [|email emails IH]; [reflexivity|].
  cbn [List.filter length].
  assert (has_type "user_reminder" email = true ->
          has_type "manager_summary" email = false) as Hd.
  { unfold has_type. destruct (getitem email "type") as [|[| |s| |]]; try discriminate.
    intros H. apply bool_decide_eq_true in H. subst s.
    apply bool_decide_eq_false_2. discriminate. }
  destruct (has_type "user_reminder" email).
  - rewrite Hd by reflexivity. cbn [length]. lia.
  - destruct (has_type "manager_summary" email); cbn [length]; lia.
Qed.

(** The statistics of a service, from the counts of its records. *)
Lemma get_email_statistics_of_counts self stats :
  get_email_statistics self = inr stats <->
  Forall typed_record (sent_emails self)
  /\ stats = make_statistics (Z.of_nat (length (sent_emails self)))
               (Z.of_nat (length (List.filter (has_type "user_reminder")
                                    (sent_emails self))))
               (Z.of_nat (length (List.filter (has_type "manager_summary")
                                    (sent_emails self)))).
Proof.
  unfold get_email_statistics. split.
  - intros H. apply statistics_loop_counts in H as (H1 & H2 & H3 & H4).
    split; [exact H4|]. destruct stats as [t u m]. simpl in *. f_equal; lia.
  - intros [Htyped ->].
    destruct (statistics_loop_typed (sent_emails self)
                (make_statistics (Z.of_nat (length (sent_emails self))) 0 0) Htyped)
      as [stats' Hloop].
    rewrite Hloop. f_equal.
    apply statistics_loop_counts in Hloop as (H1 & H2 & H3 & _).
    destruct stats' as [t u m]. simpl in *. f_equal; lia.
Qed.

(** What a send leaves in the service. *)
Lemma send_user_reminder_effect user courses status_type env self :
  match courses with
  | [] => send_user_reminder user courses status_type (env, self) = (Ok false, (env, self))
  | _ :: _ =>
      exists email_record,
        send_user_reminder user courses status_type (env, self)
        = (Ok true,
           (make_env (data_files env) (files env) (writable env) (clock env)
              (S (clock_reads env)),
            make (log_file self) (sent_emails self ++ [email_record])%list))
        /\ getitem email_record "type" = inr (JStr "user_reminder")
        /\ getitem email_record "to" = inr (JStr (User.email user))
        /\ getitem email_record "course_ids"
           = inr (JList (map (fun c => JStr (CourseScheduleStatus.course_id c)) courses))
  end.
Proof.
  destruct courses as [|course courses]; [reflexivity|].
  cbv beta iota zeta delta [send_user_reminder bind now _log_email ret].
  eexists. split; [reflexivity|]. repeat split.
Qed.

Lemma send_manager_summary_effect manager_email summaries env self :
  match summaries with
  | [] => send_manager_summary manager_email summaries (env, self)
          = (Ok false, (env, self))
  | _ :: _ =>
      exists email_record,
        send_manager_summary manager_email summaries (env, self)
        = (Ok true,
           (make_env (data_files env) (files env) (writable env) (clock env)
              (S (clock_reads env)),
            make (log_file self) (sent_emails self ++ [email_record])%list))
        /\ getitem email_record "type" = inr (JStr "manager_summary")
        /\ getitem email_record "to" = inr (JStr manager_email)
        /\ getitem email_record "user_count"
           = inr (JNum (Z.of_nat (length summaries)))
  end.
Proof.
  destruct summaries as [|row summaries]; [reflexivity|].
  cbv beta iota zeta delta [send_manager_summary bind now _log_email ret].
  eexists. split; [reflexivity|]. repeat split.
Qed.

(** The statistics after one more record of a known kind. *)
Lemma get_email_statistics_snoc self stats email_record :
  get_email_statistics self = inr stats ->
  typed_record email_record ->
  get_email_statistics (make (log_file self) (sent_emails self ++ [email_record])%list)
  = inr (make_statistics (total_sent stats + 1)
           (user_reminders stats
            + (if has_type "user_reminder" email_record then 1 else 0))
           (manager_summaries stats
            + (if has_type "manager_summary" email_record then 1 else 0))).
Proof.
  intros Hstats Hrec. apply get_email_statistics_of_counts in Hstats as [Htyped ->].
  apply get_email_statistics_of_counts. cbn [sent_emails].
  split; [apply Forall_app; split; [exact Htyped|constructor; [exact Hrec|constructor]]|].
  rewrite !List.filter_app, !length_app. cbn [List.filter total_sent user_reminders
                                           manager_summaries].
  f_equal; [cbn [length]; lia | ..].
  - destruct (has_type "user_reminder" email_record); cbn [length]; lia.
  - destruct (has_type "manager_summary" email_record); cbn [length]; lia.
Qed.

(** A save that can write, in full. *)
Lemma save_email_log_written env self :
  writable env (log_file self) = true ->
  (forall j, files env !! log_file self = Some (Json j) -> exists items, j = JList items) ->
  save_email_log (env, self)
  = (Ok tt,
     (make_env (data_files env)
        (<[log_file self :=
             Json (JList (log_records env (log_file self) ++ sent_emails self)%list)]>
           (files env))
        (writable env) (clock env) (clock_reads env), self)).
Proof.
  intros Hw Harr.
  unfold save_email_log, try_except, bind, self_, json_load, lift_result,
    json_dump, ret, raise, extend, log_records.
  destruct (files env !! log_file self) as [[j|]|] eqn:Hlog; simpl.
  - destruct (Harr j eq_refl) as [items ->]. simpl. now rewrite Hw.
  - now rewrite Hw.
  - now rewrite Hw.
Qed.

End EmailServiceMore.

(** X10.  [get_email_statistics] returns exactly when every record sent
    is a dict with a "type" entry (otherwise the subscript raises); then
    total_sent is the number of records, user_reminders and
    manager_summaries are the numbers of records of those two types, and
    their sum is at most total_sent. *)
Theorem get_email_statistics_counts (self : EmailService.t) :
  ((exists stats, EmailService.get_email_statistics self = inr stats)
   <-> Forall typed_record (EmailService.sent_emails self))
  /\ (forall stats,
        EmailService.get_email_statistics self = inr stats ->
        EmailService.total_sent stats
          = Z.of_nat (length (EmailService.sent_emails self))
        /\ EmailService.user_reminders stats
          = Z.of_nat (length (List.filter (has_type "user_reminder")
                                (EmailService.sent_emails self)))
        /\ EmailService.manager_summaries stats
          = Z.of_nat (length (List.filter (has_type "manager_summary")
                                (EmailService.sent_emails self)))
        /\ EmailService.user_reminders stats + EmailService.manager_summaries stats
          <= EmailService.total_sent stats).
Proof.
  split.
  - split.
    + intros [stats H]. now apply get_email_statistics_of_counts in H.
    + intros H. eexists. apply get_email_statistics_of_counts. split; [exact H|reflexivity].
  - intros stats H. apply get_email_statistics_of_counts in H as [_ ->]. simpl.
    repeat split. pose proof (has_type_disjoint (EmailService.sent_emails self)). lia.
Qed.

Lemma get_email_statistics_counts_witness :
  EmailService.get_email_statistics
    (EmailService.make "data/email_log.json"
       [JDict [("type", JStr "user_reminder")]; JDict [("type", JStr "manager_summary")];
        JDict [("type", JStr "digest")]])
  = inr (EmailService.make_statistics 3 1 1)
  /\ EmailService.user_reminders (EmailService.make_statistics 3 1 1)
     + EmailService.manager_summaries (EmailService.make_statistics 3 1 1)
     <= EmailService.total_sent (EmailService.make_statistics 3 1 1).
Proof.
  split; [vm_compute; reflexivity|].
  apply (proj2 (get_email_statistics_counts
                  (EmailService.make "data/email_log.json"
                     [JDict [("type", JStr "user_reminder")];
                      JDict [("type", JStr "manager_summary")];
                      JDict [("type", JStr "digest")]]))
           (EmailService.make_statistics 3 1 1)).
  vm_compute; reflexivity.
Defined.

(** X11.  [send_user_reminder] with an empty course list returns False
    and changes nothing, not even the clock.  With a non-empty list it
    returns True, reads the clock once and changes nothing else in the
    environment; the service then holds the records it held, unchanged
    and in the same order, followed by one new record, whose timestamp
    is that reading of the clock, whose recipient is the user's address,
    whose type is user_reminder, whose status_type is the value of the
    status passed in and whose course_ids are the ids of the courses in
    list order.  If the statistics could be computed before the send,
    afterwards total_sent and user_reminders are one higher and
    manager_summaries is the same. *)
Theorem send_user_reminder_appends_record
    (env : Env) (self : EmailService.t) (user : User.t)
    (courses : list CourseScheduleStatus.t) (status_type : ScheduleStatus.t) :
  EmailService.send_user_reminder user [] status_type (env, self)
    = (Ok false, (env, self))
  /\ (courses <> [] ->
      exists email_record,
        EmailService.send_user_reminder user courses status_type (env, self)
          = (Ok true,
             (make_env (data_files env) (files env) (writable env) (clock env)
                (S (clock_reads env)),
              EmailService.make (EmailService.log_file self)
                (EmailService.sent_emails self ++ [email_record])%list))
        /\ EmailService.getitem email_record "timestamp"
           = inr (JStr (isoformat (clock env (clock_reads env))))
        /\ EmailService.getitem email_record "to" = inr (JStr (User.email user))
        /\ EmailService.getitem email_record "type" = inr (JStr "user_reminder")
        /\ EmailService.getitem email_record "status_type"
           = inr (JStr (ScheduleStatus.value status_type))
        /\ EmailService.getitem email_record "course_ids"
           = inr (JList (map (fun c => JStr (CourseScheduleStatus.course_id c)) courses))
        /\ forall stats,
            EmailService.get_email_statistics self = inr stats ->
            EmailService.get_email_statistics
              (EmailService.make (EmailService.log_file self)
                 (EmailService.sent_emails self ++ [email_record])%list)
            = inr (EmailService.make_statistics
                     (EmailService.total_sent stats + 1)
                     (EmailService.user_reminders stats + 1)
                     (EmailService.manager_summaries stats))).
Proof.
  split; [reflexivity|]. intros Hne.
  destruct courses as [|c cs]; [contradiction|].
  cbv beta iota zeta delta [EmailService.send_user_reminder bind now
                             EmailService._log_email ret].
  eexists. split; [reflexivity|].
  split; [reflexivity|]. split; [reflexivity|]. split; [reflexivity|].
  split; [reflexivity|]. split; [reflexivity|].
  intros stats Hstats.
  rewrite (get_email_statistics_snoc self stats _ Hstats) by (eexists; reflexivity).
  unfold has_type. cbn [EmailService.getitem EmailService.items_get].
  repeat (rewrite decide_False by discriminate).
  rewrite decide_True by reflexivity.
  rewrite (bool_decide_eq_true_2 ("user_reminder" = "user_reminder")) by reflexivity.
  rewrite (bool_decide_eq_false_2 ("user_reminder" = "manager_summary"))
    by discriminate.
  now rewrite Z.add_0_r.
Qed.

Lemma send_user_reminder_appends_record_witness :
  exists email_record,
    snd (snd (EmailService.send_user_reminder Fixtures.ann [Fixtures.progressed_status]
                ScheduleStatus.PROGRESSED
                (Fixtures.log_env,
                 EmailService.make "data/email_log.json" [Fixtures.old_record])))
    = EmailService.make "data/email_log.json" [Fixtures.old_record; email_record]
    /\ EmailService.getitem email_record "to" = inr (JStr "ann@example.com")
    /\ EmailService.getitem email_record "timestamp" = inr (JStr "2025-01-15T09:00:00").
Proof.
  destruct (proj2 (send_user_reminder_appends_record Fixtures.log_env
                     (EmailService.make "data/email_log.json" [Fixtures.old_record])
                     Fixtures.ann [Fixtures.progressed_status]
                     ScheduleStatus.PROGRESSED))
    as (email_record & Hsend & Htime & Hto & _).
  - discriminate.
  - exists email_record. rewrite Hsend. split; [reflexivity|]. split; [exact Hto|].
    rewrite Htime. vm_compute. reflexivity.
Defined.

(** X24.  The same for [send_manager_summary], for summary rows that
    carry the keys the manager template reads, as the rows built by
    [process_reminders] do (a row is a record of these keys here; a dict
    that lacks one makes the template raise KeyError, which is not
    covered).  With an empty list of rows it returns False and changes
    nothing.  With a non-empty list it returns True, reads the clock once
    and changes nothing else in the environment; the service then holds
    the records it held, unchanged and in the same order, followed by
    one new record, whose timestamp is that reading of the clock, whose
    recipient is the manager's address, whose type is manager_summary
    and whose user_count is the number of rows.  If the statistics could
    be computed before the send, afterwards total_sent and
    manager_summaries are one higher and user_reminders is the same. *)
Theorem send_manager_summary_appends_record
    (env : Env) (self : EmailService.t) (manager_email : string)
    (user_summaries : list EmailTemplates.user_summary) :
  EmailService.send_manager_summary manager_email [] (env, self)
    = (Ok false, (env, self))
  /\ (user_summaries <> [] ->
      exists email_record,
        EmailService.send_manager_summary manager_email user_summaries (env, self)
          = (Ok true,
             (make_env (data_files env) (files env) (writable env) (clock env)
                (S (clock_reads env)),
              EmailService.make (EmailService.log_file self)
                (EmailService.sent_emails self ++ [email_record])%list))
        /\ EmailService.getitem email_record "timestamp"
           = inr (JStr (isoformat (clock env (clock_reads env))))
        /\ EmailService.getitem email_record "to" = inr (JStr manager_email)
        /\ EmailService.getitem email_record "type" = inr (JStr "manager_summary")
        /\ EmailService.getitem email_record "user_count"
           = inr (JNum (Z.of_nat (length user_summaries)))
        /\ forall stats,
            EmailService.get_email_statistics self = inr stats ->
            EmailService.get_email_statistics
              (EmailService.make (EmailService.log_file self)
                 (EmailService.sent_emails self ++ [email_record])%list)
            = inr (EmailService.make_statistics
                     (EmailService.total_sent stats + 1)
                     (EmailService.user_reminders stats)
                     (EmailService.manager_summaries stats + 1))).
Proof.
  split; [reflexivity|]. intros Hne.
  destruct user_summaries as [|r rs]; [contradiction|].
  cbv beta iota zeta delta [EmailService.send_manager_summary bind now
                             EmailService._log_email ret].
  eexists. split; [reflexivity|].
  split; [reflexivity|]. split; [reflexivity|]. split; [reflexivity|].
  split; [reflexivity|].
  intros stats Hstats.
  rewrite (get_email_statistics_snoc self stats _ Hstats) by (eexists; reflexivity).
  unfold has_type. cbn [EmailService.getitem EmailService.items_get].
  repeat (rewrite decide_False by discriminate).
  rewrite decide_True by reflexivity.
  rewrite (bool_decide_eq_true_2 ("manager_summary" = "manager_summary"))
    by reflexivity.
  rewrite (bool_decide_eq_false_2 ("manager_summary" = "user_reminder"))
    by discriminate.
  now rewrite Z.add_0_r.
Qed.

Lemma send_manager_summary_appends_record_witness :
  exists email_record,
    snd (snd (EmailService.send_manager_summary "manager@example.com"
                [EmailTemplates.make_user_summary "Bob" "bob@example.com" 0 0 1 1]
                (Fixtures.log_env,
                 EmailService.make "data/email_log.json" [Fixtures.old_record])))
    = EmailService.make "data/email_log.json" [Fixtures.old_record; email_record]
    /\ EmailService.getitem email_record "to" = inr (JStr "manager@example.com")
    /\ EmailService.getitem email_record "user_count" = inr (JNum 1).
Proof.
  destruct (proj2 (send_manager_summary_appends_record Fixtures.log_env
                     (EmailService.make "data/email_log.json" [Fixtures.old_record])
                     "manager@example.com"
                     [EmailTemplates.make_user_summary "Bob" "bob@example.com" 0 0 1 1]))
    as (email_record & Hsend & _ & Hto & _ & Hcount & _).
  - discriminate.
  - exists email_record. rewrite Hsend. split; [reflexivity|]. split; [exact Hto|].
    exact Hcount.
Defined.

(** X12.  [save_email_log] does not clear what it has saved: when the
    log can be written and is absent, unreadable as JSON, or a JSON
    array, two saves in a row leave the old records followed by the sent
    records twice. *)
Theorem save_email_log_twice (env : Env) (self : EmailService.t) :
  writable env (EmailService.log_file self) = true ->
  (forall j, files env !! EmailService.log_file self = Some (Json j) ->
             exists items, j = JList items) ->
  fst ((do! EmailService.save_email_log in EmailService.save_email_log) (env, self))
    = Ok tt
  /\ log_records
       (fst (snd ((do! EmailService.save_email_log in EmailService.save_email_log)
                    (env, self))))
       (EmailService.log_file self)
     = (log_records env (EmailService.log_file self)
        ++ EmailService.sent_emails self ++ EmailService.sent_emails self)%list.
Proof.
  intros Hw Harr. unfold bind.
  rewrite (save_email_log_written env self Hw Harr).
  rewrite save_email_log_written.
  - split; [reflexivity|]. unfold log_records at 1. simpl.
    rewrite lookup_insert_eq. unfold log_records at 1. simpl.
    rewrite lookup_insert_eq. now rewrite <- app_assoc.
  - exact Hw.
  - simpl. rewrite lookup_insert_eq. intros j [= <-]. eauto.
Qed.

Lemma save_email_log_twice_witness :
  log_records
    (fst (snd ((do! EmailService.save_email_log in EmailService.save_email_log)
                 (Fixtures.log_env,
                  EmailService.make "data/email_log.json" [Fixtures.new_record]))))
    "data/email_log.json"
  = [Fixtures.old_record; Fixtures.new_record; Fixtures.new_record].
Proof.
  apply (save_email_log_twice Fixtures.log_env
           (EmailService.make "data/email_log.json" [Fixtures.new_record])).
  - reflexivity.
  - intros j Hj. vm_compute in Hj. injection Hj as <-. eexists. reflexivity.
Defined.

(** ** The Orchestrator: grouping, counting, loading *)

Section OrchestratorMore.

Import DailyReminderJob.

(** *** The manager grouping *)

Lemma defaultdict_append_keys {V} (d : list (string * list V)) key (row : V) :
  map fst (defaultdict_append d key row)
  = if bool_decide (key ∈ map fst d) then map fst d else (map fst d ++ [key])%list.
Proof.
  induction d as [|[k rows] d IH]; [reflexivity|]. cbn [defaultdict_append map fst].
  destruct (decide (k = key)) as [->|Hne].
  - rewrite bool_decide_eq_true_2 by apply list_elem_of_here. reflexivity.
  - cbn [map fst]. rewrite IH. case_bool_decide as Hin.
    + rewrite bool_decide_eq_true_2 by (now apply list_elem_of_further). reflexivity.
    + rewrite bool_decide_eq_false_2; [reflexivity|].
      rewrite elem_of_cons. intros [?|?]; [congruence|contradiction].
Qed.

Lemma defaultdict_append_NoDup {V} (d : list (string * list V)) key (row : V) :
  NoDup (map fst d) -> NoDup (map fst (defaultdict_append d key row)).
Proof.
  intros Hd. rewrite defaultdict_append_keys. case_bool_decide as Hin; [exact Hd|].
  apply NoDup_app. split; [exact Hd|]. split; [|apply NoDup_singleton].
  intros x Hx Hx'. apply list_elem_of_singleton in Hx'. now subst.
Qed.

Lemma defaultdict_append_key_in {V} (d : list (string * list V)) key (row : V) m :
  m ∈ map fst (defaultdict_append d key row) <-> m ∈ map fst d \/ m = key.
Proof.
  rewrite defaultdict_append_keys. case_bool_decide as Hin.
  - split; [auto|]. intros [? | ->]; assumption.
  - rewrite elem_of_app, list_elem_of_singleton. tauto.
Qed.

Lemma defaultdict_append_rows {V} (d : list (string * list V)) key (row : V) :
  length (concat (map snd (defaultdict_append d key row)))
  = S (length (concat (map snd d))).
Proof.
  induction d as [|[k rows] d IH]; [reflexivity|]. cbn [defaultdict_append].
  destruct (decide (k = key)) as [->|Hne]; cbn [map snd concat].
  - rewrite !length_app. cbn [length]. lia.
  - rewrite !length_app, IH. lia.
Qed.

(** Where a row of the grouping after an append comes from. *)
Lemma defaultdict_append_row_origin {V} (d : list (string * list V)) key (row : V)
    m rows r :
  (m, rows) ∈ defaultdict_append d key row -> r ∈ rows ->
  (m = key /\ r = row) \/ exists rows0, (m, rows0) ∈ d /\ r ∈ rows0.
Proof.
  induction d as [|[k rows0] d IH]; cbn [defaultdict_append].
  - intros H Hr. apply list_elem_of_singleton in H. injection H as -> ->.
    apply list_elem_of_singleton in Hr. auto.
  - destruct (decide (k = key)) as [->|Hne]; rewrite elem_of_cons; intros [H|H] Hr.
    + injection H as -> ->. apply elem_of_app in Hr as [Hr|Hr].
      * right. exists rows0. split; [apply list_elem_of_here|exact Hr].
      * apply list_elem_of_singleton in Hr. auto.
    + right. exists rows. split; [now apply list_elem_of_further|exact Hr].
    + injection H as -> ->. right. exists rows0.
      split; [apply list_elem_of_here|exact Hr].
    + destruct (IH H Hr) as [?|(rows1 & H1 & H2)]; [auto|].
      right. exists rows1. split; [now apply list_elem_of_further|exact H2].
Qed.

Lemma defaultdict_append_nonempty {V} (d : list (string * list V)) key (row : V) :
  Forall (fun entry => snd entry <> []) d ->
  Forall (fun entry => snd entry <> []) (defaultdict_append d key row).
Proof.
  induction 1 as [|[k rows] d Hk Hd IH]; cbn [defaultdict_append].
  - constructor; [discriminate|constructor].
  - destruct (decide (k = key)); constructor; try assumption.
    simpl. destruct rows; discriminate.
Qed.

(** *** One user *)

Lemma process_user_skip self as_of acc user :
  has_enrollments self user = false -> process_user self as_of acc user = Ok acc.
Proof.
  unfold has_enrollments, process_user.
  destruct (enrollments_by_user self !! User.user_id user) as [[|e es]|];
    [reflexivity|discriminate|reflexivity].
Qed.

(** A user with enrollments is classified and summarised by the status
    service; the reminder entry lists what
    [get_courses_needing_reminder] returns. *)
Lemma process_user_kept self as_of acc user acc' :
  has_enrollments self user = true ->
  process_user self as_of acc user = Ok acc' ->
  exists service reminders sm,
    status_service self = Some service
    /\ ScheduleStatusService.get_courses_needing_reminder service
         (enrollments_of self user) as_of = Ok reminders
    /\ ScheduleStatusService.get_user_summary service
         (enrollments_of self user) as_of = Ok sm
    /\ users_needing_reminders acc'
       = match reminders with
         | [] => users_needing_reminders acc
         | _ => (users_needing_reminders acc ++ [(user, reminders)])%list
         end
    /\ manager_summaries acc'
       = defaultdict_append (manager_summaries acc) (User.manager_email user)
           (summary_row user sm).
Proof.
  unfold has_enrollments, enrollments_of, process_user.
  destruct (enrollments_by_user self !! User.user_id user) as [[|e es]|];
    try discriminate.
  intros _. cbn [stdpp.option.default from_option id].
  destruct (status_service self) as [service|]; cbn [rbind]; [|discriminate].
  destruct (ScheduleStatusService.calculate_user_status service (e :: es) as_of)
    as [statuses|err] eqn:Hstatuses; cbn [rbind]; [|discriminate].
  destruct (ScheduleStatusService.get_user_summary service (e :: es) as_of)
    as [sm|err] eqn:Hsm; cbn [rbind]; [|discriminate].
  intros [= <-].
  exists service, (List.filter CourseScheduleStatus.needs_reminder statuses), sm.
  split; [reflexivity|]. split.
  { unfold ScheduleStatusService.get_courses_needing_reminder.
    now rewrite Hstatuses. }
  split; [exact Hsm|]. split; reflexivity.
Qed.

(** *** The user loop *)

Lemma process_users_managers self as_of users : forall acc acc',
  process_users self as_of acc users = Ok acc' ->
  (NoDup (map fst (manager_summaries acc)) ->
   NoDup (map fst (manager_summaries acc')))
  /\ (forall m,
        m ∈ map fst (manager_summaries acc') <->
        m ∈ map fst (manager_summaries acc)
        \/ exists u, u ∈ users /\ has_enrollments self u = true
                     /\ User.manager_email u = m)
  /\ length (concat (map snd (manager_summaries acc')))
     = (length (concat (map snd (manager_summaries acc)))
        + length (List.filter (has_enrollments self) users))%nat
  /\ (Forall (fun entry => snd entry <> []) (manager_summaries acc) ->
      Forall (fun entry => snd entry <> []) (manager_summaries acc'))
  /\ (forall m rows r,
        (m, rows) ∈ manager_summaries acc' -> r ∈ rows ->
        (exists rows0, (m, rows0) ∈ manager_summaries acc /\ r ∈ rows0)
        \/ exists u service sm,
             u ∈ users /\ has_enrollments self u = true
             /\ User.manager_email u = m
             /\ status_service self = Some service
             /\ ScheduleStatusService.get_user_summary service
                  (enrollments_of self u) as_of = Ok sm
             /\ r = summary_row u sm).
Proof.
  induction users as [|u rest IH]; intros acc acc' H.
  - injection H as <-.
    split; [auto|]. split; [|split; [simpl; lia|split; [auto|]]].
    + intros m. split; [auto|].
      intros [?|(u & Hu & _)]; [assumption|]. now apply elem_of_nil in Hu.
    + intros m rows r Hin Hr. left. eauto.
  - cbn [process_users] in H.
    destruct (process_user self as_of acc u) as [acc1|err] eqn:Hu; cbn [rbind] in H;
      [|discriminate].
    destruct (IH acc1 acc' H) as (B & C & D & F & E). clear IH H.
    cbn [List.filter].
    destruct (has_enrollments self u) eqn:Hen.
    + destruct (process_user_kept self as_of acc u acc1 Hen Hu)
        as (service & reminders & sm & Hsvc & _ & Hsm & _ & Hms).
      split; [|split; [|split; [|split]]].
      * intros Hnd. apply B. rewrite Hms. now apply defaultdict_append_NoDup.
      * intros m. rewrite C, Hms, defaultdict_append_key_in. split.
        -- intros [[? | ->]|(u' & Hu' & Hen' & Hm')]; [auto| |].
           ++ right. exists u. split; [apply list_elem_of_here|auto].
           ++ right. exists u'. split; [now apply list_elem_of_further|auto].
        -- intros [?|(u' & Hu' & Hen' & Hm')]; [auto|].
           apply elem_of_cons in Hu' as [-> | Hu']; [auto|].
           right. exists u'. auto.
      * rewrite D, Hms, defaultdict_append_rows. cbn [length]. lia.
      * intros Hne. apply F. rewrite Hms. now apply defaultdict_append_nonempty.
      * intros m rows r Hin Hr.
        destruct (E m rows r Hin Hr)
          as [(rows0 & H0 & Hr0)|(u' & service' & sm' & Hu' & Hrest)].
        -- rewrite Hms in H0.
           destruct (defaultdict_append_row_origin _ _ _ _ _ _ H0 Hr0)
             as [[-> ->] | ?]; [|auto].
           right. exists u, service, sm. split; [apply list_elem_of_here|auto].
        -- right. exists u', service', sm'.
           split; [now apply list_elem_of_further|exact Hrest].
    + rewrite (process_user_skip self as_of acc u Hen) in Hu. injection Hu as <-.
      split; [exact B|]. split; [|split; [exact D|split; [exact F|]]].
      * intros m. rewrite C. split.
        -- intros [?|(u' & Hu' & Hrest)]; [auto|].
           right. exists u'. split; [now apply list_elem_of_further|exact Hrest].
        -- intros [?|(u' & Hu' & Hen' & Hm')]; [auto|].
           apply elem_of_cons in Hu' as [-> | Hu']; [congruence|].
           right. exists u'. auto.
      * intros m rows r Hin Hr.
        destruct (E m rows r Hin Hr)
          as [?|(u' & service' & sm' & Hu' & Hrest)]; [auto|].
        right. exists u', service', sm'.
        split; [now apply list_elem_of_further|exact Hrest].
Qed.

Lemma process_users_reminders self as_of users : forall acc acc',
  process_users self as_of acc users = Ok acc' ->
  exists new,
    users_needing_reminders acc' = (users_needing_reminders acc ++ new)%list
    /\ (length new <= length (List.filter (has_enrollments self) users))%nat
    /\ Forall (fun entry =>
                 fst entry ∈ users
                 /\ has_enrollments self (fst entry) = true
                 /\ snd entry <> []
                 /\ exists service,
                     status_service self = Some service
                     /\ ScheduleStatusService.get_courses_needing_reminder service
                          (enrollments_of self (fst entry)) as_of = Ok (snd entry))
         new.
Proof.
  induction users as [|u rest IH]; intros acc acc' H.
  - injection H as <-. exists []. rewrite app_nil_r. repeat split; [simpl; lia|constructor].
  - cbn [process_users] in H.
    destruct (process_user self as_of acc u) as [acc1|err] eqn:Hu; cbn [rbind] in H;
      [|discriminate].
    destruct (IH acc1 acc' H) as (new & Hnew & Hlen & Hall). clear IH H.
    assert (Hrest : Forall (fun entry =>
                 fst entry ∈ u :: rest
                 /\ has_enrollments self (fst entry) = true
                 /\ snd entry <> []
                 /\ exists service,
                     status_service self = Some service
                     /\ ScheduleStatusService.get_courses_needing_reminder service
                          (enrollments_of self (fst entry)) as_of = Ok (snd entry))
              new).
    { eapply Forall_impl; [exact Hall|]. intros entry (H1 & H2). split; [|exact H2].
      now apply list_elem_of_further. }
    cbn [List.filter].
    destruct (has_enrollments self u) eqn:Hen.
    + destruct (process_user_kept self as_of acc u acc1 Hen Hu)
        as (service & reminders & sm & Hsvc & Hrem & _ & Hunr & _).
      destruct reminders as [|c cs].
      * exists new. rewrite Hnew, Hunr. split; [reflexivity|].
        split; [cbn [length]; lia|exact Hrest].
      * exists ((u, c :: cs) :: new). rewrite Hnew, Hunr, <- app_assoc.
        split; [reflexivity|]. split; [cbn [length]; lia|].
        constructor; [|exact Hrest]. cbn [fst snd].
        split; [apply list_elem_of_here|]. split; [exact Hen|].
        split; [discriminate|]. eauto.
    + rewrite (process_user_skip self as_of acc u Hen) in Hu. injection Hu as <-.
      exists new. split; [exact Hnew|]. split; [lia|exact Hrest].
Qed.

(** Users without enrollments leave no trace in the loop. *)
Lemma process_users_filter self as_of users acc :
  process_users self as_of acc users
  = process_users self as_of acc (List.filter (has_enrollments self) users).
Proof.
  revert acc. induction users as [|u rest IH]; intros acc; [reflexivity|].
  cbn [List.filter process_users].
  destruct (has_enrollments self u) eqn:Hen.
  - cbn [process_users]. destruct (process_user self as_of acc u); cbn [rbind]; auto.
  - rewrite (process_user_skip self as_of acc u Hen). cbn [rbind]. apply IH.
Qed.

(** *** Sending and saving *)

Lemma same_job_data_refl job : same_job_data job job.
Proof. repeat split. Qed.

Lemma same_job_data_trans j1 j2 j3 :
  same_job_data j1 j2 -> same_job_data j2 j3 -> same_job_data j1 j3.
Proof. unfold same_job_data. intuition congruence. Qed.

Lemma sent_more_refl w : sent_more 0 w w.
Proof.
  repeat split. exists []. split; [reflexivity|]. now rewrite app_nil_r.
Qed.

Lemma sent_more_trans k1 k2 w1 w2 w3 :
  sent_more k1 w1 w2 -> sent_more k2 w2 w3 -> sent_more (k1 + k2) w1 w3.
Proof.
  intros (Hd1 & Hf1 & Hw1 & Hj1 & c1 & Hl1 & Hs1) (Hd2 & Hf2 & Hw2 & Hj2 & c2 & Hl2 & Hs2).
  split; [congruence|]. split; [congruence|]. split; [congruence|].
  split; [eapply same_job_data_trans; eassumption|].
  exists (c1 ++ c2)%list. split; [rewrite length_app; lia|].
  now rewrite Hs2, Hs1, <- app_assoc.
Qed.

Lemma on_send_user_reminder user courses status_type w :
  courses <> [] ->
  exists w',
    on_email_service (EmailService.send_user_reminder user courses status_type) w
    = (Ok true, w')
    /\ sent_more 1 w w'.
Proof.
  intros Hne. destruct w as [env []].
  pose proof (send_user_reminder_effect user courses status_type env email_service0)
    as H.
  destruct courses as [|c cs]; [contradiction|]. destruct H as (rec & Hsend & _).
  unfold on_email_service. cbn [email_service]. rewrite Hsend.
  eexists. split; [reflexivity|]. repeat split. exists [rec]. split; reflexivity.
Qed.

Lemma on_send_manager_summary manager_email summaries w :
  summaries <> [] ->
  exists w',
    on_email_service (EmailService.send_manager_summary manager_email summaries) w
    = (Ok true, w')
    /\ sent_more 1 w w'.
Proof.
  intros Hne. destruct w as [env []].
  pose proof (send_manager_summary_effect manager_email summaries env email_service0)
    as H.
  destruct summaries as [|r rs]; [contradiction|]. destruct H as (rec & Hsend & _).
  unfold on_email_service. cbn [email_service]. rewrite Hsend.
  eexists. split; [reflexivity|]. repeat split. exists [rec]. split; reflexivity.
Qed.

(** When every send succeeds, the loop counts every element and one
    record is composed for each. *)
Lemma count_sent_all {A} (send : A -> M St bool) (xs : list A) :
  (forall x, x ∈ xs -> forall w, exists w', send x w = (Ok true, w') /\ sent_more 1 w w') ->
  forall n w,
    exists w',
      count_sent send xs n w = (Ok (n + Z.of_nat (length xs)), w')
      /\ sent_more (length xs) w w'.
Proof.
  induction xs as [|x xs IH]; intros Hsend n w.
  - exists w. split; [|apply sent_more_refl].
    replace (n + Z.of_nat (length (@nil A))) with n by (cbn [length]; lia).
    reflexivity.
  - destruct (Hsend x (list_elem_of_here _ _) w) as (w1 & Hx & H1).
    destruct (IH (fun y Hy => Hsend y (list_elem_of_further _ _ _ Hy)) (n + 1) w1)
      as (w2 & Hxs & H2).
    exists w2. split.
    + replace (n + Z.of_nat (length (x :: xs))) with (n + 1 + Z.of_nat (length xs))
        by (cbn [length]; lia).
      cbn [count_sent]. unfold bind. now rewrite Hx, Hxs.
    + change (length (x :: xs)) with (1 + length xs)%nat.
      eapply sent_more_trans; eassumption.
Qed.

(** Saving touches the files only. *)
Lemma on_save_email_log env job :
  exists env',
    on_email_service EmailService.save_email_log (env, job) = (Ok tt, (env', job))
    /\ data_files env' = data_files env.
Proof.
  destruct job. unfold on_email_service. cbn [email_service].
  pose proof (save_email_log_outcome env email_service0) as [Hr Hs].
  assert (Hd : data_files (fst (snd (EmailService.save_email_log (env, email_service0))))
               = data_files env).
  { unfold EmailService.save_email_log, try_except, bind, EmailService.self_,
      json_load, lift_result, json_dump, ret, raise, EmailService.extend.
    destruct (files env !! EmailService.log_file email_service0) as [[[]|]|]; simpl;
      destruct (writable env (EmailService.log_file email_service0)); reflexivity. }
  destruct (EmailService.save_email_log (env, email_service0)) as [r [env' es]].
  simpl in Hr, Hs, Hd. subst. eauto.
Qed.

(** [process_reminders] after a user loop that completed, in full. *)
Lemma process_reminders_completes env self as_of acc :
  process_users self as_of (make_collected [] []) (users self) = Ok acc ->
  exists w env',
    process_reminders (Some as_of) (env, self)
    = (Ok (make_job_stats (isoformat as_of)
             (Z.of_nat (length (users self)))
             (Z.of_nat (length (users_needing_reminders acc)))
             (Z.of_nat (length (users_needing_reminders acc)))
             (Z.of_nat (length (manager_summaries acc)))
             (Z.of_nat (length (users_needing_reminders acc))
              + Z.of_nat (length (manager_summaries acc)))),
       (env', snd w))
    /\ sent_more (length (users_needing_reminders acc)
                  + length (manager_summaries acc)) (env, self) w
    /\ on_email_service EmailService.save_email_log w = (Ok tt, (env', snd w)).
Proof.
  intros Hacc.
  destruct (process_users_reminders self as_of (users self) _ _ Hacc)
    as (new & Hnew & _ & Hall).
  cbn [users_needing_reminders app] in Hnew.
  destruct (process_users_managers self as_of (users self) _ _ Hacc)
    as (_ & _ & _ & Hne & _).
  specialize (Hne ltac:(constructor)).
  destruct (count_sent_all
              (fun '(user, courses) =>
                 on_email_service
                   (EmailService.send_user_reminder user courses
                      ScheduleStatus.NEEDS_REMINDER))
              (users_needing_reminders acc)) with (n := 0) (w := (env, self))
    as (w1 & Hc1 & H1).
  { intros [user courses] Hin w. apply on_send_user_reminder.
    rewrite Hnew in Hin. rewrite Forall_forall in Hall.
    apply (Hall _ Hin). }
  destruct (count_sent_all
              (fun '(manager_email, summaries) =>
                 on_email_service
                   (EmailService.send_manager_summary manager_email summaries))
              (manager_summaries acc)) with (n := 0) (w := w1)
    as (w2 & Hc2 & H2).
  { intros [manager summaries] Hin w. apply on_send_manager_summary.
    rewrite Forall_forall in Hne. apply (Hne _ Hin). }
  destruct w2 as [env2 job2].
  destruct (on_save_email_log env2 job2) as (env' & Hsave & _).
  exists (env2, job2), env'. split; [|split].
  - unfold process_reminders, bind, ret, self_, lift_result. cbn [fst snd].
    rewrite Hacc, Hc1, Hc2, Hsave. reflexivity.
  - eapply sent_more_trans; eassumption.
  - exact Hsave.
Qed.

(** *** The records of a run *)

Lemma sent_exactly_refl w : sent_exactly [] w w.
Proof. repeat split. cbn. now rewrite app_nil_r. Qed.

Lemma sent_exactly_trans c1 c2 w1 w2 w3 :
  sent_exactly c1 w1 w2 -> sent_exactly c2 w2 w3 -> sent_exactly (c1 ++ c2) w1 w3.
Proof.
  intros (Hd1 & Hf1 & Hw1 & Hj1 & Hs1) (Hd2 & Hf2 & Hw2 & Hj2 & Hs2).
  split; [congruence|]. split; [congruence|]. split; [congruence|].
  split; [eapply same_job_data_trans; eassumption|].
  now rewrite Hs2, Hs1, <- app_assoc.
Qed.

Lemma on_send_user_reminder_record user courses w :
  courses <> [] ->
  exists w' email_record,
    on_email_service
      (EmailService.send_user_reminder user courses ScheduleStatus.NEEDS_REMINDER) w
    = (Ok true, w')
    /\ sent_exactly [email_record] w w'
    /\ reminder_record (user, courses) email_record.
Proof.
  intros Hne. destruct w as [env []].
  destruct courses as [|c cs]; [contradiction|].
  unfold on_email_service. cbn [email_service].
  cbv beta iota zeta delta [EmailService.send_user_reminder bind now
                             EmailService._log_email ret].
  eexists _, _. split; [reflexivity|]. split; repeat split.
Qed.

Lemma on_send_manager_summary_record manager_email summaries w :
  summaries <> [] ->
  exists w' email_record,
    on_email_service (EmailService.send_manager_summary manager_email summaries) w
    = (Ok true, w')
    /\ sent_exactly [email_record] w w'
    /\ summary_record (manager_email, summaries) email_record.
Proof.
  intros Hne. destruct w as [env []].
  destruct summaries as [|r rs]; [contradiction|].
  unfold on_email_service. cbn [email_service].
  cbv beta iota zeta delta [EmailService.send_manager_summary bind now
                             EmailService._log_email ret].
  eexists _, _. split; [reflexivity|]. split; repeat split.
Qed.

(** When every send succeeds and composes one record, the loop leaves
    one record per element, in the order of the elements. *)
Lemma count_sent_records {A} (send : A -> M St bool) (Q : A -> json -> Prop)
    (xs : list A) :
  (forall x, x ∈ xs -> forall w,
      exists w' r, send x w = (Ok true, w') /\ sent_exactly [r] w w' /\ Q x r) ->
  forall n w,
    exists w' rs,
      count_sent send xs n w = (Ok (n + Z.of_nat (length xs)), w')
      /\ sent_exactly rs w w'
      /\ Forall2 Q xs rs.
Proof.
  induction xs as [|x xs IH]; intros Hsend n w.
  - exists w, []. split; [|split; [apply sent_exactly_refl|constructor]].
    replace (n + Z.of_nat (length (@nil A))) with n by (cbn [length]; lia).
    reflexivity.
  - destruct (Hsend x (list_elem_of_here _ _) w) as (w1 & r & Hx & H1 & HQ).
    destruct (IH (fun y Hy => Hsend y (list_elem_of_further _ _ _ Hy)) (n + 1) w1)
      as (w2 & rs & Hxs & H2 & HQs).
    exists w2, (r :: rs). split; [|split].
    + replace (n + Z.of_nat (length (x :: xs))) with (n + 1 + Z.of_nat (length xs))
        by (cbn [length]; lia).
      cbn [count_sent]. unfold bind. now rewrite Hx, Hxs.
    + change (r :: rs) with ([r] ++ rs)%list.
      eapply sent_exactly_trans; eassumption.
    + constructor; assumption.
Qed.

(** Without a date the run reads the clock once and goes on as with
    that reading. *)
Lemma process_reminders_now env self :
  process_reminders None (env, self)
  = process_reminders (Some (clock env (clock_reads env)))
      (make_env (data_files env) (files env) (writable env) (clock env)
         (S (clock_reads env)), self).
Proof. reflexivity. Qed.

(** [process_reminders] after a user loop that completed: the records
    it composes, and the state it hands to [save_email_log]. *)
Lemma process_reminders_records env self as_of acc :
  process_users self as_of (make_collected [] []) (users self) = Ok acc ->
  exists w env' reminders summaries,
    process_reminders (Some as_of) (env, self)
    = (Ok (make_job_stats (isoformat as_of)
             (Z.of_nat (length (users self)))
             (Z.of_nat (length (users_needing_reminders acc)))
             (Z.of_nat (length (users_needing_reminders acc)))
             (Z.of_nat (length (manager_summaries acc)))
             (Z.of_nat (length (users_needing_reminders acc))
              + Z.of_nat (length (manager_summaries acc)))),
       (env', snd w))
    /\ sent_exactly (reminders ++ summaries) (env, self) w
    /\ Forall2 reminder_record (users_needing_reminders acc) reminders
    /\ Forall2 summary_record (manager_summaries acc) summaries
    /\ on_email_service EmailService.save_email_log w = (Ok tt, (env', snd w)).
Proof.
  intros Hacc.
  destruct (process_users_reminders self as_of (users self) _ _ Hacc)
    as (new & Hnew & _ & Hall).
  cbn [users_needing_reminders app] in Hnew.
  destruct (process_users_managers self as_of (users self) _ _ Hacc)
    as (_ & _ & _ & Hne & _).
  specialize (Hne ltac:(constructor)).
  destruct (count_sent_records
              (fun '(user, courses) =>
                 on_email_service
                   (EmailService.send_user_reminder user courses
                      ScheduleStatus.NEEDS_REMINDER))
              reminder_record
              (users_needing_reminders acc)) with (n := 0) (w := (env, self))
    as (w1 & reminders & Hc1 & H1 & HQ1).
  { intros [user courses] Hin w. apply on_send_user_reminder_record.
    rewrite Hnew in Hin. rewrite Forall_forall in Hall.
    apply (Hall _ Hin). }
  destruct (count_sent_records
              (fun '(manager_email, summaries) =>
                 on_email_service
                   (EmailService.send_manager_summary manager_email summaries))
              summary_record
              (manager_summaries acc)) with (n := 0) (w := w1)
    as (w2 & summaries & Hc2 & H2 & HQ2).
  { intros [manager summaries] Hin w. apply on_send_manager_summary_record.
    rewrite Forall_forall in Hne. apply (Hne _ Hin). }
  destruct w2 as [env2 job2].
  destruct (on_save_email_log env2 job2) as (env' & Hsave & _).
  exists (env2, job2), env', reminders, summaries.
  split; [|split; [|split; [|split]]].
  - unfold process_reminders, bind, ret, self_, lift_result. cbn [fst snd].
    rewrite Hacc, Hc1, Hc2, Hsave. reflexivity.
  - eapply sent_exactly_trans; eassumption.
  - exact HQ1.
  - exact HQ2.
  - exact Hsave.
Qed.

End OrchestratorMore.

(** C9 (as amended).  When the log file can be opened for writing and is
    absent, unreadable as JSON, or a JSON array, a run of
    [process_reminders], with or without a date, whose user loop
    completes returns statistics and ends with append semantics.  The
    log then holds every record it held before the run, unchanged and in
    place, and after them the records of the email service: the ones it
    held before the run (none for a job created for the run), then one
    reminder for each entry of the reminder list, to that user and about
    those courses, then one summary for each manager of the grouping, in
    the order of the two loops.  Their numbers are the counts the
    statistics report, and no other file is touched. *)
Theorem process_reminders_appends_to_log
    (env : Env) (self : DailyReminderJob.t) (current_date : option datetime)
    (acc : DailyReminderJob.collected) :
  let path := EmailService.log_file (DailyReminderJob.email_service self) in
  let held := EmailService.sent_emails (DailyReminderJob.email_service self) in
  writable env path = true ->
  (forall j, files env !! path = Some (Json j) -> exists items, j = JList items) ->
  DailyReminderJob.process_users self (run_date env current_date)
    (DailyReminderJob.make_collected [] []) (DailyReminderJob.users self) = Ok acc ->
  exists stats env' self' reminders summaries,
    DailyReminderJob.process_reminders current_date (env, self)
      = (Ok stats, (env', self'))
    /\ Forall2 reminder_record (DailyReminderJob.users_needing_reminders acc) reminders
    /\ Forall2 summary_record (DailyReminderJob.manager_summaries acc) summaries
    /\ DailyReminderJob.reminder_emails_sent stats = Z.of_nat (length reminders)
    /\ DailyReminderJob.manager_summaries_sent stats = Z.of_nat (length summaries)
    /\ DailyReminderJob.total_emails_sent stats
       = Z.of_nat (length (reminders ++ summaries))
    /\ EmailService.sent_emails (DailyReminderJob.email_service self')
       = (held ++ reminders ++ summaries)%list
    /\ files env' !! path
       = Some (Json (JList (log_records env path ++ held ++ reminders ++ summaries)%list))
    /\ log_records env' path
       = (log_records env path ++ held ++ reminders ++ summaries)%list
    /\ (forall other, other <> path -> files env' !! other = files env !! other).
Proof.
  intros path held Hw Harr Hacc.
  assert (Hsome : exists env0,
             DailyReminderJob.process_reminders current_date (env, self)
             = DailyReminderJob.process_reminders (Some (run_date env current_date))
                 (env0, self)
             /\ files env0 = files env /\ writable env0 = writable env).
  { destruct current_date as [d|].
    - exists env. auto.
    - rewrite process_reminders_now. eexists. split; [reflexivity|].
      split; reflexivity. }
  destruct Hsome as (env0 & -> & Hf0 & Hw0).
  destruct (process_reminders_records env0 self _ acc Hacc)
    as ([env2 job2] & env3 & reminders & summaries & Hrun & Hmore & HQ1 & HQ2 & Hsave).
  cbn [snd] in Hrun, Hsave.
  destruct Hmore as (_ & Hf & Hw2 & Hjob & Hsent).
  cbn [fst snd] in Hf, Hw2, Hjob, Hsent.
  destruct Hjob as (_ & _ & _ & _ & _ & _ & _ & Hpath).
  fold path in Hpath. fold held in Hsent.
  eexists _, env3, job2, reminders, summaries.
  split; [exact Hrun|]. split; [exact HQ1|]. split; [exact HQ2|].
  cbn [DailyReminderJob.reminder_emails_sent DailyReminderJob.manager_summaries_sent
       DailyReminderJob.total_emails_sent].
  rewrite (Forall2_length _ _ _ HQ1), (Forall2_length _ _ _ HQ2).
  split; [reflexivity|]. split; [reflexivity|].
  split; [rewrite length_app; lia|].
  split; [exact Hsent|].
  unfold DailyReminderJob.on_email_service in Hsave.
  rewrite save_email_log_written in Hsave.
  - injection Hsave as <- _.
    rewrite Hpath, Hsent.
    assert (Hlog : log_records env2 path = log_records env path).
    { unfold log_records. now rewrite Hf, Hf0. }
    rewrite Hlog. cbn [files].
    split; [apply lookup_insert_eq|]. split.
    + unfold log_records at 1. cbn [files]. now rewrite lookup_insert_eq.
    + intros other Hne. rewrite lookup_insert_ne by congruence. now rewrite Hf, Hf0.
  - now rewrite Hpath, Hw2, Hw0.
  - rewrite Hpath, Hf, Hf0. exact Harr.
Qed.

Lemma process_reminders_appends_to_log_witness :
  exists stats env' self' reminder summary,
    DailyReminderJob.process_reminders None (Fixtures.log_env, Fixtures.loaded_job)
      = (Ok stats, (env', self'))
    /\ reminder_record (Fixtures.bob, [CourseScheduleStatus.make "COURSE_001"
                                          ScheduleStatus.NEEDS_REMINDER
                                          (Some Fixtures.in_progress_enrollment)
                                          Fixtures.schedule_2_days 12
                                          "In progress but overdue - 12 days overdue"])
         reminder
    /\ summary_record ("manager@example.com",
                       [EmailTemplates.make_user_summary "Ann" "ann@example.com" 1 0 0 1;
                        EmailTemplates.make_user_summary "Bob" "bob@example.com" 0 0 1 1])
         summary
    /\ DailyReminderJob.total_emails_sent stats = 2
    /\ log_records env' "data/email_log.json" = [Fixtures.old_record; reminder; summary].
Proof.
  edestruct (process_reminders_appends_to_log Fixtures.log_env Fixtures.loaded_job None)
    as (stats & env' & self' & reminders & summaries
        & Hrun & HQ1 & HQ2 & _ & _ & Htotal & _ & _ & Hlog & _).
  - reflexivity.
  - intros j Hj. vm_compute in Hj. injection Hj as <-. eexists. reflexivity.
  - vm_compute. reflexivity.
  - cbn [DailyReminderJob.users_needing_reminders DailyReminderJob.manager_summaries]
      in HQ1, HQ2.
    inversion HQ1 as [|entry reminder ? rest Hreminder Hrest]; subst.
    inversion Hrest; subst.
    inversion HQ2 as [|entry2 summary ? rest2 Hsummary Hrest2]; subst.
    inversion Hrest2; subst.
    exists stats, env', self', reminder, summary.
    split; [exact Hrun|]. split; [exact Hreminder|]. split; [exact Hsummary|].
    split; [exact Htotal|exact Hlog].
Defined.

(** C9, the claim as written fails.  The job has loaded a batch in which
    Bob is overdue, and the log holds one record.  On a log path that
    cannot be opened for writing the run returns its statistics, with
    two emails sent, and raises nothing, yet the log afterwards holds
    the old record alone: the two records composed in the run are not
    appended.  The same happens when the log file holds a JSON object
    instead of an array: the file is left as it was. *)
Lemma process_reminders_log_not_appended :
  let run env :=
    DailyReminderJob.process_reminders (Some (Fixtures.jan 15 0 0))
      (env, Fixtures.loaded_job) in
  (fst (run Fixtures.readonly_log_env)
     = Ok (DailyReminderJob.make_job_stats "2025-01-15T00:00:00" 2 1 1 1 2)
   /\ length (EmailService.sent_emails
                (DailyReminderJob.email_service (snd (snd (run Fixtures.readonly_log_env)))))
      = 2%nat
   /\ log_records (fst (snd (run Fixtures.readonly_log_env))) "data/email_log.json"
      = [Fixtures.old_record])
  /\ (fst (run Fixtures.object_log_env)
       = Ok (DailyReminderJob.make_job_stats "2025-01-15T00:00:00" 2 1 1 1 2)
     /\ length (EmailService.sent_emails
                  (DailyReminderJob.email_service (snd (snd (run Fixtures.object_log_env)))))
        = 2%nat
     /\ files (fst (snd (run Fixtures.object_log_env)))
        = files Fixtures.object_log_env
     /\ log_records (fst (snd (run Fixtures.object_log_env))) "data/email_log.json" = []).
Proof. repeat split; vm_compute; reflexivity. Qed.

(** X13.  [process_users] drops users without enrollments before doing
    anything with them: the loop gives the same outcome, statuses or
    exception, as on the users that have at least one enrollment, so a
    user without enrollments adds no reminder and no manager row and
    cannot make the run fail. *)
Theorem process_users_skips_unenrolled
    (self : DailyReminderJob.t) (as_of : datetime) (acc : DailyReminderJob.collected)
    (users : list User.t) :
  DailyReminderJob.process_users self as_of acc users
  = DailyReminderJob.process_users self as_of acc
      (List.filter (has_enrollments self) users)
  /\ (Forall (fun u => has_enrollments self u = false) users ->
      DailyReminderJob.process_users self as_of acc users = Ok acc).
Proof.
  split; [apply process_users_filter|].
  intros Hall. rewrite process_users_filter.
  replace (List.filter (has_enrollments self) users) with (@nil User.t); [reflexivity|].
  induction Hall as [|u users Hu _ IH]; [reflexivity|].
  cbn [List.filter]. now rewrite Hu.
Qed.

Lemma process_users_skips_unenrolled_witness :
  DailyReminderJob.process_users DailyReminderJob.new (Fixtures.jan 15 0 0)
    (DailyReminderJob.make_collected [] []) [Fixtures.ann; Fixtures.bob]
  = Ok (DailyReminderJob.make_collected [] []).
Proof.
  apply (proj2 (process_users_skips_unenrolled DailyReminderJob.new (Fixtures.jan 15 0 0)
                  (DailyReminderJob.make_collected [] []) [Fixtures.ann; Fixtures.bob])).
  repeat constructor.
Defined.


(** X15.  After the user loop every entry of the reminder list is for a
    user of the job that has enrollments, and its courses are the
    non-empty list [get_courses_needing_reminder] returns for that
    user's enrollments; there are at most as many entries as users with
    enrollments. *)
Theorem process_users_reminder_entries
    (self : DailyReminderJob.t) (as_of : datetime) (users : list User.t)
    (acc : DailyReminderJob.collected) :
  DailyReminderJob.process_users self as_of (DailyReminderJob.make_collected [] []) users
    = Ok acc ->
  (length (DailyReminderJob.users_needing_reminders acc)
   <= length (List.filter (has_enrollments self) users))%nat
  /\ Forall (fun entry =>
               fst entry ∈ users
               /\ has_enrollments self (fst entry) = true
               /\ snd entry <> []
               /\ exists service,
                   DailyReminderJob.status_service self = Some service
                   /\ get_courses_needing_reminder service
                        (enrollments_of self (fst entry)) as_of = Ok (snd entry))
       (DailyReminderJob.users_needing_reminders acc).
Proof.
  intros H.
  destruct (process_users_reminders self as_of users _ _ H) as (new & Hnew & Hlen & Hall).
  cbn [DailyReminderJob.users_needing_reminders app] in Hnew. rewrite Hnew.
  split; assumption.
Qed.


Lemma process_users_reminder_entries_witness :
  exists acc,
    DailyReminderJob.process_users Fixtures.loaded_job (Fixtures.jan 15 0 0)
      (DailyReminderJob.make_collected [] []) [Fixtures.ann; Fixtures.bob] = Ok acc
    /\ Forall (fun entry => snd entry <> [])
         (DailyReminderJob.users_needing_reminders acc).
Proof.
  destruct (DailyReminderJob.process_users Fixtures.loaded_job (Fixtures.jan 15 0 0)
              (DailyReminderJob.make_collected [] []) [Fixtures.ann; Fixtures.bob])
    as [acc|err] eqn:H; [|vm_compute in H; discriminate].
  exists acc. split; [reflexivity|].
  eapply Forall_impl.
  - apply (process_users_reminder_entries Fixtures.loaded_job (Fixtures.jan 15 0 0)
             [Fixtures.ann; Fixtures.bob] acc H).
  - intros entry (_ & _ & Hne & _). exact Hne.
Defined.

(** X16.  When [process_reminders] returns statistics: users_processed
    counts every user of the job, with or without enrollments; one
    reminder email was sent per user listed for a reminder, so
    reminder_emails_sent equals users_needing_reminders and is at most
    the number of users with enrollments; one summary was sent per
    distinct manager of the users with enrollments; the service holds
    exactly total_emails_sent new records after the ones it had; and the
    data the job had loaded is untouched. *)
Theorem process_reminders_statistics
    (env env' : Env) (self self' : DailyReminderJob.t) (as_of : datetime)
    (stats : DailyReminderJob.job_stats) :
  DailyReminderJob.process_reminders (Some as_of) (env, self)
    = (Ok stats, (env', self')) ->
  DailyReminderJob.execution_date stats = isoformat as_of
  /\ DailyReminderJob.users_processed stats
     = Z.of_nat (length (DailyReminderJob.users self))
  /\ DailyReminderJob.reminder_emails_sent stats
     = DailyReminderJob.stats_users_needing_reminders stats
  /\ 0 <= DailyReminderJob.reminder_emails_sent stats
       <= Z.of_nat (length (List.filter (has_enrollments self)
                              (DailyReminderJob.users self)))
  /\ DailyReminderJob.manager_summaries_sent stats
     = Z.of_nat (length (remove_dups
                           (map User.manager_email
                              (List.filter (has_enrollments self)
                                 (DailyReminderJob.users self)))))
  /\ DailyReminderJob.total_emails_sent stats
     = DailyReminderJob.reminder_emails_sent stats
       + DailyReminderJob.manager_summaries_sent stats
  /\ same_job_data self self'
  /\ exists composed,
      EmailService.sent_emails (DailyReminderJob.email_service self')
      = (EmailService.sent_emails (DailyReminderJob.email_service self) ++ composed)%list
      /\ Z.of_nat (length composed) = DailyReminderJob.total_emails_sent stats.
Proof.
  intros H.
  destruct (DailyReminderJob.process_users self as_of
              (DailyReminderJob.make_collected [] []) (DailyReminderJob.users self))
    as [acc|err] eqn:Hacc.
  2: { rewrite (process_reminders_raises env self as_of err Hacc) in H. discriminate. }
  destruct (process_reminders_completes env self as_of acc Hacc)
    as ([env2 job2] & env3 & Hrun & Hmore & _).
  rewrite Hrun in H. cbn [snd] in H. injection H as <- <- <-.
  cbn [DailyReminderJob.execution_date DailyReminderJob.users_processed
       DailyReminderJob.reminder_emails_sent
       DailyReminderJob.stats_users_needing_reminders
       DailyReminderJob.manager_summaries_sent DailyReminderJob.total_emails_sent].
  destruct (process_users_reminders self as_of _ _ _ Hacc) as (new & Hnew & Hlen & _).
  cbn [DailyReminderJob.users_needing_reminders app] in Hnew. rewrite Hnew.
  destruct (process_users_managers self as_of _ _ _ Hacc) as (B & C & _).
  cbn [DailyReminderJob.manager_summaries map] in B, C.
  destruct Hmore as (_ & _ & _ & Hjob & composed & Hcomposed & Hsent).
  cbn [fst snd] in Hjob, Hsent.
  split; [reflexivity|]. split; [reflexivity|]. split; [reflexivity|].
  split; [lia|]. split.
  - f_equal. rewrite <- (length_map fst).
    apply Permutation_length, NoDup_Permutation.
    + apply B. constructor.
    + apply NoDup_remove_dups.
    + intros m. rewrite C, elem_of_remove_dups. split.
      * intros [Hm|(u & Hu & Hen & Hm)]; [now apply elem_of_nil in Hm|].
        apply list_elem_of_In, in_map_iff.
        exists u. split; [exact Hm|]. apply filter_In.
        split; [now apply list_elem_of_In|exact Hen].
      * intros Hm. apply list_elem_of_In, in_map_iff in Hm as (u & Hm & Hu).
        apply filter_In in Hu as [Hu Hen].
        right. exists u. split; [now apply list_elem_of_In|auto].
  - split; [reflexivity|]. split; [exact Hjob|].
    exists composed. split; [exact Hsent|]. rewrite Hcomposed, Hnew. lia.
Qed.

Lemma process_reminders_statistics_witness :
  exists stats env' self',
    DailyReminderJob.process_reminders (Some (Fixtures.jan 15 0 0))
      (Fixtures.batch_env [Fixtures.completed_enrollment], Fixtures.loaded_job)
    = (Ok stats, (env', self'))
    /\ DailyReminderJob.reminder_emails_sent stats
       = DailyReminderJob.stats_users_needing_reminders stats.
Proof.
  destruct (DailyReminderJob.process_reminders (Some (Fixtures.jan 15 0 0))
              (Fixtures.batch_env [Fixtures.completed_enrollment], Fixtures.loaded_job))
    as [[stats|err] [env' self']] eqn:H; [|vm_compute in H; discriminate].
  exists stats, env', self'. split; [reflexivity|].
  apply (process_reminders_statistics _ _ _ _ _ _ H).
Defined.

(** X17.  When [process_reminders] raises, it has changed nothing: the
    exception is the one of the user loop, and the environment (files,
    clock) and the job, with the emails sent so far, are as before the
    call; no email is composed and no log is written for the users
    classified before the failure. *)
Theorem process_reminders_raise_is_clean
    (env : Env) (self : DailyReminderJob.t) (as_of : datetime) (err : exn)
    (after : Env * DailyReminderJob.t) :
  DailyReminderJob.process_reminders (Some as_of) (env, self) = (Raise err, after) ->
  after = (env, self)
  /\ DailyReminderJob.process_users self as_of (DailyReminderJob.make_collected [] [])
       (DailyReminderJob.users self) = Raise err.
Proof.
  intros H.
  destruct (DailyReminderJob.process_users self as_of
              (DailyReminderJob.make_collected [] []) (DailyReminderJob.users self))
    as [acc|err'] eqn:Hacc.
  - destruct (process_reminders_completes env self as_of acc Hacc)
      as (w & env3 & Hrun & _).
    rewrite Hrun in H. discriminate.
  - rewrite (process_reminders_raises env self as_of err' Hacc) in H.
    injection H as <- <-. auto.
Qed.

Lemma process_reminders_raise_is_clean_witness :
  exists err,
    DailyReminderJob.process_reminders (Some (Fixtures.jan 15 0 0))
      (Fixtures.log_env, Fixtures.undated_job)
    = (Raise err, (Fixtures.log_env, Fixtures.undated_job)).
Proof.
  destruct (DailyReminderJob.process_reminders (Some (Fixtures.jan 15 0 0))
              (Fixtures.log_env, Fixtures.undated_job))
    as [[stats|err] after] eqn:H; [vm_compute in H; discriminate|].
  exists err.
  destruct (process_reminders_raise_is_clean _ _ _ _ _ H) as [-> _]. reflexivity.
Defined.

(** X18.  When [process_reminders] returns statistics and the log file
    can be written and is absent, unreadable as JSON, or a JSON array,
    the log afterwards is the log before the run followed by every record
    the service object holds: the ones it held before the run, written
    again, and then the ones composed in the run. *)
Theorem process_reminders_log
    (env env' : Env) (self self' : DailyReminderJob.t) (as_of : datetime)
    (stats : DailyReminderJob.job_stats) :
  DailyReminderJob.process_reminders (Some as_of) (env, self)
    = (Ok stats, (env', self')) ->
  writable env (EmailService.log_file (DailyReminderJob.email_service self)) = true ->
  (forall j,
      files env !! EmailService.log_file (DailyReminderJob.email_service self)
        = Some (Json j) ->
      exists items, j = JList items) ->
  exists composed,
    EmailService.sent_emails (DailyReminderJob.email_service self')
    = (EmailService.sent_emails (DailyReminderJob.email_service self) ++ composed)%list
    /\ log_records env' (EmailService.log_file (DailyReminderJob.email_service self))
       = (log_records env (EmailService.log_file (DailyReminderJob.email_service self))
          ++ EmailService.sent_emails (DailyReminderJob.email_service self)
          ++ composed)%list.
Proof.
  intros H Hw Harr.
  destruct (DailyReminderJob.process_users self as_of
              (DailyReminderJob.make_collected [] []) (DailyReminderJob.users self))
    as [acc|err] eqn:Hacc.
  2: { rewrite (process_reminders_raises env self as_of err Hacc) in H. discriminate. }
  destruct (process_reminders_completes env self as_of acc Hacc)
    as ([env2 job2] & env3 & Hrun & Hmore & Hsave).
  rewrite Hrun in H. cbn [snd] in H. injection H as _ <- <-.
  destruct Hmore as (_ & Hf & Hw2 & Hjob & composed & _ & Hsent).
  cbn [fst snd] in Hf, Hw2, Hjob, Hsent.
  destruct Hjob as (_ & _ & _ & _ & _ & _ & _ & Hpath).
  exists composed. split; [exact Hsent|].
  unfold DailyReminderJob.on_email_service in Hsave.
  rewrite save_email_log_written in Hsave.
  - injection Hsave as <-. unfold log_records at 1. cbn [files].
    rewrite Hpath, lookup_insert_eq, Hsent.
    unfold log_records. now rewrite Hf.
  - now rewrite Hpath, Hw2.
  - rewrite Hpath, Hf. exact Harr.
Qed.

Lemma process_reminders_log_witness :
  exists stats env' self' composed,
    DailyReminderJob.process_reminders (Some (Fixtures.jan 15 0 0))
      (Fixtures.log_env, Fixtures.loaded_job) = (Ok stats, (env', self'))
    /\ log_records env' "data/email_log.json" = (Fixtures.old_record :: composed)%list.
Proof.
  destruct (DailyReminderJob.process_reminders (Some (Fixtures.jan 15 0 0))
              (Fixtures.log_env, Fixtures.loaded_job))
    as [[stats|err] [env' self']] eqn:H; [|vm_compute in H; discriminate].
  destruct (process_reminders_log _ _ _ _ _ _ H) as (composed & _ & Hlog).
  - reflexivity.
  - intros j Hj. vm_compute in Hj. injection Hj as <-. eexists. reflexivity.
  - exists stats, env', self', composed. split; [reflexivity|]. exact Hlog.
Defined.

(** ** Loading *)

Section Loading.

Import DailyReminderJob.

Lemma foldl_insert_pairs_lookup {V} (l : list (string * V)) (m : gmap string V)
    (k : string) :
  foldl (fun m '(key, value) => <[key := value]> m) m l !! k =
  match List.find (fun entry => bool_decide (fst entry = k)) (rev l) with
  | Some entry => Some (snd entry)
  | None => m !! k
  end.
Proof.
  induction l as [|[key value] l IH] using rev_ind; [reflexivity|].
  rewrite foldl_app, rev_app_distr. cbn [foldl rev app List.find fst snd].
  case_bool_decide as Hk.
  - rewrite <- Hk. apply lookup_insert_eq.
  - rewrite lookup_insert_ne by exact Hk. apply IH.
Qed.

(** A load with the three files in place, in full. *)
Lemma load_data_loads env job us ss by_user :
  data_files env !! users_file job = Some (UsersJson us) ->
  data_files env !! schedules_file job = Some (SchedulesJson ss) ->
  data_files env !! enrollments_file job = Some (EnrollmentsJson by_user) ->
  load_data (env, job)
  = (Ok tt,
     (env,
      make (users_file job) (enrollments_file job) (schedules_file job) us
        (foldl (fun m '(user_id, enrollments) => <[user_id := enrollments]> m)
           (enrollments_by_user job) by_user)
        ss (Some (ScheduleStatusService.init ss)) (email_service job))).
Proof.
  intros Hu Hs He.
  unfold load_data, bind, self_, data_load, set_self, ret, raise.
  rewrite Hu, Hs, He. reflexivity.
Qed.

Lemma load_data_no_users env job :
  data_files env !! users_file job = None ->
  load_data (env, job) = (Raise (FileNotFoundError (users_file job)), (env, job)).
Proof.
  intros Hu. unfold load_data, bind, self_, data_load, set_self, ret, raise.
  now rewrite Hu.
Qed.

Lemma load_data_no_schedules env job us :
  data_files env !! users_file job = Some (UsersJson us) ->
  data_files env !! schedules_file job = None ->
  load_data (env, job)
  = (Raise (FileNotFoundError (schedules_file job)),
     (env,
      make (users_file job) (enrollments_file job) (schedules_file job) us
        (enrollments_by_user job) (schedules job) (status_service job)
        (email_service job))).
Proof.
  intros Hu Hs. unfold load_data, bind, self_, data_load, set_self, ret, raise.
  now rewrite Hu, Hs.
Qed.

End Loading.

(** X19.  With the three data files in place [load_data] succeeds,
    leaves the environment and the email service alone, replaces the
    users and the schedules by those of the files and builds the status
    service from the new schedules.  The enrollments are merged into the
    map the job already holds: for a user id the job then holds the last
    entry of the file with that id, and for an id the file does not list,
    whatever it held before the load. *)
Theorem load_data_loaded
    (env : Env) (job : DailyReminderJob.t) (us : list User.t)
    (ss : list CourseSchedule.t) (by_user : list (string * list CourseEnrollment.t)) :
  data_files env !! DailyReminderJob.users_file job = Some (UsersJson us) ->
  data_files env !! DailyReminderJob.schedules_file job = Some (SchedulesJson ss) ->
  data_files env !! DailyReminderJob.enrollments_file job
    = Some (EnrollmentsJson by_user) ->
  exists job',
    DailyReminderJob.load_data (env, job) = (Ok tt, (env, job'))
    /\ DailyReminderJob.users job' = us
    /\ DailyReminderJob.schedules job' = ss
    /\ DailyReminderJob.status_service job' = Some (ScheduleStatusService.init ss)
    /\ DailyReminderJob.email_service job' = DailyReminderJob.email_service job
    /\ forall user_id,
        DailyReminderJob.enrollments_by_user job' !! user_id
        = match List.find (fun entry => bool_decide (fst entry = user_id))
                  (rev by_user) with
          | Some entry => Some (snd entry)
          | None => DailyReminderJob.enrollments_by_user job !! user_id
          end.
Proof.
  intros Hu Hs He. eexists. split; [apply (load_data_loads env job us ss by_user Hu Hs He)|].
  cbn [DailyReminderJob.users DailyReminderJob.schedules DailyReminderJob.status_service
       DailyReminderJob.email_service DailyReminderJob.enrollments_by_user].
  repeat split. intros user_id. apply foldl_insert_pairs_lookup.
Qed.

Lemma load_data_loaded_witness :
  exists job',
    DailyReminderJob.load_data
      (Fixtures.batch_env [Fixtures.completed_enrollment], Fixtures.undated_job)
    = (Ok tt, (Fixtures.batch_env [Fixtures.completed_enrollment], job'))
    /\ DailyReminderJob.users job' = [Fixtures.ann; Fixtures.bob]
    /\ DailyReminderJob.enrollments_by_user job' !! "user_001"
       = Some [Fixtures.completed_enrollment].
Proof.
  destruct (load_data_loaded (Fixtures.batch_env [Fixtures.completed_enrollment])
              Fixtures.undated_job [Fixtures.ann; Fixtures.bob]
              [Fixtures.schedule_2_days]
              [("user_001", [Fixtures.completed_enrollment]);
               ("user_002", [Fixtures.in_progress_enrollment])]
              eq_refl eq_refl eq_refl)
    as (job' & Hload & Hus & _ & _ & _ & Hen).
  exists job'. split; [exact Hload|]. split; [exact Hus|].
  rewrite Hen. reflexivity.
Defined.

(** X20.  A missing data file makes [run] raise FileNotFoundError for
    that file without composing or writing anything.  When the users
    file is missing the job is left as it was; when the users file is
    there and the schedules file is missing the job is left with the new
    users but with its old schedules, enrollments and status service. *)
Theorem run_missing_file
    (env : Env) (job : DailyReminderJob.t) (current_date : option datetime) :
  (data_files env !! DailyReminderJob.users_file job = None ->
   DailyReminderJob.run current_date (env, job)
   = (Raise (FileNotFoundError (DailyReminderJob.users_file job)), (env, job)))
  /\ (forall us,
        data_files env !! DailyReminderJob.users_file job = Some (UsersJson us) ->
        data_files env !! DailyReminderJob.schedules_file job = None ->
        DailyReminderJob.run current_date (env, job)
        = (Raise (FileNotFoundError (DailyReminderJob.schedules_file job)),
           (env,
            DailyReminderJob.make (DailyReminderJob.users_file job)
              (DailyReminderJob.enrollments_file job)
              (DailyReminderJob.schedules_file job) us
              (DailyReminderJob.enrollments_by_user job)
              (DailyReminderJob.schedules job)
              (DailyReminderJob.status_service job)
              (DailyReminderJob.email_service job)))).
Proof.
  split.
  - intros Hu. unfold DailyReminderJob.run, try_except, bind.
    now rewrite (load_data_no_users env job Hu).
  - intros us Hu Hs. unfold DailyReminderJob.run, try_except, bind.
    now rewrite (load_data_no_schedules env job us Hu Hs).
Qed.

Lemma run_missing_file_witness :
  DailyReminderJob.run None (Fixtures.log_env, DailyReminderJob.new)
  = (Raise (FileNotFoundError "data/users.json"),
     (Fixtures.log_env, DailyReminderJob.new)).
Proof.
  apply (proj1 (run_missing_file Fixtures.log_env DailyReminderJob.new None)).
  reflexivity.
Defined.

(** ** The paging of the email log *)

Section Paging.

Import App.

Lemma firstn_skipn_add {A} (a b : nat) (l : list A) :
  (firstn a l ++ firstn b (skipn a l))%list = firstn (a + b) l.
Proof.
  revert l. induction a as [|a IH]; intros l; [reflexivity|].
  destruct l as [|x l]; cbn [firstn skipn Nat.add app];
    [now rewrite firstn_nil|now rewrite IH].
Qed.

(** A page with a positive number and size is a chunk of the list. *)
Lemma py_slice_chunk {A} (l : list A) (start size : Z) :
  0 <= start -> 0 < size ->
  py_slice l start (start + size)
  = firstn (Z.to_nat size) (skipn (Z.to_nat start) l).
Proof.
  intros Hs Hp. unfold py_slice, adjust_index.
  set (n := Z.of_nat (length l)).
  assert (Hn : n = Z.of_nat (length l)) by reflexivity.
  destruct (start <? 0) eqn:H1; [apply Z.ltb_lt in H1; lia|].
  destruct (start + size <? 0) eqn:H2; [apply Z.ltb_lt in H2; lia|].
  destruct (Z_le_gt_dec n start) as [Hge|Hlt].
  - rewrite (Z.min_r start n) by lia.
    rewrite !skipn_all2 by lia. now rewrite !firstn_nil.
  - rewrite (Z.min_l start n) by lia.
    destruct (Z_le_gt_dec (start + size) n) as [Hin|Hout].
    + rewrite (Z.min_l (start + size) n) by lia. f_equal. lia.
    + rewrite (Z.min_r (start + size) n) by lia.
      rewrite !firstn_all2; [reflexivity| |]; rewrite length_skipn; lia.
Qed.

Lemma ceil_div_bounds (n p : Z) :
  0 < p -> (((n + p - 1) / p) - 1) * p < n <= ((n + p - 1) / p) * p.
Proof.
  intros Hp.
  pose proof (Z.div_mod (n + p - 1) p ltac:(lia)).
  pose proof (Z.mod_pos_bound (n + p - 1) p Hp). nia.
Qed.

(** The first [k] chunks of size [p] are the first [k * p] elements. *)
Lemma concat_chunks {A} (l : list A) (p k : nat) :
  concat (map (fun i => firstn p (skipn (i * p) l)) (seq 0 k)) = firstn (k * p) l.
Proof.
  induction k as [|k IH]; [reflexivity|].
  rewrite seq_S, map_app, concat_app, IH. cbn [map concat Nat.add].
  rewrite app_nil_r, firstn_skipn_add. f_equal. lia.
Qed.

(** A page with a positive number and size, in full. *)
Lemma paginate_positive (all_logs : list json) (page per_page : Z) :
  1 <= page -> 1 <= per_page ->
  paginate all_logs page per_page
  = Response (make_page_response
                (firstn (Z.to_nat per_page)
                   (skipn (Z.to_nat ((page - 1) * per_page)) all_logs))
                (Z.of_nat (length all_logs)) page per_page
                ((Z.of_nat (length all_logs) + per_page - 1) / per_page)).
Proof.
  intros Hpage Hp. unfold paginate.
  destruct (per_page =? 0) eqn:H0; [apply Z.eqb_eq in H0; lia|].
  now rewrite py_slice_chunk by nia.
Qed.

End Paging.

(** X21.  The paging of the email log raises ZeroDivisionError when
    per_page is 0.  For page >= 1 and per_page >= 1 it answers with the
    records after the first (page - 1) * per_page, at most per_page of
    them, echoes page and per_page, reports the length of the log as
    total and the least number of pages that hold the log as
    total_pages, and shows nothing on a page beyond total_pages. *)
Theorem paginate_pages (all_logs : list json) (page per_page : Z) :
  (per_page = 0 -> App.paginate all_logs page per_page = App.ZeroDivisionError)
  /\ (1 <= page -> 1 <= per_page ->
      exists r,
        App.paginate all_logs page per_page = App.Response r
        /\ App.logs r
           = firstn (Z.to_nat per_page)
               (skipn (Z.to_nat ((page - 1) * per_page)) all_logs)
        /\ (length (App.logs r) <= Z.to_nat per_page)%nat
        /\ App.total r = Z.of_nat (length all_logs)
        /\ App.page r = page /\ App.per_page r = per_page
        /\ (App.total_pages r - 1) * per_page < App.total r
           <= App.total_pages r * per_page
        /\ (App.total_pages r < page -> App.logs r = [])).
Proof.
  split.
  - intros ->. reflexivity.
  - intros Hpage Hp. rewrite (paginate_positive all_logs page per_page Hpage Hp).
    eexists. split; [reflexivity|].
    cbn [App.logs App.total App.page App.per_page App.total_pages].
    pose proof (ceil_div_bounds (Z.of_nat (length all_logs)) per_page ltac:(lia)) as Hc.
    split; [reflexivity|]. split; [apply firstn_le_length|].
    split; [reflexivity|]. split; [reflexivity|]. split; [reflexivity|].
    split; [exact Hc|].
    intros Hbeyond. rewrite skipn_all2 by nia. apply firstn_nil.
Qed.

Lemma paginate_pages_witness :
  exists r,
    App.paginate [Fixtures.old_record; Fixtures.new_record; Fixtures.old_record] 2 2
    = App.Response r
    /\ App.logs r = [Fixtures.old_record]
    /\ App.total_pages r = 2.
Proof.
  destruct (proj2 (paginate_pages
                     [Fixtures.old_record; Fixtures.new_record; Fixtures.old_record]
                     2 2))
    as (r & Hr & Hlogs & _); [lia|lia|].
  exists r. split; [exact Hr|]. split; [exact Hlogs|].
  vm_compute in Hr. injection Hr as <-. reflexivity.
Defined.

(** X22.  For per_page >= 1 the pages 1 to total_pages, put end to end,
    are the whole log: every record is shown on exactly one page, in
    order. *)
Theorem paginate_partition (all_logs : list json) (per_page : Z) :
  1 <= per_page ->
  concat (map (fun i => page_logs all_logs per_page (Z.of_nat i + 1))
            (seq 0 (Z.to_nat ((Z.of_nat (length all_logs) + per_page - 1) / per_page))))
  = all_logs.
Proof.
  intros Hp.
  pose proof (ceil_div_bounds (Z.of_nat (length all_logs)) per_page ltac:(lia)) as Hc.
  set (k := Z.to_nat ((Z.of_nat (length all_logs) + per_page - 1) / per_page)) in *.
  rewrite (map_ext _ (fun i => firstn (Z.to_nat per_page)
                                 (skipn (i * Z.to_nat per_page) all_logs))).
  - rewrite concat_chunks. apply firstn_all2. nia.
  - intros i. unfold page_logs.
    rewrite (paginate_positive all_logs (Z.of_nat i + 1) per_page) by lia.
    cbn [App.logs]. do 2 f_equal. nia.
Qed.

Lemma paginate_partition_witness :
  concat (map (fun i =>
                 page_logs [Fixtures.old_record; Fixtures.new_record; Fixtures.old_record]
                   2 (Z.of_nat i + 1))
            (seq 0 (Z.to_nat ((Z.of_nat 3 + 2 - 1) / 2))))
  = [Fixtures.old_record; Fixtures.new_record; Fixtures.old_record].
Proof.
  apply (paginate_partition
           [Fixtures.old_record; Fixtures.new_record; Fixtures.old_record] 2).
  lia.
Defined.

(** X23.  For per_page >= 1 a page number below 1 is not rejected: page 0
    shows nothing, and a negative page shows records counted from the
    end of the log, those from position
    [max 0 (total + (page - 1) * per_page)] up to
    [max 0 (total + page * per_page)]; when the log is long enough that
    is a full page of per_page records. *)
Theorem paginate_nonpositive_page (all_logs : list json) (page per_page : Z) :
  page <= 0 -> 1 <= per_page ->
  exists r,
    App.paginate all_logs page per_page = App.Response r
    /\ (page = 0 -> App.logs r = [])
    /\ (page < 0 ->
        App.logs r
        = firstn (Z.to_nat (Z.max 0 (Z.of_nat (length all_logs) + page * per_page)
                            - Z.max 0 (Z.of_nat (length all_logs)
                                       + (page - 1) * per_page)))
            (skipn (Z.to_nat (Z.max 0 (Z.of_nat (length all_logs)
                                        + (page - 1) * per_page)))
               all_logs)
        /\ ((1 - page) * per_page <= Z.of_nat (length all_logs) ->
            length (App.logs r) = Z.to_nat per_page)).
Proof.
  intros Hpage Hp. unfold App.paginate.
  destruct (per_page =? 0) eqn:H0; [apply Z.eqb_eq in H0; lia|].
  eexists. split; [reflexivity|]. cbn [App.logs].
  unfold App.py_slice, App.adjust_index.
  destruct ((page - 1) * per_page <? 0) eqn:H1; [|apply Z.ltb_ge in H1; nia].
  replace ((page - 1) * per_page + per_page) with (page * per_page) by lia.
  split.
  - intros ->. cbn [Z.mul Z.ltb Z.compare].
    rewrite Z.min_l by lia.
    replace (Z.to_nat (0 - _)) with 0%nat by lia. reflexivity.
  - intros Hneg.
    destruct (page * per_page <? 0) eqn:H2; [|apply Z.ltb_ge in H2; nia].
    replace ((page - 1) * per_page + Z.of_nat (length all_logs))
      with (Z.of_nat (length all_logs) + (page - 1) * per_page) by lia.
    replace (page * per_page + Z.of_nat (length all_logs))
      with (Z.of_nat (length all_logs) + page * per_page) by lia.
    split; [reflexivity|].
    intros Hlong. rewrite length_firstn, length_skipn. lia.
Qed.

Lemma paginate_nonpositive_page_witness :
  exists r,
    App.paginate [Fixtures.old_record; Fixtures.new_record; Fixtures.old_record] (-1) 1
    = App.Response r
    /\ length (App.logs r) = Z.to_nat 1.
Proof.
  destruct (paginate_nonpositive_page
              [Fixtures.old_record; Fixtures.new_record; Fixtures.old_record] (-1) 1)
    as (r & Hr & _ & Hneg); [lia|lia|].
  exists r. split; [exact Hr|].
  apply Hneg; [lia|]. cbn [length]. lia.
Defined.
